(** * A shallow embedding of the ATT client, the GATT client and the SMP
      dispatcher of package ble, with the properties of their specification.

    Integers of the Go code are [Z] (bytes in [0, 256), uint16 with its
    wrap-around written out), byte slices are [list Z], Go maps are stdpp
    [gmap]s.  Code that touches the bearer, the transmit-buffer channel or
    the subscription table is written in a small state monad over the
    client record; a call either returns, panics, blocks on a channel or
    runs out of loop fuel. *)

From stdpp Require Import gmap strings list.
From Stdlib Require Import ZArith Lia.

Local Open Scope Z_scope.

(** ** Package ble: constants and error values *)

Module Ble.

(** const DefaultMTU = 339 *)
Definition DefaultMTU : Z := 339.

(** const MaxMTU = 512 + 3 *)
Definition MaxMTU : Z := 512 + 3.

(** Modelled from the spec: the ATT error codes of package ble (error.go
    is not under src/), with the values of the wire format the spec names
    (Bluetooth Core, Vol 3 Part F, 3.4.1.1). *)
Definition ErrReqNotSupp : Z := 0x06.

(** Go error values.  [ErrInvalidArgument], [ErrInvalidResponse] and
    [ErrSeqProtoTimeout] are the sentinels of package att; [ATTError] is
    [ble.ATTError(code)]; [ErrBearer] stands for an error produced by the
    L2CAP connection; [Errorf msg e] is [fmt.Errorf(msg + ": %w", e)]. *)
Inductive error : Type :=
| ErrInvalidArgument
| ErrInvalidResponse
| ErrSeqProtoTimeout
| ATTError (code : Z)
| ErrBearer (n : nat)
| ErrMessage (msg : string)
| Errorf (msg : string) (e : error).

End Ble.

Export Ble.

(** ** Byte slices *)

Module Bytes.

(** How a Go call ends. *)
Inductive outcome (A : Type) : Type :=
| Returned (a : A)   (* the call returned [a] *)
| Panicked           (* run-time panic: index out of range, division by zero *)
| Blocked            (* the goroutine waits on a channel nobody serves *)
| Unfinished.        (* the loop fuel of the model ran out *)

Arguments Returned {A} a.
Arguments Panicked {A}.
Arguments Blocked {A}.
Arguments Unfinished {A}.

Definition obind {A B} (o : outcome A) (k : A -> outcome B) : outcome B :=
  match o with
  | Returned a => k a
  | Panicked => Panicked
  | Blocked => Blocked
  | Unfinished => Unfinished
  end.

(** uint8(v), uint16(v) *)
Definition uint8 (v : Z) : Z := v mod 256.
Definition uint16 (v : Z) : Z := v mod 65536.

(** b[i] *)
Definition index (b : list Z) (i : nat) : outcome Z :=
  match b !! i with
  | Some v => Returned v
  | None => Panicked
  end.

(** b[i] = v *)
Definition set8 (i : nat) (v : Z) (b : list Z) : outcome (list Z) :=
  if decide (i < length b)%nat then Returned (<[i := v]> b) else Panicked.

(** b[:n] of a slice whose capacity is its length *)
Definition upto (n : nat) (b : list Z) : outcome (list Z) :=
  if decide (n <= length b)%nat then Returned (take n b) else Panicked.

(** b[n:] *)
Definition from (n : nat) (b : list Z) : outcome (list Z) :=
  if decide (n <= length b)%nat then Returned (drop n b) else Panicked.

(** copy(b[off:], src): copies min(len(b) - off, len(src)) bytes *)
Definition copy_at (off : nat) (src : list Z) (b : list Z) : outcome (list Z) :=
  if decide (off <= length b)%nat
  then Returned (take off b ++ take (length b - off) src
                   ++ drop (off + length src) b)
  else Panicked.

(** binary.LittleEndian.Uint16(b[off:off+2]) *)
Definition Uint16 (off : nat) (b : list Z) : outcome Z :=
  match b !! off, b !! S off with
  | Some lo, Some hi => Returned (lo + 256 * hi)
  | _, _ => Panicked
  end.

(** binary.LittleEndian.PutUint16(b[off:off+2], v) *)
Definition PutUint16 (off : nat) (v : Z) (b : list Z) : outcome (list Z) :=
  if decide (S off < length b)%nat
  then Returned (<[S off := (v / 256) mod 256]> (<[off := v mod 256]> b))
  else Panicked.

(** make([]byte, n) *)
Definition make (n : Z) : list Z := replicate (Z.to_nat n) 0.

End Bytes.

Export Bytes.

(** ** Package att: the Attribute Protocol client (linux/att/client.go) *)

Module Att.

(** Modelled from the spec: the opcode constants and the table [rspOfReq]
    (att_gen.go and att.go are not under src/), with the values of the wire
    format the spec names (Bluetooth Core, Vol 3 Part F, 3.4.8). *)
Definition ErrorResponseCode : Z := 0x01.
Definition ExchangeMTURequestCode : Z := 0x02.
Definition ExchangeMTUResponseCode : Z := 0x03.
Definition FindInformationRequestCode : Z := 0x04.
Definition FindInformationResponseCode : Z := 0x05.
Definition ReadByTypeRequestCode : Z := 0x08.
Definition ReadByTypeResponseCode : Z := 0x09.
Definition ReadRequestCode : Z := 0x0a.
Definition ReadResponseCode : Z := 0x0b.
Definition ReadBlobRequestCode : Z := 0x0c.
Definition ReadBlobResponseCode : Z := 0x0d.
Definition ReadMultipleRequestCode : Z := 0x0e.
Definition ReadMultipleResponseCode : Z := 0x0f.
Definition ReadByGroupTypeRequestCode : Z := 0x10.
Definition ReadByGroupTypeResponseCode : Z := 0x11.
Definition WriteRequestCode : Z := 0x12.
Definition WriteResponseCode : Z := 0x13.
Definition PrepareWriteRequestCode : Z := 0x16.
Definition PrepareWriteResponseCode : Z := 0x17.
Definition ExecuteWriteRequestCode : Z := 0x18.
Definition ExecuteWriteResponseCode : Z := 0x19.
Definition HandleValueNotificationCode : Z := 0x1b.
Definition HandleValueIndicationCode : Z := 0x1d.
Definition HandleValueConfirmationCode : Z := 0x1e.

(** rspOfReq[op]; an opcode that is not a request maps to the zero byte *)
Definition rspOfReq (op : Z) : Z :=
  if op =? ExchangeMTURequestCode then ExchangeMTUResponseCode
  else if op =? FindInformationRequestCode then FindInformationResponseCode
  else if op =? ReadByTypeRequestCode then ReadByTypeResponseCode
  else if op =? ReadRequestCode then ReadResponseCode
  else if op =? ReadBlobRequestCode then ReadBlobResponseCode
  else if op =? ReadMultipleRequestCode then ReadMultipleResponseCode
  else if op =? ReadByGroupTypeRequestCode then ReadByGroupTypeResponseCode
  else if op =? WriteRequestCode then WriteResponseCode
  else if op =? PrepareWriteRequestCode then PrepareWriteResponseCode
  else if op =? ExecuteWriteRequestCode then ExecuteWriteResponseCode
  else 0.

(** Modelled from the spec: newErrorResponse(op, h, s) (not under src/)
    builds the five bytes of an Error Response: opcode, request opcode in
    error, attribute handle in error (little-endian), error code. *)
Definition newErrorResponse (op h s : Z) : list Z :=
  [ErrorResponseCode; op; h mod 256; (h / 256) mod 256; s].

(** What the select statement of sendReq can receive before its timer
    fires: a frame on c.rspc or an error on c.chErr. *)
Inductive incoming : Type :=
| OnRspc (rsp : list Z)
| OnChErr (e : error).

(** What c.l2c.Read hands to the receive loop: a frame of n bytes, the
    error io.ErrClosedPipe, or another error. *)
Inductive readResult : Type :=
| ReadFrame (b : list Z)
| ReadClosedPipe
| ReadError (e : error).

(** Which case of a select statement with a default fires: c.done,
    c.connClosed, or the default. *)
Inductive poll : Type := PollDone | PollClosed | PollDefault.

(** Which case of a select statement with a send case fires: c.done,
    c.connClosed, the send, or the default (when the statement has one
    and the channel is full). *)
Inductive pick : Type := PickDone | PickClosed | PickSend | PickDefault.

(** One turn of the receive loop as the environment decides it: the
    select at the top, the result of the read, the select after the read
    and the select that routes the frame. *)
Record turn : Type := mkTurn {
  atTop : poll;
  readRes : readResult;
  afterRead : poll;
  atRoute : pick
}.

(** What an operation does to the bearer and to the channels, in program
    order. *)
Inductive event : Type :=
| EvRecvTxBuf                            (* txBuf := <-c.chTxBuf *)
| EvSendTxBuf (n : nat)                  (* c.chTxBuf <- txBuf, n = len(txBuf) *)
| EvWrite (b : list Z) (e : option error) (* c.l2c.Write(b) and its error *)
| EvSetRxMTU (mtu : Z)                   (* c.l2c.SetRxMTU(mtu) *)
| EvSetTxMTU (mtu : Z)                   (* c.l2c.SetTxMTU(mtu) *)
| EvRead (r : readResult)                (* n, err := c.l2c.Read(c.rxBuf) *)
| EvToInc (b : list Z)                   (* c.inc <- b *)
| EvToRspc (b : list Z)                  (* c.rspc <- b *)
| EvToHandler (b : list Z)               (* ch <- asyncWork{..., data: b} *)
| EvChErr (e : error).                   (* c.chErr <- e *)

Section Bearer.

(** The far side of the connection: its state [P], what a Write does to
    it and which error Write returns, and what the receive loop hands to
    the waiting request once the request is on the wire.  The list of
    arrivals is finite: after its last element nothing comes until the
    two-second timer of sendReq fires. *)
Context {P : Type}.
Variable l2cWrite : P -> list Z -> P * option error.
Variable arrivals : P -> list incoming.

(** ble.Conn, as far as the client uses it *)
Record Conn : Type := mkConn {
  rxMTU : Z;
  txMTU : Z;
  peer : P
}.

(** att.Client: the connection, the contents of the channel chTxBuf
    (capacity 1), the local variable txBuf of the running operation, and
    the trace of what happened so far (oldest first). *)
Record Client : Type := mkClient {
  l2c : Conn;
  chTxBuf : list (list Z);
  txBuf : list Z;
  trace : list event
}.

Definition M (A : Type) : Type := Client -> outcome A * Client.

Definition ret {A} (a : A) : M A := fun c => (Returned a, c).

Definition bind {A B} (m : M A) (k : A -> M B) : M B :=
  fun c =>
    match m c with
    | (Returned a, c') => k a c'
    | (Panicked, c') => (Panicked, c')
    | (Blocked, c') => (Blocked, c')
    | (Unfinished, c') => (Unfinished, c')
    end.

(** a pure computation that may panic *)
Definition lift {A} (o : outcome A) : M A := fun c => (o, c).

(** txBuf := <-c.chTxBuf *)
Definition recvTxBuf : M unit :=
  fun c =>
    match chTxBuf c with
    | [] => (Blocked, c)
    | b :: q => (Returned tt, mkClient (l2c c) q b (trace c ++ [EvRecvTxBuf]))
    end.

(** c.chTxBuf <- txBuf; the channel holds at most one buffer *)
Definition sendTxBuf : M unit :=
  fun c =>
    match chTxBuf c with
    | [] => (Returned tt,
             mkClient (l2c c) [txBuf c] (txBuf c)
                      (trace c ++ [EvSendTxBuf (length (txBuf c))]))
    | _ :: _ => (Blocked, c)
    end.

(** defer func() { c.chTxBuf <- txBuf }(): the deferred send runs when
    the body returns and also when it panics. *)
Definition deferSendTxBuf {A} (body : M A) : M A :=
  fun c =>
    match body c with
    | (Returned a, c') =>
        match sendTxBuf c' with
        | (Returned _, c'') => (Returned a, c'')
        | (_, c'') => (Blocked, c'')
        end
    | (Panicked, c') =>
        match sendTxBuf c' with
        | (Returned _, c'') => (Panicked, c'')
        | (_, c'') => (Blocked, c'')
        end
    | (o, c') => (o, c')
    end.

(** c.l2c.TxMTU() *)
Definition TxMTU : M Z := fun c => (Returned (txMTU (l2c c)), c).

(** c.l2c.SetRxMTU(mtu) *)
Definition l2cSetRxMTU (mtu : Z) : M unit :=
  fun c =>
    (Returned tt,
     mkClient (mkConn mtu (txMTU (l2c c)) (peer (l2c c)))
              (chTxBuf c) (txBuf c) (trace c ++ [EvSetRxMTU mtu])).

(** c.l2c.SetTxMTU(mtu) *)
Definition l2cSetTxMTU (mtu : Z) : M unit :=
  fun c =>
    (Returned tt,
     mkClient (mkConn (rxMTU (l2c c)) mtu (peer (l2c c)))
              (chTxBuf c) (txBuf c) (trace c ++ [EvSetTxMTU mtu])).

(** _, err := c.l2c.Write(b) *)
Definition l2cWriteM (b : list Z) : M (option error) :=
  fun c =>
    let '(p', e) := l2cWrite (peer (l2c c)) b in
    (Returned e,
     mkClient (mkConn (rxMTU (l2c c)) (txMTU (l2c c)) p')
              (chTxBuf c) (txBuf c) (trace c ++ [EvWrite b e])).

(** req := T(txBuf[:n]) followed by the setters [fill]: the request
    shares its memory with txBuf, so what the setters write is written
    into the buffer. *)
Definition request (n : nat) (fill : list Z -> outcome (list Z)) : M (list Z) :=
  fun c =>
    match obind (upto n (txBuf c)) fill with
    | Returned req =>
        (Returned req,
         mkClient (l2c c) (chTxBuf c) (req ++ drop n (txBuf c)) (trace c))
    | Panicked => (Panicked, c)
    | Blocked => (Blocked, c)
    | Unfinished => (Unfinished, c)
    end.

(** txBuf = make([]byte, n) *)
Definition reallocTxBuf (n : Z) : M unit :=
  fun c => (Returned tt, mkClient (l2c c) (chTxBuf c) (make n) (trace c)).

(** The for/select loop of sendReq over the frames and errors that
    arrive: the response or an Error Response ends the wait; any other
    frame is answered with ErrReqNotSupp and the wait goes on; an error
    on chErr, or the timer once nothing more arrives, fails the
    request. *)
Fixpoint awaitRsp (reqop : Z) (inc : list incoming) : M (list Z * option error) :=
  match inc with
  | [] => ret ([], Some (Errorf "ATT request timeout" ErrSeqProtoTimeout))
  | OnChErr e :: _ => ret ([], Some (Errorf "ATT request failed" e))
  | OnRspc rsp :: inc' =>
      bind (lift (index rsp 0)) (fun op =>
      if (op =? ErrorResponseCode) || (op =? rspOfReq reqop)
      then ret (rsp, None)
      else
        let errRsp := newErrorResponse op 0x0000 ErrReqNotSupp in
        bind (l2cWriteM errRsp) (fun err =>
        match err with
        | Some e => ret ([], Some (Errorf "unexpected ATT response received" e))
        | None => awaitRsp reqop inc'
        end))
  end.

(** func (c *Client) sendReq(b []byte) (rsp []byte, err error) *)
Definition sendReq (b : list Z) : M (list Z * option error) :=
  bind (l2cWriteM b) (fun err =>
  match err with
  | Some e => ret ([], Some (Errorf "send ATT request failed" e))
  | None =>
      bind (lift (index b 0)) (fun reqop =>
      fun c => awaitRsp reqop (arrivals (peer (l2c c))) c)
  end).

Local Notation "'let*' x ':=' m 'in' k" := (bind m (fun x => k))
  (at level 10, x pattern, k at level 200).
Local Notation "'let?' x ':=' o 'in' k" := (obind o (fun x => k))
  (at level 10, x pattern, k at level 200).

(** func NewClient(l2c ble.Conn, ...) *Client: the channel chTxBuf is
    created with capacity 1 and receives one buffer of TxMTU bytes. *)
Definition NewClient (conn : Conn) : Client :=
  mkClient conn [make (txMTU conn)] [] [].

(** *** Accessors of the PDU types

    Modelled from the spec: the generated accessors of the PDU types
    (att_gen.go is not under src/).  Each one reads or writes the field
    of its name at the octets that field has in the wire format the spec
    names (Bluetooth Core, Vol 3 Part F): AttributeOpcode is octet 0 of
    every PDU, and SetAttributeOpcode() stores the opcode of the PDU
    type there. *)
Definition AttributeOpcode (r : list Z) : outcome Z := index r 0.
Definition SetAttributeOpcode (code : Z) (r : list Z) := set8 0 code r.
(** ExchangeMTURequest.SetClientRxMTU, ExchangeMTUResponse.ServerRxMTU *)
Definition SetClientRxMTU (v : Z) (r : list Z) := PutUint16 1 v r.
Definition ServerRxMTU (r : list Z) : outcome Z := Uint16 1 r.
(** SetStartingHandle, SetEndingHandle of the three range requests *)
Definition SetStartingHandle (v : Z) (r : list Z) := PutUint16 1 v r.
Definition SetEndingHandle (v : Z) (r : list Z) := PutUint16 3 v r.
(** ReadByTypeRequest.SetAttributeType, ReadByGroupTypeRequest.SetAttributeGroupType *)
Definition SetAttributeType (uuid : list Z) (r : list Z) := copy_at 5 uuid r.
Definition SetAttributeGroupType (uuid : list Z) (r : list Z) := copy_at 5 uuid r.
(** SetAttributeHandle, SetValueOffset, SetAttributeValue, SetFlags *)
Definition SetAttributeHandle (v : Z) (r : list Z) := PutUint16 1 v r.
Definition SetValueOffset (v : Z) (r : list Z) := PutUint16 3 v r.
Definition SetAttributeValue (v : list Z) (r : list Z) := copy_at 3 v r.
Definition SetFlags (v : Z) (r : list Z) := set8 1 v r.
(** FindInformationResponse.Format and InformationData *)
Definition Format (r : list Z) : outcome Z := index r 1.
Definition InformationData (r : list Z) : outcome (list Z) := from 2 r.
(** Length and AttributeDataList of the ReadByType and ReadByGroupType responses *)
Definition Length (r : list Z) : outcome Z := index r 1.
Definition AttributeDataList (r : list Z) : outcome (list Z) := from 2 r.
(** ReadResponse.AttributeValue, ReadBlobResponse.PartAttributeValue,
    ReadMultipleResponse.SetOfValues *)
Definition AttributeValue (r : list Z) : outcome (list Z) := from 1 r.
Definition PartAttributeValue (r : list Z) : outcome (list Z) := from 1 r.
Definition SetOfValues (r : list Z) : outcome (list Z) := from 1 r.
(** PrepareWriteResponse: AttributeHandle, ValueOffset, PartAttributeValue *)
Definition AttributeHandle (r : list Z) : outcome Z := Uint16 1 r.
Definition ValueOffset (r : list Z) : outcome Z := Uint16 3 r.
Definition PartAttributeValue5 (r : list Z) : outcome (list Z) := from 5 r.

(** a % b of Go ints with a >= 0: division by zero panics *)
Definition gomod (a b : Z) : outcome Z :=
  if b =? 0 then Panicked else Returned (a mod b).

Definition len (b : list Z) : Z := Z.of_nat (length b).

(** *** The switch that validates the response, one per operation

    [Some e] is the error the switch returns, [None] means that no case
    fired.  A case marked fallthrough runs the body of the next one, so
    a run of fallthrough cases is the disjunction of their guards. *)

Definition ExchangeMTU_switch (rsp : list Z) : outcome (option error) :=
  let? op := index rsp 0 in
  let? ao := AttributeOpcode rsp in
  if (op =? ErrorResponseCode) && (len rsp =? 5)
  then let? code := index rsp 4 in Returned (Some (ATTError code))
  else if (op =? ErrorResponseCode) && negb (len rsp =? 5)
  then Returned (Some ErrInvalidResponse)
  else if negb (op =? ao)
  then Returned (Some ErrInvalidResponse)
  else if negb (len rsp =? 3)
  then Returned (Some ErrInvalidResponse)
  else Returned None.

Definition FindInformation_switch (rsp : list Z) : outcome (option error) :=
  let? op := index rsp 0 in
  let? ao := AttributeOpcode rsp in
  if (op =? ErrorResponseCode) && (len rsp =? 5)
  then let? code := index rsp 4 in Returned (Some (ATTError code))
  else if (op =? ErrorResponseCode) && negb (len rsp =? 5)
  then Returned (Some ErrInvalidResponse)
  else if negb (op =? ao)
  then Returned (Some ErrInvalidResponse)
  else if len rsp <? 6
  then Returned (Some ErrInvalidResponse)
  else
    let? fmt := Format rsp in
    if (fmt =? 0x01) && negb ((len rsp - 2) mod 4 =? 0)
    then Returned (Some ErrInvalidResponse)
    else if (fmt =? 0x02) && negb ((len rsp - 2) mod 18 =? 0)
    then Returned (Some ErrInvalidResponse)
    else Returned None.

Definition ReadByType_switch (rsp : list Z) : outcome (option error) :=
  let? op := index rsp 0 in
  let? ao := AttributeOpcode rsp in
  if (op =? ErrorResponseCode) && (len rsp =? 5)
  then let? code := index rsp 4 in Returned (Some (ATTError code))
  else if (op =? ErrorResponseCode) && negb (len rsp =? 5)
  then Returned (Some ErrInvalidResponse)
  else if negb (op =? ao)
  then Returned (Some ErrInvalidResponse)
  else if len rsp <? 4
  then Returned (Some ErrInvalidResponse)
  else
    let? l := AttributeDataList rsp in
    let? n := Length rsp in
    let? m := gomod (len l) n in
    if negb (m =? 0)
    then Returned (Some ErrInvalidResponse)
    else Returned None.

Definition Read_switch (rsp : list Z) : outcome (option error) :=
  let? op := index rsp 0 in
  let? ao := AttributeOpcode rsp in
  if (op =? ErrorResponseCode) && (len rsp =? 5)
  then let? code := index rsp 4 in Returned (Some (ATTError code))
  else if (op =? ErrorResponseCode) && negb (len rsp =? 5)
  then Returned (Some ErrInvalidResponse)
  else if negb (op =? ao)
  then Returned (Some ErrInvalidResponse)
  else if len rsp <? 1
  then Returned (Some ErrInvalidResponse)
  else Returned None.

Definition ReadBlob_switch (rsp : list Z) : outcome (option error) :=
  let? op := index rsp 0 in
  let? ao := AttributeOpcode rsp in
  if (op =? ErrorResponseCode) && (len rsp =? 5)
  then let? code := index rsp 4 in Returned (Some (ATTError code))
  else if (op =? ErrorResponseCode) && negb (len rsp =? 5)
  then Returned (Some ErrInvalidResponse)
  else if negb (op =? ao)
  then Returned (Some ErrInvalidResponse)
  else if len rsp <? 1
  then Returned (Some ErrInvalidResponse)
  else Returned None.

Definition ReadMultiple_switch (rsp : list Z) : outcome (option error) :=
  let? op := index rsp 0 in
  let? ao := AttributeOpcode rsp in
  if (op =? ErrorResponseCode) && (len rsp =? 5)
  then let? code := index rsp 4 in Returned (Some (ATTError code))
  else if (op =? ErrorResponseCode) && negb (len rsp =? 5)
  then Returned (Some ErrInvalidResponse)
  else if negb (op =? ao)
  then Returned (Some ErrInvalidResponse)
  else if len rsp <? 1
  then Returned (Some ErrInvalidResponse)
  else Returned None.

Definition ReadByGroupType_switch (rsp : list Z) : outcome (option error) :=
  let? op := index rsp 0 in
  let? ao := AttributeOpcode rsp in
  if (op =? ErrorResponseCode) && (len rsp =? 5)
  then let? code := index rsp 4 in Returned (Some (ATTError code))
  else if (op =? ErrorResponseCode) && negb (len rsp =? 5)
  then Returned (Some ErrInvalidResponse)
  else if negb (op =? ao)
  then Returned (Some ErrInvalidResponse)
  else if len rsp <? 4
  then Returned (Some ErrInvalidResponse)
  else
    let? l := AttributeDataList rsp in
    let? n := Length rsp in
    let? m := gomod (len l) n in
    if negb (m =? 0)
    then Returned (Some ErrInvalidResponse)
    else Returned None.

Definition Write_switch (rsp : list Z) : outcome (option error) :=
  let? op := index rsp 0 in
  let? ao := AttributeOpcode rsp in
  if (op =? ErrorResponseCode) && (len rsp =? 5)
  then let? code := index rsp 4 in Returned (Some (ATTError code))
  else if (op =? ErrorResponseCode) && negb (len rsp =? 5)
  then Returned (Some ErrInvalidResponse)
  else if negb (op =? ao)
  then Returned (Some ErrInvalidResponse)
  else Returned None.

Definition PrepareWrite_switch (rsp : list Z) : outcome (option error) :=
  let? op := index rsp 0 in
  let? ao := AttributeOpcode rsp in
  if (op =? ErrorResponseCode) && (len rsp =? 5)
  then let? code := index rsp 4 in Returned (Some (ATTError code))
  else if (op =? ErrorResponseCode) && negb (len rsp =? 5)
  then Returned (Some ErrInvalidResponse)
  else if negb (op =? ao)
  then Returned (Some ErrInvalidResponse)
  else if len rsp <? 5
  then Returned (Some ErrInvalidResponse)
  else Returned None.

(** In ExecuteWrite the second case repeats the guard of the first
    (len(rsp) == 5), as the source has it. *)
Definition ExecuteWrite_switch (rsp : list Z) : outcome (option error) :=
  let? op := index rsp 0 in
  let? ao := AttributeOpcode rsp in
  if (op =? ErrorResponseCode) && (len rsp =? 5)
  then let? code := index rsp 4 in Returned (Some (ATTError code))
  else if (op =? ErrorResponseCode) && (len rsp =? 5)
  then Returned (Some ErrInvalidResponse)
  else if negb (op =? ao)
  then Returned (Some ErrInvalidResponse)
  else Returned None.

(** *** The request operations *)

(** func (c *Client) ExchangeMTU(clientRxMTU int) (serverRxMTU int, err error) *)
Definition ExchangeMTU (clientRxMTU : Z) : M (Z * option error) :=
  if (clientRxMTU <? DefaultMTU) || (clientRxMTU >? MaxMTU)
  then ret (0, Some ErrInvalidArgument)
  else
    let* _ := recvTxBuf in
    deferSendTxBuf (
      let* _ := l2cSetRxMTU clientRxMTU in
      let* req := request 3 (fun r =>
        let? r := SetAttributeOpcode ExchangeMTURequestCode r in
        SetClientRxMTU (uint16 clientRxMTU) r) in
      let* (b, err) := sendReq req in
      match err with
      | Some e => ret (0, Some e)
      | None =>
          let* v := lift (ExchangeMTU_switch b) in
          match v with
          | Some e => ret (0, Some e)
          | None =>
              let* mtu := lift (ServerRxMTU b) in
              let* _ := (fun c =>
                if negb (len (txBuf c) =? mtu)
                then (let* _ := l2cSetTxMTU mtu in reallocTxBuf mtu) c
                else ret tt c) in
              ret (mtu, None)
          end
      end).

(** func (c *Client) FindInformation(starth, endh uint16) (fmt int, data []byte, err error) *)
Definition FindInformation (starth endh : Z) : M (Z * list Z * option error) :=
  if (starth =? 0) || (starth >? endh)
  then ret (0x00, [], Some ErrInvalidArgument)
  else
    let* _ := recvTxBuf in
    deferSendTxBuf (
      let* req := request 5 (fun r =>
        let? r := SetAttributeOpcode FindInformationRequestCode r in
        let? r := SetStartingHandle starth r in
        SetEndingHandle endh r) in
      let* (b, err) := sendReq req in
      match err with
      | Some e => ret (0x00, [], Some e)
      | None =>
          let* v := lift (FindInformation_switch b) in
          match v with
          | Some e => ret (0x00, [], Some e)
          | None =>
              let* fmt := lift (Format b) in
              let* data := lift (InformationData b) in
              ret (fmt, data, None)
          end
      end).

(** func (c *Client) ReadByType(starth, endh uint16, uuid ble.UUID) (int, []byte, error) *)
Definition ReadByType (starth endh : Z) (uuid : list Z) : M (Z * list Z * option error) :=
  if (starth >? endh) || (negb (len uuid =? 2) && negb (len uuid =? 16))
  then ret (0, [], Some ErrInvalidArgument)
  else
    let* _ := recvTxBuf in
    deferSendTxBuf (
      let* req := request (5 + length uuid) (fun r =>
        let? r := SetAttributeOpcode ReadByTypeRequestCode r in
        let? r := SetStartingHandle starth r in
        let? r := SetEndingHandle endh r in
        SetAttributeType uuid r) in
      let* (b, err) := sendReq req in
      match err with
      | Some e => ret (0, [], Some e)
      | None =>
          let* v := lift (ReadByType_switch b) in
          match v with
          | Some e => ret (0, [], Some e)
          | None =>
              let* n := lift (Length b) in
              let* l := lift (AttributeDataList b) in
              ret (n, l, None)
          end
      end).

(** func (c *Client) Read(handle uint16) ([]byte, error) *)
Definition Read (handle : Z) : M (list Z * option error) :=
  let* _ := recvTxBuf in
  deferSendTxBuf (
    let* req := request 3 (fun r =>
      let? r := SetAttributeOpcode ReadRequestCode r in
      SetAttributeHandle handle r) in
    let* (b, err) := sendReq req in
    match err with
    | Some e => ret ([], Some e)
    | None =>
        let* v := lift (Read_switch b) in
        match v with
        | Some e => ret ([], Some e)
        | None =>
            let* val := lift (AttributeValue b) in
            ret (val, None)
        end
    end).

(** func (c *Client) ReadBlob(handle, offset uint16) ([]byte, error) *)
Definition ReadBlob (handle offset : Z) : M (list Z * option error) :=
  let* _ := recvTxBuf in
  deferSendTxBuf (
    let* req := request 5 (fun r =>
      let? r := SetAttributeOpcode ReadBlobRequestCode r in
      let? r := SetAttributeHandle handle r in
      SetValueOffset offset r) in
    let* (b, err) := sendReq req in
    match err with
    | Some e => ret ([], Some e)
    | None =>
        let* v := lift (ReadBlob_switch b) in
        match v with
        | Some e => ret ([], Some e)
        | None =>
            let* val := lift (PartAttributeValue b) in
            ret (val, None)
        end
    end).

(** for _, h := range handles { binary.LittleEndian.PutUint16(p, h); p = p[2:] }
    with p starting at req[off:] *)
Fixpoint putHandles (off : nat) (handles : list Z) (r : list Z) : outcome (list Z) :=
  match handles with
  | [] => Returned r
  | h :: hs => let? r := PutUint16 off h r in putHandles (2 + off) hs r
  end.

(** func (c *Client) ReadMultiple(handles []uint16) ([]byte, error) *)
Definition ReadMultiple (handles : list Z) : M (list Z * option error) :=
  let* mtu := TxMTU in
  if (len handles <? 2) || (len handles * 2 >? mtu - 1)
  then ret ([], Some ErrInvalidArgument)
  else
    let* _ := recvTxBuf in
    deferSendTxBuf (
      let* req := request (1 + length handles * 2) (fun r =>
        let? r := SetAttributeOpcode ReadMultipleRequestCode r in
        putHandles 1 handles r) in
      let* (b, err) := sendReq req in
      match err with
      | Some e => ret ([], Some e)
      | None =>
          let* v := lift (ReadMultiple_switch b) in
          match v with
          | Some e => ret ([], Some e)
          | None =>
              let* val := lift (SetOfValues b) in
              ret (val, None)
          end
      end).

(** func (c *Client) ReadByGroupType(starth, endh uint16, uuid ble.UUID) (int, []byte, error) *)
Definition ReadByGroupType (starth endh : Z) (uuid : list Z) : M (Z * list Z * option error) :=
  if (starth >? endh) || (negb (len uuid =? 2) && negb (len uuid =? 16))
  then ret (0, [], Some ErrInvalidArgument)
  else
    let* _ := recvTxBuf in
    deferSendTxBuf (
      let* req := request (5 + length uuid) (fun r =>
        let? r := SetAttributeOpcode ReadByGroupTypeRequestCode r in
        let? r := SetStartingHandle starth r in
        let? r := SetEndingHandle endh r in
        SetAttributeGroupType uuid r) in
      let* (b, err) := sendReq req in
      match err with
      | Some e => ret (0, [], Some e)
      | None =>
          let* v := lift (ReadByGroupType_switch b) in
          match v with
          | Some e => ret (0, [], Some e)
          | None =>
              let* n := lift (Length b) in
              let* l := lift (AttributeDataList b) in
              ret (n, l, None)
          end
      end).

(** func (c *Client) Write(handle uint16, value []byte) error *)
Definition Write (handle : Z) (value : list Z) : M (option error) :=
  let* mtu := TxMTU in
  if len value >? mtu - 3
  then ret (Some ErrInvalidArgument)
  else
    let* _ := recvTxBuf in
    deferSendTxBuf (
      let* req := request (3 + length value) (fun r =>
        let? r := SetAttributeOpcode WriteRequestCode r in
        let? r := SetAttributeHandle handle r in
        SetAttributeValue value r) in
      let* (b, err) := sendReq req in
      match err with
      | Some e => ret (Some e)
      | None => lift (Write_switch b)
      end).

(** func (c *Client) PrepareWrite(handle uint16, offset uint16, value []byte)
    (uint16, uint16, []byte, error); the request slice has room for the
    value but no setter stores it. *)
Definition PrepareWrite (handle offset : Z) (value : list Z)
  : M (Z * Z * list Z * option error) :=
  let* mtu := TxMTU in
  if len value >? mtu - 5
  then ret (0, 0, [], Some ErrInvalidArgument)
  else
    let* _ := recvTxBuf in
    deferSendTxBuf (
      let* req := request (5 + length value) (fun r =>
        let? r := SetAttributeOpcode PrepareWriteRequestCode r in
        let? r := SetAttributeHandle handle r in
        SetValueOffset offset r) in
      let* (b, err) := sendReq req in
      match err with
      | Some e => ret (0, 0, [], Some e)
      | None =>
          let* v := lift (PrepareWrite_switch b) in
          match v with
          | Some e => ret (0, 0, [], Some e)
          | None =>
              let* h := lift (AttributeHandle b) in
              let* o := lift (ValueOffset b) in
              let* val := lift (PartAttributeValue5 b) in
              ret (h, o, val, None)
          end
      end).

(** func (c *Client) ExecuteWrite(flags uint8) error; the request is
    the slice txBuf[:1]. *)
Definition ExecuteWrite (flags : Z) : M (option error) :=
  let* _ := recvTxBuf in
  deferSendTxBuf (
    let* req := request 1 (fun r =>
      let? r := SetAttributeOpcode ExecuteWriteRequestCode r in
      SetFlags flags r) in
    let* (rspBytes, err) := sendReq req in
    match err with
    | Some e => ret (Some e)
    | None => lift (ExecuteWrite_switch rspBytes)
    end).

(** *** The receive loop *)

Definition log (e : event) : M unit :=
  fun c => (Returned tt, mkClient (l2c c) (chTxBuf c) (txBuf c) (trace c ++ [e])).

(** The rest of a turn for a notification or an indication, after the
    select that hands it to the dispatcher: the confirmation for an
    indication, written whatever that select did. *)
Definition confirm (op : Z) : M unit :=
  if op =? HandleValueIndicationCode
  then let* _ := l2cWriteM [HandleValueConfirmationCode] in ret tt
  else ret tt.

(** func (c *Client) Loop(), over the turns the environment allows
    before the model stops looking.  [handler] tells whether c.handler
    is a non-nil interface: the send case of the last select evaluates
    c.handler.HandleNotification on entry.  c.l2c is never nil (NewClient
    calls its TxMTU), so the branches on c.l2c == nil are left out. *)
Fixpoint Loop (handler : bool) (turns : list turn) : M unit :=
  match turns with
  | [] => lift Unfinished
  | t :: turns' =>
      match atTop t with
      | PollDone | PollClosed => ret tt
      | PollDefault =>
          let* _ := log (EvRead (readRes t)) in
          match afterRead t with
          | PollDone | PollClosed => ret tt
          | PollDefault =>
              match readRes t with
              | ReadClosedPipe => log (EvChErr (ErrMessage "disconnected"))
              | ReadError e => log (EvChErr e)
              | ReadFrame b =>
                  let* op := lift (index b 0) in
                  if Z.land op 0x01 =? 0x00
                  then
                    match atRoute t with
                    | PickDone | PickClosed => ret tt
                    | PickSend => let* _ := log (EvToInc b) in Loop handler turns'
                    | PickDefault => Loop handler turns'
                    end
                  else if negb (op =? HandleValueNotificationCode)
                          && negb (op =? HandleValueIndicationCode)
                  then
                    match atRoute t with
                    | PickDone | PickClosed => ret tt
                    | PickSend => let* _ := log (EvToRspc b) in Loop handler turns'
                    | PickDefault => lift Blocked
                    end
                  else
                    let* _ := lift (if handler then Returned tt else Panicked) in
                    match atRoute t with
                    | PickDone | PickClosed => ret tt
                    | PickSend =>
                        let* _ := log (EvToHandler b) in
                        let* _ := confirm op in
                        Loop handler turns'
                    | PickDefault =>
                        let* _ := confirm op in
                        Loop handler turns'
                    end
              end
          end
      end
  end.

(** *** All request operations under one type *)

Inductive call : Type :=
| CallExchangeMTU (clientRxMTU : Z)
| CallFindInformation (starth endh : Z)
| CallReadByType (starth endh : Z) (uuid : list Z)
| CallRead (handle : Z)
| CallReadBlob (handle offset : Z)
| CallReadMultiple (handles : list Z)
| CallReadByGroupType (starth endh : Z) (uuid : list Z)
| CallWrite (handle : Z) (value : list Z)
| CallPrepareWrite (handle offset : Z) (value : list Z)
| CallExecuteWrite (flags : Z).

(** the error a call returns *)
Definition run (k : call) : M (option error) :=
  match k with
  | CallExchangeMTU m => let* r := ExchangeMTU m in ret (snd r)
  | CallFindInformation s e => let* r := FindInformation s e in ret (snd r)
  | CallReadByType s e u => let* r := ReadByType s e u in ret (snd r)
  | CallRead h => let* r := Read h in ret (snd r)
  | CallReadBlob h o => let* r := ReadBlob h o in ret (snd r)
  | CallReadMultiple hs => let* r := ReadMultiple hs in ret (snd r)
  | CallReadByGroupType s e u => let* r := ReadByGroupType s e u in ret (snd r)
  | CallWrite h v => Write h v
  | CallPrepareWrite h o v => let* r := PrepareWrite h o v in ret (snd r)
  | CallExecuteWrite f => ExecuteWrite f
  end.

(** the switch that validates the response of a call *)
Definition switch_of (k : call) : list Z -> outcome (option error) :=
  match k with
  | CallExchangeMTU _ => ExchangeMTU_switch
  | CallFindInformation _ _ => FindInformation_switch
  | CallReadByType _ _ _ => ReadByType_switch
  | CallRead _ => Read_switch
  | CallReadBlob _ _ => ReadBlob_switch
  | CallReadMultiple _ => ReadMultiple_switch
  | CallReadByGroupType _ _ _ => ReadByGroupType_switch
  | CallWrite _ _ => Write_switch
  | CallPrepareWrite _ _ _ => PrepareWrite_switch
  | CallExecuteWrite _ => ExecuteWrite_switch
  end.

End Bearer.

Arguments Conn : clear implicits.
Arguments Client : clear implicits.

End Att.

(** ** Package gatt: the GATT client (linux/gatt/client.go) *)

Module Gatt.

(** const ( cccNotify = uint16(0x0001); cccIndicate = uint16(0x0002) ) *)
Definition cccNotify : Z := 0x0001.
Definition cccIndicate : Z := 0x0002.

(** ble.Descriptor and ble.Characteristic, with the fields the client
    operations below read or write *)
Record Descriptor : Type := mkDescriptor { Handle : Z }.

Record Characteristic : Type := mkCharacteristic {
  ValueHandle : Z;
  CCCD : option Descriptor;
  Value : list Z
}.

Section Client.

Context {P H : Type}.
Variable l2cWrite : P -> list Z -> P * option error.
Variable arrivals : P -> list Att.incoming.

(** type sub struct; a handler is a Go func value, nil or not *)
Record sub : Type := mkSub {
  cccdh : Z;
  ccc : Z;
  nHandler : option H;
  iHandler : option H;
  id : Z
}.

(** gatt.Client: the table subs, keyed by value handle, and the ATT
    client ac.  The field conn is the connection ac was created on, so
    p.conn.TxMTU() is read from ac. *)
Record Client : Type := mkClient {
  subs : gmap Z sub;
  ac : Att.Client P
}.

Definition G (A : Type) : Type := Client -> outcome A * Client.

Definition ret {A} (a : A) : G A := fun p => (Returned a, p).

Definition bind {A B} (m : G A) (k : A -> G B) : G B :=
  fun p =>
    match m p with
    | (Returned a, p') => k a p'
    | (Panicked, p') => (Panicked, p')
    | (Blocked, p') => (Blocked, p')
    | (Unfinished, p') => (Unfinished, p')
    end.

(** a call of a method of p.ac *)
Definition onAc {A} (m : Att.M A) : G A :=
  fun p => let '(o, a) := m (ac p) in (o, mkClient (subs p) a).

Local Notation "'let*' x ':=' m 'in' k" := (bind m (fun x => k))
  (at level 10, x pattern, k at level 200).

(** the loop of ReadLongCharacteristic:
    for len(read) >= p.conn.TxMTU()-1 {
      read, err = p.ac.ReadBlob(c.ValueHandle, uint16(len(buffer))); ...
      buffer = append(buffer, read...) } *)
Fixpoint readBlobs (fuel : nat) (vh : Z) (read buffer : list Z)
  : G (list Z * option error) :=
  let* mtu := onAc Att.TxMTU in
  if Att.len read >=? mtu - 1
  then
    match fuel with
    | O => fun p => (Unfinished, p)
    | S fuel' =>
        let* (read', err) :=
          onAc (Att.ReadBlob l2cWrite arrivals vh (uint16 (Att.len buffer))) in
        match err with
        | Some e => ret ([], Some e)
        | None => readBlobs fuel' vh read' (buffer ++ read')
        end
    end
  else ret (buffer, None).

(** func (p *Client) ReadLongCharacteristic(c *ble.Characteristic) ([]byte, error);
    the third component is the characteristic after the call. *)
Definition ReadLongCharacteristic (fuel : nat) (c : Characteristic)
  : G (list Z * option error * Characteristic) :=
  let* (read, err) := onAc (Att.Read l2cWrite arrivals (ValueHandle c)) in
  match err with
  | Some e => ret ([], Some e, c)
  | None =>
      let* (buffer, err) := readBlobs fuel (ValueHandle c) read read in
      match err with
      | Some e => ret ([], Some e, c)
      | None => ret (buffer, None, mkCharacteristic (ValueHandle c) (CCCD c) buffer)
      end
  end.

(** func (p *Client) setHandlers(cccdh, vh, flag uint16, h ble.NotificationHandler) error *)
Definition setHandlers (cccdh' vh flag : Z) (h : option H) : G (option error) :=
  fun p =>
    (* s, ok := p.subs[vh]; if !ok { s = &sub{cccdh: cccdh}; p.subs[vh] = s } *)
    let s := match subs p !! vh with
             | Some s => s
             | None => mkSub cccdh' 0 None None 0
             end in
    let p := mkClient (<[vh := s]> (subs p)) (ac p) in
    let set := negb (Z.land (ccc s) flag =? 0) in
    match h, set with
    | None, false => (Returned None, p)
    | Some _, true => (Returned None, p)
    | _, _ =>
        let ccc' := match h with
                    | None => Z.land (ccc s) (Z.lxor flag 0xffff)  (* s.ccc &= ^uint16(flag) *)
                    | Some _ => Z.lor (ccc s) flag                  (* s.ccc |= flag *)
                    end in
        let v := [ccc' mod 256; (ccc' / 256) mod 256] in
        let s' := if flag =? cccNotify
                  then mkSub (cccdh s) ccc' h (iHandler s) (id s)
                  else mkSub (cccdh s) ccc' (nHandler s) h (id s) in
        let p := mkClient (<[vh := s']> (subs p)) (ac p) in
        match onAc (Att.Write l2cWrite arrivals (cccdh s') v) p with
        | (Returned (Some e), p') =>
            (Returned (Some e), mkClient (delete vh (subs p')) (ac p'))
        | r => r
        end
    end.

(** func (p *Client) Subscribe(c *ble.Characteristic, ind bool, h ble.NotificationHandler) error *)
Definition Subscribe (c : Characteristic) (ind : bool) (h : option H) : G (option error) :=
  match CCCD c with
  | None => ret (Some (ErrMessage "CCCD not found"))
  | Some d =>
      let flag := if ind then cccIndicate else cccNotify in
      setHandlers (Handle d) (ValueHandle c) flag h
  end.

(** func (p *Client) Unsubscribe(c *ble.Characteristic, ind bool) error *)
Definition Unsubscribe (c : Characteristic) (ind : bool) : G (option error) :=
  match CCCD c with
  | None => ret (Some (ErrMessage "CCCD not found"))
  | Some d =>
      if ind
      then setHandlers (Handle d) (ValueHandle c) cccIndicate None
      else setHandlers (Handle d) (ValueHandle c) cccNotify None
  end.

End Client.

Arguments sub : clear implicits.
Arguments Client : clear implicits.

End Gatt.

(** ** Package smp: the dispatcher of the Security Manager (linux/hci/smp/manager.go) *)

Module Smp.

(** type PairingState int, with its constants in the order of the iota *)
Inductive PairingState : Type :=
| Init
| WaitPairingResponse
| WaitPublicKey
| WaitConfirm
| WaitRandom
| WaitDhKeyCheck
| Finished
| Error.

(** Modelled from the spec: the opcode constant pairingFailed (smp.go is
    not under src/), with the value of the wire format the spec names
    (Bluetooth Core, Vol 3 Part H, 3.5.5). *)
Definition pairingFailed : Z := 0x05.

(** The channel m.result: open, with or without a Pair call waiting in
    waitResult, or closed. *)
Inductive resultChan : Type :=
| ResultOpen (receiver : bool)
| ResultClosed.

Section Manager.

(** [X] is the rest of the pairing context (keys, nonces, addresses),
    which Handle itself never reads. *)
Context {X : Type}.

Record pairingContext : Type := mkPairing {
  state : PairingState;
  context : X
}.

(** The transport of the manager: its pairing context and the PDUs
    given to send so far, oldest first. *)
Record transport : Type := mkTransport {
  pairing : pairingContext;
  sent : list (list Z)
}.

Record manager : Type := mkManager {
  t : transport;
  result : resultChan;
  delivered : list error       (* the errors received from m.result *)
}.

(** an entry of the table dispatcher: v.handler may be nil *)
Record entry : Type := mkEntry {
  handler : option (transport -> list Z -> transport * option error)
}.

(** the table dispatcher, and the error the write function of the
    connection returns for a PDU *)
Variable dispatcher : Z -> option entry.
Variable writePDU : transport -> list Z -> option error.

(** Modelled from the spec: pdu.payload() (smp.go is not under src/)
    skips the four bytes of the L2CAP header, length and channel id. *)
Definition payload (p : list Z) : outcome (list Z) := from 4 p.

(** Modelled from the spec: transport.send (transport.go is not under
    src/) hands the PDU to the write function of the connection and
    returns its error; the pairing context is not touched. *)
Definition send (pdu : list Z) (tr : transport) : option error * transport :=
  (writePDU tr pdu, mkTransport (pairing tr) (sent tr ++ [pdu])).

Definition setState (s : PairingState) (tr : transport) : transport :=
  mkTransport (mkPairing s (context (pairing tr))) (sent tr).

(** func (m *manager) Handle(in []byte) error *)
Definition Handle (inp : list Z) (m : manager) : outcome (option error) * manager :=
  match obind (payload inp) (fun pl =>
        obind (index pl 0) (fun code =>
        obind (from 1 pl) (fun data => Returned (code, data)))) with
  | Returned (code, data) =>
      match dispatcher code with
      | Some (mkEntry (Some h)) =>
          let '(tr, err) := h (t m) data in
          match err with
          | Some e =>
              (* m.t.pairing.state = Error; m.result <- err; return err *)
              let tr := setState Error tr in
              match result m with
              | ResultOpen true =>
                  (Returned (Some e),
                   mkManager tr (ResultOpen false) (delivered m ++ [e]))
              | ResultOpen false => (Blocked, mkManager tr (result m) (delivered m))
              | ResultClosed => (Panicked, mkManager tr (result m) (delivered m))
              end
          | None =>
              (* if m.t.pairing.state == Finished {
                   select { case <-m.result: default: close(m.result) } } *)
              match state (pairing tr) with
              | Finished => (Returned None, mkManager tr ResultClosed (delivered m))
              | _ => (Returned None, mkManager tr (result m) (delivered m))
              end
          end
      | _ =>
          (* C.5.1 Pairing Not Supported *)
          let '(err, tr) := send [pairingFailed; 0x05] (t m) in
          (Returned err, mkManager tr (result m) (delivered m))
      end
  | Panicked => (Panicked, m)
  | Blocked => (Blocked, m)
  | Unfinished => (Unfinished, m)
  end.

End Manager.

Arguments transport : clear implicits.
Arguments manager : clear implicits.
Arguments entry : clear implicits.

End Smp.

(** ** Goroutines sharing the buffer channel *)

Module Token.

(** What a goroutine does next, as far as the channel chTxBuf sees it. *)
Inductive action : Type :=
| Take      (* txBuf := <-c.chTxBuf *)
| Put       (* c.chTxBuf <- txBuf *)
| Other.    (* anything else: a write to the bearer, a wait for the response *)

Definition of_event (e : Att.event) : action :=
  match e with
  | Att.EvRecvTxBuf => Take
  | Att.EvSendTxBuf _ => Put
  | _ => Other
  end.

(** [bracketed h th]: the actions [th] a goroutine still has to do take
    and put the buffer in turns, starting from holding it ([h = true]) or
    not, and end without holding it. *)
Fixpoint bracketed (h : bool) (th : list action) : bool :=
  match th with
  | [] => negb h
  | Other :: r => bracketed h r
  | Take :: r => negb h && bracketed true r
  | Put :: r => h && bracketed false r
  end.

(** A goroutine that holds the buffer is between the receive that opens
    a request operation and the deferred send that closes it. *)
Definition holding (th : list action) : bool := bracketed true th.

(** The channel (how many buffers it holds; its capacity is 1) and the
    goroutines that call the client. *)
Record system : Type := mkSystem {
  chan : nat;
  threads : list (list action)
}.

(** One goroutine does its next action; a receive needs a buffer in the
    channel, a send needs room in it. *)
Inductive step : system -> system -> Prop :=
| step_take s i r :
    threads s !! i = Some (Take :: r) -> chan s = 1%nat ->
    step s (mkSystem 0 (<[i := r]> (threads s)))
| step_put s i r :
    threads s !! i = Some (Put :: r) -> chan s = 0%nat ->
    step s (mkSystem 1 (<[i := r]> (threads s)))
| step_other s i r :
    threads s !! i = Some (Other :: r) ->
    step s (mkSystem (chan s) (<[i := r]> (threads s))).

Inductive reachable (s0 : system) : system -> Prop :=
| reach_refl : reachable s0 s0
| reach_step s s' : reachable s0 s -> step s s' -> reachable s0 s'.

(** how many goroutines hold the buffer *)
Definition holders (s : system) : nat :=
  length (filter (fun th => holding th = true) (threads s)).

(** A start: one buffer in the channel, every goroutine about to run
    whole operations. *)
Definition initial (s : system) : Prop :=
  chan s = 1%nat /\ Forall (fun th => bracketed false th = true) (threads s).

End Token.

(** ** Concrete bearers, peers and tables used to run the model *)

Module Scenario.

(** a bearer that accepts every write and then delivers a fixed script *)
Definition accept : unit -> list Z -> unit * option error :=
  fun _ _ => (tt, None).

Definition scripted (inc : list Att.incoming) : unit -> list Att.incoming :=
  fun _ => inc.

(** a bearer whose first [n] writes succeed and whose later writes fail;
    its state counts the writes that are still to succeed *)
Definition failing : nat -> list Z -> nat * option error :=
  fun n _ =>
    match n with
    | O => (O, Some (ErrBearer 0))
    | S n' => (n', None)
    end.

Definition scriptedN (inc : list Att.incoming) : nat -> list Att.incoming :=
  fun _ => inc.

(** a client fresh from NewClient on a connection with the given TxMTU *)
Definition fresh {P} (tx : Z) (p : P) : Att.Client P :=
  Att.NewClient (Att.mkConn 23 tx p).

End Scenario.

(** ** Facts about the ATT client *)

Module AttSpec.

Import Att.

(** an outcome of code that neither waits on a channel nor loops on fuel *)
Definition settled {A} (o : outcome A) : bool :=
  match o with
  | Returned _ | Panicked => true
  | Blocked | Unfinished => false
  end.

(** events that leave the buffer channel alone *)
Definition silent (tr : list event) : Prop :=
  Forall (fun e => Token.of_event e = Token.Other) tr.

(** [quiet m]: whatever the state, [m] extends the trace by events that
    leave the channel chTxBuf alone, it does not change the contents of
    the channel, and it ends by returning or by panicking. *)
Definition quiet {P A} (m : M (P := P) A) : Prop :=
  forall c, exists tr,
    trace (m c).2 = trace c ++ tr /\ silent tr /\
    chTxBuf (m c).2 = chTxBuf c /\ settled (m c).1 = true.

Lemma settled_obind {A B} (o : outcome A) (k : A -> outcome B) :
  settled o = true -> (forall a, settled (k a) = true) -> settled (obind o k) = true.
Proof. destruct o; simpl; auto. Qed.

Lemma settled_index b i : settled (index b i) = true.
Proof. unfold index. by destruct (b !! i). Qed.

Lemma settled_set8 i v b : settled (set8 i v b) = true.
Proof. unfold set8. by case_decide. Qed.

Lemma settled_upto n b : settled (upto n b) = true.
Proof. unfold upto. by case_decide. Qed.

Lemma settled_from n b : settled (from n b) = true.
Proof. unfold from. by case_decide. Qed.

Lemma settled_copy_at off src b : settled (copy_at off src b) = true.
Proof. unfold copy_at. by case_decide. Qed.

Lemma settled_Uint16 off b : settled (Uint16 off b) = true.
Proof. unfold Uint16. by repeat case_match. Qed.

Lemma settled_PutUint16 off v b : settled (PutUint16 off v b) = true.
Proof. unfold PutUint16. by case_decide. Qed.

Lemma settled_gomod a b : settled (gomod a b) = true.
Proof. unfold gomod. by case_match. Qed.

Lemma settled_putHandles hs : forall off r, settled (putHandles off hs r) = true.
Proof.
  induction hs as [|h hs IH]; intros off r; simpl; [done|].
  apply settled_obind; [apply settled_PutUint16 | auto].
Qed.

Create HintDb settled.
#[export] Hint Resolve settled_index settled_set8 settled_upto settled_from
  settled_copy_at settled_Uint16 settled_PutUint16 settled_gomod
  settled_putHandles : settled.

Ltac settle :=
  repeat first
    [ done
    | progress eauto with settled
    | apply settled_obind; [ | intros ? ]
    | case_match ].

Lemma settled_switch k rsp : settled (switch_of k rsp) = true.
Proof.
  destruct k; simpl;
    unfold ExchangeMTU_switch, FindInformation_switch, ReadByType_switch,
      Read_switch, ReadBlob_switch, ReadMultiple_switch,
      ReadByGroupType_switch, Write_switch, PrepareWrite_switch,
      ExecuteWrite_switch, AttributeOpcode, Format, Length, AttributeDataList;
    settle.
Qed.

Section Quiet.

Context {P : Type}.
Variable l2cWrite : P -> list Z -> P * option error.
Variable arrivals : P -> list incoming.

Local Abbreviation M := (Att.M (P := P)).

Lemma silent_nil : silent [].
Proof. constructor. Qed.

Lemma silent_app tr1 tr2 : silent tr1 -> silent tr2 -> silent (tr1 ++ tr2).
Proof. apply Forall_app_2. Qed.

Lemma quiet_ret {A} (a : A) : quiet (ret a : M A).
Proof.
  intros c. exists []. simpl. rewrite app_nil_r.
  repeat split; auto using silent_nil.
Qed.

Lemma quiet_lift {A} (o : outcome A) : settled o = true -> quiet (lift o : M A).
Proof.
  intros Ho c. exists []. simpl. rewrite app_nil_r.
  repeat split; auto using silent_nil.
Qed.

Lemma quiet_bind {A B} (m : M A) (k : A -> M B) :
  quiet m -> (forall a, quiet (k a)) -> quiet (bind m k).
Proof.
  intros Hm Hk c. destruct (Hm c) as (tr1 & Ht1 & Hs1 & Hc1 & Ho1).
  unfold bind. destruct (m c) as [o c1] eqn:E. simpl in *.
  destruct o; simpl in *; try discriminate.
  - destruct (Hk a c1) as (tr2 & Ht2 & Hs2 & Hc2 & Ho2).
    exists (tr1 ++ tr2). rewrite Ht2, Ht1, Hc2, Hc1, app_assoc.
    repeat split; auto using silent_app.
  - exists tr1. repeat split; auto.
Qed.

Lemma quiet_event {A} (a : A) (e : event) (f : Client P -> Conn P) :
  Token.of_event e = Token.Other ->
  quiet (fun c => (Returned a, mkClient (f c) (chTxBuf c) (txBuf c) (trace c ++ [e]))).
Proof.
  intros He c. exists [e]. simpl. repeat split; auto.
  constructor; [done | constructor].
Qed.

Lemma quiet_log e : Token.of_event e = Token.Other -> quiet (log e : M unit).
Proof. intros He. by apply (quiet_event tt e l2c). Qed.

Lemma quiet_TxMTU : quiet (TxMTU : M Z).
Proof.
  intros c. exists []. simpl. rewrite app_nil_r.
  repeat split; auto using silent_nil.
Qed.

Lemma quiet_l2cSetRxMTU mtu : quiet (l2cSetRxMTU mtu : M unit).
Proof. by apply (quiet_event tt (EvSetRxMTU mtu)). Qed.

Lemma quiet_l2cSetTxMTU mtu : quiet (l2cSetTxMTU mtu : M unit).
Proof. by apply (quiet_event tt (EvSetTxMTU mtu)). Qed.

Lemma quiet_l2cWriteM b : quiet (l2cWriteM l2cWrite b).
Proof.
  intros c. unfold l2cWriteM.
  destruct (l2cWrite (peer (l2c c)) b) as [p' e]. exists [EvWrite b e].
  simpl. repeat split; auto. constructor; [done | constructor].
Qed.

Lemma quiet_request n fill :
  (forall r, settled (fill r) = true) -> quiet (request n fill : M (list Z)).
Proof.
  intros Hf c. exists []. unfold request. rewrite app_nil_r.
  assert (Hs : settled (obind (upto n (txBuf c)) fill) = true)
    by (apply settled_obind; auto with settled).
  destruct (obind (upto n (txBuf c)) fill); simpl in *;
    repeat split; auto using silent_nil.
Qed.

Lemma quiet_reallocTxBuf n : quiet (reallocTxBuf n : M unit).
Proof.
  intros c. exists []. simpl. rewrite app_nil_r.
  repeat split; auto using silent_nil.
Qed.

Lemma quiet_state {A} (f : Client P -> M A) :
  (forall c0, quiet (f c0)) -> quiet (fun c => f c c).
Proof. intros Hf c. apply (Hf c c). Qed.

Lemma quiet_awaitRsp reqop inc : quiet (awaitRsp l2cWrite reqop inc).
Proof.
  induction inc as [|i inc IH]; simpl.
  - apply quiet_ret.
  - destruct i as [rsp|e]; [|apply quiet_ret].
    apply quiet_bind; [apply quiet_lift, settled_index|]. intros op.
    case_match; [apply quiet_ret|].
    apply quiet_bind; [apply quiet_l2cWriteM|]. intros [e|]; [apply quiet_ret | apply IH].
Qed.

Lemma quiet_sendReq b : quiet (sendReq l2cWrite arrivals b).
Proof.
  unfold sendReq. apply quiet_bind; [apply quiet_l2cWriteM|].
  intros [e|]; [apply quiet_ret|].
  apply quiet_bind; [apply quiet_lift, settled_index|]. intros op.
  apply (quiet_state (fun c => awaitRsp l2cWrite op (arrivals (peer (l2c c))))).
  intros c0. apply quiet_awaitRsp.
Qed.

End Quiet.

Ltac unfold_pdu :=
  unfold ExchangeMTU_switch, FindInformation_switch, ReadByType_switch,
    Read_switch, ReadBlob_switch, ReadMultiple_switch,
    ReadByGroupType_switch, Write_switch, PrepareWrite_switch,
    ExecuteWrite_switch, AttributeOpcode, SetAttributeOpcode,
    SetClientRxMTU, ServerRxMTU, SetStartingHandle, SetEndingHandle,
    SetAttributeType, SetAttributeGroupType, SetAttributeHandle,
    SetValueOffset, SetAttributeValue, SetFlags, Format, InformationData,
    Length, AttributeDataList, AttributeValue, PartAttributeValue,
    SetOfValues, AttributeHandle, ValueOffset, PartAttributeValue5.

Ltac quiet_step :=
  first
    [ apply quiet_ret
    | apply quiet_TxMTU
    | apply quiet_l2cSetRxMTU
    | apply quiet_l2cSetTxMTU
    | apply quiet_l2cWriteM
    | apply quiet_reallocTxBuf
    | apply quiet_sendReq
    | apply quiet_request; intros ?; unfold_pdu; settle
    | apply quiet_lift; unfold_pdu; settle
    | apply quiet_bind; [ | intros ? ]
    | match goal with |- quiet (match ?x with _ => _ end) => destruct x end ].

Section Discipline.

Context {P : Type}.
Variable l2cWrite : P -> list Z -> P * option error.
Variable arrivals : P -> list incoming.

Local Abbreviation M := (Att.M (P := P)).

(** [discipline err m]: started with one buffer in the channel, [m]
    either rejects its arguments with ErrInvalidArgument and touches
    nothing, or it first takes the buffer, then does things that leave
    the channel alone, and last puts one buffer back; it ends by
    returning or by panicking, and one buffer is in the channel again. *)
Definition discipline {A} (err : A -> option error) (m : M A) : Prop :=
  forall c buf, chTxBuf c = [buf] ->
    (exists a, m c = (Returned a, c) /\ err a = Some ErrInvalidArgument) \/
    (exists mid buf',
        trace (m c).2 = trace c ++ EvRecvTxBuf :: mid ++ [EvSendTxBuf (length buf')] /\
        silent mid /\ chTxBuf (m c).2 = [buf'] /\ settled (m c).1 = true).

Lemma discipline_reject {A} (err : A -> option error) (a : A) :
  err a = Some ErrInvalidArgument -> discipline err (ret a).
Proof. intros Ha c buf _. left. by exists a. Qed.

Lemma discipline_bracket {A} (err : A -> option error) (body : M A) :
  quiet body ->
  discipline err (bind recvTxBuf (fun _ => deferSendTxBuf body)).
Proof.
  intros Hq c buf Hc. right.
  unfold bind, recvTxBuf. rewrite Hc.
  set (c1 := mkClient (l2c c) [] buf (trace c ++ [EvRecvTxBuf])).
  destruct (Hq c1) as (mid & Ht & Hs & Hch & Ho).
  unfold deferSendTxBuf. destruct (body c1) as [o c2]. simpl in *.
  exists mid, (txBuf c2).
  destruct o; simpl in *; try discriminate;
    unfold sendTxBuf; rewrite Hch; simpl; rewrite Ht;
    rewrite <- !app_assoc; auto.
Qed.

Lemma discipline_TxMTU {A} (err : A -> option error) (k : Z -> M A) :
  (forall mtu, discipline err (k mtu)) -> discipline err (bind TxMTU k).
Proof. intros Hk c buf Hc. apply (Hk (txMTU (l2c c)) c buf Hc). Qed.

Lemma discipline_snd {A} (m : M (A * option error)) :
  discipline snd m -> discipline id (bind m (fun r => ret r.2)).
Proof.
  intros Hm c buf Hc. destruct (Hm c buf Hc) as [(a & E & Ha)|(mid & buf' & Ht & Hs & Hch & Ho)].
  - left. exists a.2. unfold bind. rewrite E. by split.
  - right. exists mid, buf'. unfold bind.
    destruct (m c) as [o c1]. destruct o; simpl in *; auto.
Qed.

Lemma quiet_resize mtu :
  quiet (fun c : Client P =>
           if negb (len (txBuf c) =? mtu)
           then bind (l2cSetTxMTU mtu) (fun _ => reallocTxBuf mtu) c
           else ret tt c).
Proof.
  intros c. destruct (negb (len (txBuf c) =? mtu)).
  - apply (quiet_bind (l2cSetTxMTU mtu) (fun _ => reallocTxBuf mtu));
      [apply quiet_l2cSetTxMTU | intros; apply quiet_reallocTxBuf].
  - apply quiet_ret.
Qed.

(** Every request operation keeps the discipline of the buffer. *)
Lemma discipline_run k : discipline id (run l2cWrite arrivals k).
Proof.
  destruct k; simpl;
    unfold ExchangeMTU, FindInformation, ReadByType, Read, ReadBlob,
      ReadMultiple, ReadByGroupType, Write, PrepareWrite, ExecuteWrite;
    try apply discipline_snd;
    try (apply discipline_TxMTU; intros ?);
    try match goal with
        | |- discipline _ (if ?g then _ else _) =>
            destruct g; [by apply discipline_reject|]
        end;
    apply discipline_bracket; repeat quiet_step; try apply quiet_resize.
Qed.

End Discipline.

(** *** Running an operation step by step *)

Section Runs.

Context {P : Type}.
Variable l2cWrite : P -> list Z -> P * option error.
Variable arrivals : P -> list incoming.

Local Abbreviation M := (Att.M (P := P)).

Lemma quiet_trace {A} (m : M A) c :
  quiet m -> exists tr, trace (m c).2 = trace c ++ tr.
Proof. intros H. destruct (H c) as (tr & ? & _). eauto. Qed.

Lemma defer_trace {A} (body : M A) c :
  exists tr, trace (deferSendTxBuf body c).2 = trace (body c).2 ++ tr.
Proof.
  unfold deferSendTxBuf, sendTxBuf. destruct (body c) as [o c1]. simpl.
  destruct o; simpl; try (exists []; by rewrite app_nil_r);
    destruct (chTxBuf c1); simpl; eauto; exists []; by rewrite app_nil_r.
Qed.

Lemma run_bind {A B} (m : M A) (k : A -> M B) c a c1 :
  m c = (Returned a, c1) -> bind m k c = k a c1.
Proof. intros E. unfold bind. by rewrite E. Qed.

Lemma bind_returned {A B} (m : M A) (k : A -> M B) c b c' :
  bind m k c = (Returned b, c') ->
  exists a c1, m c = (Returned a, c1) /\ k a c1 = (Returned b, c').
Proof.
  unfold bind. destruct (m c) as [o c1]. destruct o; try discriminate. eauto.
Qed.

Lemma defer_returned {A} (body : M A) c a c' :
  deferSendTxBuf body c = (Returned a, c') -> exists c1, body c = (Returned a, c1).
Proof.
  unfold deferSendTxBuf. destruct (body c) as [o c1].
  destruct o; try discriminate; destruct (sendTxBuf c1) as [o2 c2];
    destruct o2; try discriminate.
  intros E. inversion E; subst. eauto.
Qed.

Lemma recv_defer {A} (body : M A) (c : Client P) buf :
  chTxBuf c = [buf] ->
  bind recvTxBuf (fun _ => deferSendTxBuf body) c
  = deferSendTxBuf body (mkClient (l2c c) [] buf (trace c ++ [EvRecvTxBuf])).
Proof. intros Hc. unfold bind, recvTxBuf. by rewrite Hc. Qed.

Lemma defer_bind {A B} (m : M A) (k : A -> M B) c a c1 :
  m c = (Returned a, c1) -> deferSendTxBuf (bind m k) c = deferSendTxBuf (k a) c1.
Proof. intros E. unfold deferSendTxBuf. by rewrite (run_bind m k c a c1 E). Qed.

Lemma defer_ret {A} (a : A) (c : Client P) :
  chTxBuf c = [] ->
  deferSendTxBuf (ret a) c
  = (Returned a,
     mkClient (l2c c) [txBuf c] (txBuf c) (trace c ++ [EvSendTxBuf (length (txBuf c))])).
Proof. intros Hc. unfold deferSendTxBuf, ret, sendTxBuf. by rewrite Hc. Qed.

Lemma defer_panic {A} (m : M A) (c c1 : Client P) :
  m c = (Panicked, c1) -> chTxBuf c1 = [] ->
  deferSendTxBuf m c
  = (Panicked,
     mkClient (l2c c1) [txBuf c1] (txBuf c1) (trace c1 ++ [EvSendTxBuf (length (txBuf c1))])).
Proof. intros E Hc. unfold deferSendTxBuf, sendTxBuf. by rewrite E, Hc. Qed.

Lemma request_returned n fill (c : Client P) req :
  obind (upto n (txBuf c)) fill = Returned req ->
  request n fill c
  = (Returned req, mkClient (l2c c) (chTxBuf c) (req ++ drop n (txBuf c)) (trace c)).
Proof. intros E. unfold request. by rewrite E. Qed.

Lemma request_panicked n fill (c : Client P) :
  obind (upto n (txBuf c)) fill = Panicked -> request n fill c = (Panicked, c).
Proof. intros E. unfold request. by rewrite E. Qed.

(** the first frame that arrives is the response, or an Error Response *)
Lemma sendReq_response b (c : Client P) p' reqop rsp op inc :
  l2cWrite (peer (l2c c)) b = (p', None) ->
  b !! 0%nat = Some reqop ->
  arrivals p' = OnRspc rsp :: inc ->
  rsp !! 0%nat = Some op ->
  (op =? ErrorResponseCode) || (op =? rspOfReq reqop) = true ->
  sendReq l2cWrite arrivals b c
  = (Returned (rsp, None),
     mkClient (mkConn (rxMTU (l2c c)) (txMTU (l2c c)) p')
              (chTxBuf c) (txBuf c) (trace c ++ [EvWrite b None])).
Proof.
  intros Hw Hb Ha Hr Hop.
  unfold sendReq, bind, l2cWriteM, lift, index. rewrite Hw, Hb. simpl.
  rewrite Ha. simpl. unfold bind, lift, index. rewrite Hr, Hop. reflexivity.
Qed.

(** an error that sendReq returns is wrapped by fmt.Errorf *)
Lemma awaitRsp_error reqop inc : forall (c : Client P) rsp e c',
  awaitRsp l2cWrite reqop inc c = (Returned (rsp, Some e), c') ->
  exists msg e0, e = Errorf msg e0.
Proof.
  induction inc as [|i inc IH]; intros c rsp e c'; simpl.
  - intros E. inversion E. eauto.
  - destruct i as [r|e1]; [|intros E; inversion E; eauto].
    unfold bind at 1. unfold lift. destruct (index r 0); try discriminate.
    case_match; [intros E; inversion E|].
    unfold bind, l2cWriteM. destruct (l2cWrite _ _) as [p' [e2|]].
    + intros E. inversion E. eauto.
    + apply IH.
Qed.

Lemma sendReq_error b (c : Client P) rsp e c' :
  sendReq l2cWrite arrivals b c = (Returned (rsp, Some e), c') ->
  exists msg e0, e = Errorf msg e0.
Proof.
  unfold sendReq, bind, l2cWriteM. destruct (l2cWrite _ _) as [p' [e2|]].
  - intros E. inversion E. eauto.
  - unfold lift. destruct (index b 0); try discriminate. apply awaitRsp_error.
Qed.

End Runs.

(** an error a validation switch returns is ErrInvalidResponse or an ATT error *)
Lemma switch_error k rsp e :
  switch_of k rsp = Returned (Some e) ->
  e = ErrInvalidResponse \/ exists code, e = ATTError code.
Proof.
  destruct k; simpl; unfold_pdu; unfold obind, gomod;
    repeat (case_match; try discriminate);
    intros E; inversion E; eauto.
Qed.

(** little-endian bytes of a uint16 and back *)
Lemma le16 v : 0 <= v < 65536 -> v mod 256 + 256 * ((v / 256) mod 256) = v.
Proof.
  intros Hv. rewrite (Z.mod_small (v / 256) 256).
  - pose proof (Z.div_mod v 256). lia.
  - split; [apply Z.div_pos; lia | apply Z.div_lt_upper_bound; lia].
Qed.

End AttSpec.

(** ** Facts about goroutines sharing the buffer channel *)

Module TokenSpec.

Import Token.

(** the shape every reachable system has: the buffer is either in the
    channel or held by exactly one goroutine, and every goroutine takes and
    puts in turns *)
Definition balanced (s : system) : Prop :=
  (chan s + holders s = 1)%nat /\
  Forall (fun th => bracketed false th = true \/ bracketed true th = true) (threads s).

Lemma bracketed_exclusive th :
  bracketed true th = true -> bracketed false th = true -> False.
Proof.
  induction th as [|a th IH]; simpl; [discriminate|].
  destruct a; simpl; auto; discriminate.
Qed.

Lemma holders_cons th ths :
  holders (mkSystem 0 (th :: ths))
  = ((if holding th then 1 else 0) + holders (mkSystem 0 ths))%nat.
Proof.
  unfold holders. simpl. rewrite filter_cons.
  destruct (holding th); case_decide; simpl; congruence.
Qed.

Lemma holders_chan n m ths : holders (mkSystem n ths) = holders (mkSystem m ths).
Proof. reflexivity. Qed.

Lemma holders_insert ths : forall i x y n,
  ths !! i = Some x ->
  (holders (mkSystem n (<[i := y]> ths)) + (if holding x then 1 else 0)
   = holders (mkSystem n ths) + (if holding y then 1 else 0))%nat.
Proof.
  induction ths as [|th ths IH]; intros i x y n Hi; [done|].
  rewrite (holders_chan n 0), (holders_chan n 0 (th :: ths)).
  destruct i as [|i]; simpl in *.
  - inversion Hi; subst. rewrite !holders_cons. lia.
  - rewrite !holders_cons. specialize (IH i x y 0%nat Hi). lia.
Qed.

Lemma step_balanced s s' : balanced s -> step s s' -> balanced s'.
Proof.
  intros [Hn Hall] Hstep.
  destruct Hstep as [s i r Hi Hc | s i r Hi Hc | s i r Hi].
  - pose proof (Forall_lookup_1 _ _ _ _ Hall Hi) as Hth. simpl in Hth.
    assert (Hr : bracketed true r = true) by (destruct Hth as [H|H]; [exact H | discriminate]).
    pose proof (holders_insert (threads s) i (Take :: r) r 0%nat Hi) as Hh.
    unfold holding in Hh at 1 2. simpl in Hh. rewrite Hr in Hh.
    split.
    + simpl. unfold holders in *. simpl in *. lia.
    + simpl. apply Forall_insert; auto.
  - pose proof (Forall_lookup_1 _ _ _ _ Hall Hi) as Hth. simpl in Hth.
    assert (Hr : bracketed false r = true) by (destruct Hth as [H|H]; [discriminate | exact H]).
    assert (Hr' : bracketed true r = false).
    { destruct (bracketed true r) eqn:E; [|done].
      exfalso. eapply bracketed_exclusive; eauto. }
    pose proof (holders_insert (threads s) i (Put :: r) r 0%nat Hi) as Hh.
    unfold holding in Hh at 1 2. simpl in Hh. rewrite Hr, Hr' in Hh.
    split.
    + simpl. unfold holders in *. simpl in *. lia.
    + simpl. apply Forall_insert; auto.
  - pose proof (Forall_lookup_1 _ _ _ _ Hall Hi) as Hth. simpl in Hth.
    pose proof (holders_insert (threads s) i (Other :: r) r 0%nat Hi) as Hh.
    unfold holding in Hh at 1 2. simpl in Hh.
    split.
    + simpl. unfold holders in *. simpl in *.
      destruct (bracketed true r); lia.
    + simpl. apply Forall_insert; auto.
Qed.

Lemma initial_balanced s : initial s -> balanced s.
Proof.
  intros [Hc Hall]. split.
  - rewrite Hc. unfold holders.
    assert (H0 : filter (fun th => holding th = true) (threads s) = []).
    { clear Hc. induction Hall as [|th ths Hth _ IH]; [done|].
      rewrite filter_cons. case_decide as Hd; [|exact IH].
      exfalso. eapply bracketed_exclusive; eauto. }
    by rewrite H0.
  - eapply Forall_impl; [exact Hall | simpl; auto].
Qed.

Lemma reachable_balanced s0 s : initial s0 -> reachable s0 s -> balanced s.
Proof.
  intros H0 Hr. induction Hr as [|s s' _ IH Hs]; [by apply initial_balanced|].
  eapply step_balanced; eauto.
Qed.

(** events that leave the channel alone do not change who holds the buffer *)
Lemma bracketed_silent h mid rest :
  AttSpec.silent mid ->
  bracketed h (map of_event mid ++ rest) = bracketed h rest.
Proof.
  induction 1 as [|e mid He _ IH]; simpl; [done|]. by rewrite He.
Qed.

End TokenSpec.

(** ** Properties of the ATT client *)

Module AttProps.

Import Att AttSpec.

Ltac solve_quiet := repeat quiet_step; try apply quiet_resize.

Section Props.

Context {P : Type}.
Variable l2cWrite : P -> list Z -> P * option error.
Variable arrivals : P -> list incoming.

Local Abbreviation M := (Att.M (P := P)).

Lemma bind_trace {A B} (m : M A) (k : A -> M B) c :
  (forall a, quiet (k a)) -> exists tr, trace (bind m k c).2 = trace (m c).2 ++ tr.
Proof.
  intros Hk. unfold bind. destruct (m c) as [o c1]. simpl.
  destruct o; simpl; try (exists []; by rewrite app_nil_r).
  apply quiet_trace, Hk.
Qed.

Lemma sendReq_trace b (c : Client P) :
  exists e tr, trace (sendReq l2cWrite arrivals b c).2 = trace c ++ EvWrite b e :: tr.
Proof.
  unfold sendReq.
  destruct (bind_trace (l2cWriteM l2cWrite b)
              (fun err =>
                 match err with
                 | Some e => ret ([], Some (Errorf "send ATT request failed" e))
                 | None =>
                     bind (lift (index b 0)) (fun reqop =>
                       fun c => awaitRsp l2cWrite reqop (arrivals (peer (l2c c))) c)
                 end) c) as [tr E].
  - intros [e|]; [apply quiet_ret|].
    apply quiet_bind; [apply quiet_lift, settled_index|]. intros op.
    apply (quiet_state (fun c => awaitRsp l2cWrite op (arrivals (peer (l2c c))))).
    intros c0. apply quiet_awaitRsp.
  - rewrite E. unfold l2cWriteM. destruct (l2cWrite _ _) as [p' e]. simpl.
    exists e, tr. by rewrite <- app_assoc.
Qed.

(** An operation that takes the buffer, builds its request in it and
    sends it: the receive and the write of the request are the first two
    things it does. *)
Lemma first_write {A} n fill (k : list Z * option error -> M A) (c : Client P) buf req :
  chTxBuf c = [buf] ->
  obind (upto n buf) fill = Returned req ->
  (forall x, quiet (k x)) ->
  exists e tr,
    trace (bind recvTxBuf (fun _ =>
             deferSendTxBuf (bind (request n fill) (fun req =>
               bind (sendReq l2cWrite arrivals req) k))) c).2
    = trace c ++ EvRecvTxBuf :: EvWrite req e :: tr.
Proof.
  intros Hc Hreq Hk. rewrite (recv_defer _ c buf Hc).
  set (c1 := mkClient (l2c c) [] buf (trace c ++ [EvRecvTxBuf])).
  destruct (defer_trace
              (bind (request n fill) (fun req => bind (sendReq l2cWrite arrivals req) k)) c1)
    as [tr1 E1].
  rewrite E1.
  rewrite (run_bind _ _ c1 req _ (request_returned n fill c1 req Hreq)).
  set (c2 := mkClient _ _ _ _).
  destruct (bind_trace (sendReq l2cWrite arrivals req) k c2 Hk) as [tr2 E2].
  destruct (sendReq_trace req c2) as (e & tr3 & E3).
  rewrite E2, E3. simpl. exists e, (tr3 ++ tr2 ++ tr1).
  by rewrite <- !app_assoc.
Qed.

(** the bytes of a request with a handle range and a UUID *)
Lemma range_request code starth endh uuid buf :
  (5 + length uuid <= length buf)%nat ->
  obind (upto (5 + length uuid) buf) (fun r =>
    obind (SetAttributeOpcode code r) (fun r =>
    obind (SetStartingHandle starth r) (fun r =>
    obind (SetEndingHandle endh r) (fun r => copy_at 5 uuid r))))
  = Returned ([code; starth mod 256; (starth / 256) mod 256;
               endh mod 256; (endh / 256) mod 256] ++ uuid).
Proof.
  intros Hb.
  destruct buf as [|b0 [|b1 [|b2 [|b3 [|b4 rest]]]]]; simpl in Hb; try lia.
  unfold upto. case_decide as Hd; [|simpl in Hd; lia].
  unfold SetAttributeOpcode, SetStartingHandle, SetEndingHandle, set8, PutUint16.
  simpl. unfold copy_at. simpl.
  rewrite length_take, Nat.sub_0_r, Nat.min_l by (simpl in Hb; lia).
  rewrite firstn_all, drop_ge by (rewrite length_take; lia).
  by rewrite app_nil_r.
Qed.

(** C1 (amended): for every clientRxMTU from DefaultMTU = 339 up to
    MaxMTU = 515, ExchangeMTU passes its argument check: whatever the
    bearer does, the call does not return ErrInvalidArgument, and with the
    buffer in the channel it goes on to take the buffer and to announce
    clientRxMTU as the receive MTU. *)
Theorem ExchangeMTU_accepts_DefaultMTU_to_MaxMTU (clientRxMTU : Z) (c : Client P) :
  DefaultMTU <= clientRxMTU <= MaxMTU ->
  (forall r c', ExchangeMTU l2cWrite arrivals clientRxMTU c = (Returned r, c') ->
                r.2 <> Some ErrInvalidArgument) /\
  (forall buf, chTxBuf c = [buf] ->
     exists tr, trace (ExchangeMTU l2cWrite arrivals clientRxMTU c).2
                = trace c ++ EvRecvTxBuf :: EvSetRxMTU clientRxMTU :: tr).
Proof.
  intros Hm. unfold ExchangeMTU.
  assert (G : (clientRxMTU <? DefaultMTU) || (clientRxMTU >? MaxMTU) = false) by lia.
  rewrite G. split.
  - intros r c' E.
    apply bind_returned in E as (u & c1 & _ & E).
    apply defer_returned in E as (c2 & E).
    apply bind_returned in E as (u1 & c3 & _ & E).
    apply bind_returned in E as (req & c4 & _ & E).
    apply bind_returned in E as ([b err] & c5 & Es & E).
    destruct err as [e|].
    + inversion E; subst. simpl.
      destruct (sendReq_error _ _ _ _ _ _ _ Es) as (msg & e0 & ->). discriminate.
    + apply bind_returned in E as (v & c6 & Ev & E).
      unfold lift in Ev. inversion Ev; subst.
      destruct v as [e|].
      * inversion E; subst. simpl.
        destruct (switch_error (CallExchangeMTU clientRxMTU) b e) as [->|[code ->]];
          [by simpl | discriminate | discriminate].
      * apply bind_returned in E as (mtu & c7 & _ & E).
        apply bind_returned in E as (u2 & c8 & _ & E).
        inversion E; subst. simpl. discriminate.
  - intros buf Hc. rewrite (recv_defer _ c buf Hc).
    match goal with |- context [deferSendTxBuf ?body ?c1] =>
      destruct (defer_trace body c1) as [tr1 E1]; rewrite E1; clear E1
    end.
    match goal with |- context [bind (l2cSetRxMTU ?m) ?k ?c1] =>
      destruct (bind_trace (l2cSetRxMTU m) k c1) as [tr2 E2]; [|rewrite E2; clear E2]
    end.
    + intros []. solve_quiet.
    + simpl. exists (tr2 ++ tr1). by rewrite <- !app_assoc.
Qed.

(** C10: the handle range is checked differently.  FindInformation
    rejects starth = 0 and starth > endh with ErrInvalidArgument and does
    nothing else; ReadByType and ReadByGroupType reject starth > endh too,
    but with starth = 0 (and a UUID of 2 or 16 bytes, and the buffer in the
    channel) they take the buffer and write the request, whose starting
    handle is 0x0000, to the bearer. *)
Theorem handle_range_check_differs (c : Client P) :
  (forall starth endh, starth = 0 \/ starth > endh ->
     FindInformation l2cWrite arrivals starth endh c
     = (Returned (0, [], Some ErrInvalidArgument), c)) /\
  (forall starth endh uuid, starth > endh ->
     ReadByType l2cWrite arrivals starth endh uuid c
     = (Returned (0, [], Some ErrInvalidArgument), c) /\
     ReadByGroupType l2cWrite arrivals starth endh uuid c
     = (Returned (0, [], Some ErrInvalidArgument), c)) /\
  (forall endh uuid buf,
     0 <= endh -> (length uuid = 2 \/ length uuid = 16)%nat ->
     chTxBuf c = [buf] -> (5 + length uuid <= length buf)%nat ->
     (exists e tr,
        trace (ReadByType l2cWrite arrivals 0 endh uuid c).2
        = trace c ++ EvRecvTxBuf
            :: EvWrite ([ReadByTypeRequestCode; 0; 0; endh mod 256; (endh / 256) mod 256]
                          ++ uuid) e :: tr) /\
     (exists e tr,
        trace (ReadByGroupType l2cWrite arrivals 0 endh uuid c).2
        = trace c ++ EvRecvTxBuf
            :: EvWrite ([ReadByGroupTypeRequestCode; 0; 0; endh mod 256; (endh / 256) mod 256]
                          ++ uuid) e :: tr)).
Proof.
  split; [|split].
  - intros starth endh Hs. unfold FindInformation.
    assert (G : (starth =? 0) || (starth >? endh) = true) by lia.
    by rewrite G.
  - intros starth endh uuid Hs. unfold ReadByType, ReadByGroupType.
    assert (G : (starth >? endh) = true) by lia.
    by rewrite G.
  - intros endh uuid buf He Hu Hc Hb.
    assert (G : (0 >? endh) || (negb (len uuid =? 2) && negb (len uuid =? 16)) = false).
    { unfold len. destruct Hu as [-> | ->]; simpl; rewrite orb_false_r; lia. }
    unfold ReadByType, ReadByGroupType. rewrite G. split.
    + eapply first_write; [exact Hc | | intros [b [e|]]; solve_quiet].
      unfold SetAttributeType.
      exact (range_request ReadByTypeRequestCode 0 endh uuid buf Hb).
    + eapply first_write; [exact Hc | | intros [b [e|]]; solve_quiet].
      unfold SetAttributeGroupType.
      exact (range_request ReadByGroupTypeRequestCode 0 endh uuid buf Hb).
Qed.

Lemma ExchangeMTU_request (clientRxMTU : Z) buf :
  (3 <= length buf)%nat ->
  obind (upto 3 buf) (fun r =>
    obind (SetAttributeOpcode ExchangeMTURequestCode r) (fun r =>
      SetClientRxMTU clientRxMTU r))
  = Returned [ExchangeMTURequestCode; clientRxMTU mod 256; (clientRxMTU / 256) mod 256].
Proof.
  intros Hb. destruct buf as [|b0 [|b1 [|b2 rest]]]; simpl in Hb; try lia.
  reflexivity.
Qed.

(** C3 (amended): when ExchangeMTU, called with a valid clientRxMTU on a
    client whose buffer has the length of the connection's TxMTU, gets the
    well-formed response carrying serverRxMTU, it returns serverRxMTU, the
    TxMTU of the connection is serverRxMTU, the RxMTU is clientRxMTU, and
    the buffer put back into the channel has serverRxMTU bytes; that is
    min(clientRxMTU, serverRxMTU) when serverRxMTU <= clientRxMTU. *)
Theorem ExchangeMTU_installs_serverRxMTU
  (clientRxMTU lo hi : Z) (c : Client P) buf p' inc :
  DefaultMTU <= clientRxMTU <= MaxMTU ->
  chTxBuf c = [buf] -> (3 <= length buf)%nat -> len buf = txMTU (l2c c) ->
  0 <= lo < 256 -> 0 <= hi < 256 ->
  l2cWrite (peer (l2c c))
    [ExchangeMTURequestCode; clientRxMTU mod 256; (clientRxMTU / 256) mod 256]
  = (p', None) ->
  arrivals p' = OnRspc [ExchangeMTUResponseCode; lo; hi] :: inc ->
  let serverRxMTU := lo + 256 * hi in
  let r := ExchangeMTU l2cWrite arrivals clientRxMTU c in
  r.1 = Returned (serverRxMTU, None) /\
  txMTU (l2c r.2) = serverRxMTU /\
  rxMTU (l2c r.2) = clientRxMTU /\
  (exists buf', chTxBuf r.2 = [buf'] /\ len buf' = serverRxMTU) /\
  (serverRxMTU <= clientRxMTU -> serverRxMTU = Z.min clientRxMTU serverRxMTU).
Proof.
  intros Hm Hc Hb Hinv Hlo Hhi Hw Ha serverRxMTU r. subst r.
  unfold ExchangeMTU.
  assert (G : (clientRxMTU <? DefaultMTU) || (clientRxMTU >? MaxMTU) = false) by lia.
  assert (U : uint16 clientRxMTU = clientRxMTU).
  { unfold uint16, DefaultMTU, MaxMTU in *. apply Z.mod_small. lia. }
  rewrite G, U, (recv_defer _ c buf Hc).
  erewrite defer_bind by reflexivity.
  erewrite defer_bind by (apply request_returned; simpl; by apply ExchangeMTU_request).
  erewrite defer_bind by (eapply sendReq_response; simpl; eauto).
  cbn [l2c chTxBuf txBuf trace rxMTU txMTU peer].
  assert (Sw : ExchangeMTU_switch [ExchangeMTUResponseCode; lo; hi] = Returned None)
    by reflexivity.
  assert (Sv : ServerRxMTU [ExchangeMTUResponseCode; lo; hi] = Returned serverRxMTU)
    by reflexivity.
  erewrite defer_bind by (unfold lift; rewrite Sw; reflexivity).
  cbn [l2c chTxBuf txBuf trace rxMTU txMTU peer].
  erewrite defer_bind by (unfold lift; rewrite Sv; reflexivity).
  assert (Hreq : forall x y z, length (([x; y; z] : list Z) ++ drop 3 buf) = length buf).
  { intros. rewrite length_app, length_drop. simpl. lia. }
  destruct (len buf =? serverRxMTU) eqn:E.
  - erewrite defer_bind.
    2:{ cbn [l2c chTxBuf txBuf trace rxMTU txMTU peer]. unfold len in *.
        rewrite Hreq, E. reflexivity. }
    rewrite defer_ret by reflexivity.
    cbn [l2c chTxBuf txBuf trace rxMTU txMTU peer fst snd].
    repeat split; try lia.
    eexists; split; [reflexivity|]. unfold len in *. rewrite Hreq. lia.
  - erewrite defer_bind.
    2:{ cbn [l2c chTxBuf txBuf trace rxMTU txMTU peer]. unfold len in *.
        rewrite Hreq, E. reflexivity. }
    rewrite defer_ret by reflexivity.
    cbn [l2c chTxBuf txBuf trace rxMTU txMTU peer fst snd].
    repeat split; try lia.
    eexists; split; [reflexivity|]. unfold len, make.
    rewrite length_replicate. subst serverRxMTU. lia.
Qed.

(** C5 (amended): while sendReq waits for the response to a request with
    opcode reqop, a frame on the response channel whose opcode is neither
    ErrorResponseCode nor rspOfReq[reqop] makes the client write
    ErrorResponse{opcode of the frame, handle 0x0000, ErrReqNotSupp} to the
    bearer; when that write succeeds the wait goes on with the frames that
    follow, and when it fails the request ends with the wrapped error. *)
Theorem crosstalk_is_answered_and_the_wait_goes_on
  (reqop op : Z) (rest : list Z) (inc : list incoming) (c : Client P) :
  op <> ErrorResponseCode -> op <> rspOfReq reqop ->
  let errRsp := [ErrorResponseCode; op; 0x00; 0x00; ErrReqNotSupp] in
  let (p', err) := l2cWrite (peer (l2c c)) errRsp in
  let c' := mkClient (mkConn (rxMTU (l2c c)) (txMTU (l2c c)) p')
                     (chTxBuf c) (txBuf c) (trace c ++ [EvWrite errRsp err]) in
  awaitRsp l2cWrite reqop (OnRspc (op :: rest) :: inc) c
  = match err with
    | None => awaitRsp l2cWrite reqop inc c'
    | Some e => (Returned ([], Some (Errorf "unexpected ATT response received" e)), c')
    end.
Proof.
  intros H1 H2. simpl.
  assert (G : (op =? ErrorResponseCode) || (op =? rspOfReq reqop) = false) by lia.
  unfold bind at 1. unfold lift, index. simpl. rewrite G.
  unfold bind, l2cWriteM, newErrorResponse. simpl.
  destruct (l2cWrite (peer (l2c c)) _) as [p' [e|]]; reflexivity.
Qed.

End Props.

(** C1 as the specification has it fails: a request of MTU = 185 lies
    between 23 and 515 and is rejected with ErrInvalidArgument before
    anything is sent. *)
Lemma ExchangeMTU_rejects_185 :
  23 <= 185 <= 515 /\
  ExchangeMTU Scenario.accept (Scenario.scripted [OnRspc [0x03; 100; 0]]) 185
    (Scenario.fresh 23 tt)
  = (Returned (0, Some ErrInvalidArgument), Scenario.fresh 23 tt).
Proof. split; [lia | reflexivity]. Qed.

Lemma ExchangeMTU_accepts_witness :
  DefaultMTU <= 400 <= MaxMTU /\
  (forall r c',
     ExchangeMTU Scenario.accept (Scenario.scripted [OnRspc [0x03; 100; 0]]) 400
       (Scenario.fresh 23 tt) = (Returned r, c') ->
     r.2 <> Some ErrInvalidArgument) /\
  (forall buf, chTxBuf (Scenario.fresh 23 tt) = [buf] ->
     exists tr,
       trace (ExchangeMTU Scenario.accept (Scenario.scripted [OnRspc [0x03; 100; 0]]) 400
                (Scenario.fresh 23 tt)).2
       = trace (Scenario.fresh 23 tt) ++ EvRecvTxBuf :: EvSetRxMTU 400 :: tr).
Proof.
  split; [unfold DefaultMTU, MaxMTU; lia|].
  apply (ExchangeMTU_accepts_DefaultMTU_to_MaxMTU Scenario.accept
           (Scenario.scripted [OnRspc [0x03; 100; 0]]) 400 (Scenario.fresh 23 tt)).
  unfold DefaultMTU, MaxMTU; lia.
Defined.

(** C3 as the specification has it fails: the client offers 339 and the
    server answers 400; the call returns 400 and installs 400 as TxMTU,
    with a buffer of 400 bytes, and min(339, 400) is 339. *)
Lemma ExchangeMTU_takes_larger_serverRxMTU :
  let r := ExchangeMTU Scenario.accept (Scenario.scripted [OnRspc [0x03; 0x90; 0x01]]) 339
             (Scenario.fresh 23 tt) in
  r.1 = Returned (400, None) /\
  txMTU (l2c r.2) = 400 /\
  (exists buf, chTxBuf r.2 = [buf] /\ len buf = 400) /\
  Z.min 339 400 = 339.
Proof.
  repeat split. eexists. split; reflexivity.
Qed.

Lemma ExchangeMTU_installs_witness :
  let r := ExchangeMTU Scenario.accept (Scenario.scripted [OnRspc [0x03; 100; 0]]) 400
             (Scenario.fresh 23 tt) in
  r.1 = Returned (100, None) /\
  txMTU (l2c r.2) = 100 /\
  rxMTU (l2c r.2) = 400 /\
  (exists buf', chTxBuf r.2 = [buf'] /\ len buf' = 100) /\
  (100 <= 400 -> 100 = Z.min 400 100).
Proof.
  apply (ExchangeMTU_installs_serverRxMTU Scenario.accept
           (Scenario.scripted [OnRspc [0x03; 100; 0]]) 400 100 0
           (Scenario.fresh 23 tt) (make 23) tt []);
    try reflexivity; try (unfold DefaultMTU, MaxMTU; lia); simpl; lia.
Defined.

(** C5 as the specification has it fails: the request Read(0x0001) is on
    the wire, a notification-like frame with opcode 0x1b reaches the
    response channel, and the write of the Error Response fails; sendReq
    returns the error although the Read Response was next in line. *)
Lemma crosstalk_fails_the_request_when_the_write_fails :
  sendReq Scenario.failing (Scenario.scriptedN [OnRspc [0x1b; 0x01; 0x00]; OnRspc [0x0b; 0x07]])
    [0x0a; 0x01; 0x00] (Scenario.fresh 23 1%nat)
  = (Returned ([], Some (Errorf "unexpected ATT response received" (ErrBearer 0))),
     mkClient (mkConn 23 23 0%nat) [make 23] []
       [EvWrite [0x0a; 0x01; 0x00] None;
        EvWrite [0x01; 0x1b; 0x00; 0x00; 0x06] (Some (ErrBearer 0))]).
Proof. reflexivity. Qed.

Lemma crosstalk_witness :
  sendReq Scenario.accept (Scenario.scripted [OnRspc [0x1b; 0x01; 0x00]; OnRspc [0x0b; 0x07]])
    [0x0a; 0x01; 0x00] (Scenario.fresh 23 tt)
  = (Returned ([0x0b; 0x07], None),
     mkClient (mkConn 23 23 tt) [make 23] []
       [EvWrite [0x0a; 0x01; 0x00] None;
        EvWrite [0x01; 0x1b; 0x00; 0x00; 0x06] None]).
Proof.
  assert (H1 : 0x1b <> ErrorResponseCode) by done.
  assert (H2 : 0x1b <> rspOfReq 0x0a) by done.
  pose proof (crosstalk_is_answered_and_the_wait_goes_on Scenario.accept
                0x0a 0x1b [0x01; 0x00] [OnRspc [0x0b; 0x07]]
                (mkClient (mkConn 23 23 tt) [make 23] []
                          [EvWrite [0x0a; 0x01; 0x00] None]) H1 H2) as H.
  simpl in H. unfold sendReq, bind, Scenario.scripted. simpl. rewrite H.
  reflexivity.
Defined.

(** Every validation switch turns an Error Response of five bytes into
    the ATT error of its fifth byte. *)
Lemma switch_error_response k (reqop hlo hhi code : Z) :
  switch_of k [ErrorResponseCode; reqop; hlo; hhi; code]
  = Returned (Some (ATTError code)).
Proof. destruct k; reflexivity. Qed.

(** Every validation switch but the one of ExecuteWrite turns a frame
    that starts with ErrorResponseCode and has another length into
    ErrInvalidResponse. *)
Lemma switch_malformed_error_response k (rest : list Z) :
  (forall flags, k <> CallExecuteWrite flags) ->
  length rest <> 4%nat ->
  switch_of k (ErrorResponseCode :: rest) = Returned (Some ErrInvalidResponse).
Proof.
  intros Hk Hlen.
  assert (G : (len (ErrorResponseCode :: rest) =? 5) = false).
  { unfold len. simpl length. apply Z.eqb_neq. lia. }
  destruct k; simpl; unfold_pdu; unfold index; simpl lookup; unfold obind;
    rewrite ?G; simpl; try reflexivity.
  by destruct (Hk flags).
Qed.


(** C7, where the code departs from it.  A Read By Type Response, or a
    Read By Group Type Response, whose length octet is 0 makes the
    operation panic on the division len(list) % 0 where the claim has
    ErrInvalidResponse; and the switch of ExecuteWrite lets a frame that
    starts with ErrorResponseCode and is not five bytes long pass as
    success, where the switch of Write (like the other eight) returns
    ErrInvalidResponse. *)
Theorem malformed_responses_not_rejected :
  (ReadByType Scenario.accept (Scenario.scripted [OnRspc [0x09; 0x00; 0x00; 0x00]])
     0x0001 0xffff [0x03; 0x28] (Scenario.fresh 23 tt)).1 = Panicked /\
  (ReadByGroupType Scenario.accept (Scenario.scripted [OnRspc [0x11; 0x00; 0x00; 0x00]])
     0x0001 0xffff [0x00; 0x28] (Scenario.fresh 23 tt)).1 = Panicked /\
  ExecuteWrite_switch [0x01; 0x18; 0x00; 0x00] = Returned None /\
  Write_switch [0x01; 0x12; 0x00; 0x00] = Returned (Some ErrInvalidResponse).
Proof. repeat split. Qed.

End AttProps.

(** ** The buffer as the permit for the one request in flight *)

Module Permit.

Import Att AttSpec.

(** The argument check at the head of each request operation; Read,
    ReadBlob and ExecuteWrite have none. *)
Definition rejected {P} (k : call) (c : Client P) : bool :=
  match k with
  | CallExchangeMTU clientRxMTU =>
      (clientRxMTU <? DefaultMTU) || (clientRxMTU >? MaxMTU)
  | CallFindInformation starth endh =>
      (starth =? 0) || (starth >? endh)
  | CallReadByType starth endh uuid =>
      (starth >? endh) || (negb (len uuid =? 2) && negb (len uuid =? 16))
  | CallRead _ => false
  | CallReadBlob _ _ => false
  | CallReadMultiple handles =>
      (len handles <? 2) || (len handles * 2 >? txMTU (l2c c) - 1)
  | CallReadByGroupType starth endh uuid =>
      (starth >? endh) || (negb (len uuid =? 2) && negb (len uuid =? 16))
  | CallWrite _ value => len value >? txMTU (l2c c) - 3
  | CallPrepareWrite _ _ value => len value >? txMTU (l2c c) - 5
  | CallExecuteWrite _ => false
  end.

Section Bracket.

Context {P : Type}.
Variable l2cWrite : P -> list Z -> P * option error.
Variable arrivals : P -> list incoming.

Local Abbreviation M := (Att.M (P := P)).

(** [m], run on [c], takes the buffer first, leaves the channel alone
    while it holds it, puts exactly one buffer back last, and ends by
    returning or by panicking *)
Definition brackets {A} (m : M A) (c : Client P) : Prop :=
  exists mid buf',
    trace (m c).2 = trace c ++ EvRecvTxBuf :: mid ++ [EvSendTxBuf (length buf')] /\
    silent mid /\ chTxBuf (m c).2 = [buf'] /\ settled (m c).1 = true.

Lemma brackets_body {A} (body : M A) (c : Client P) buf :
  quiet body -> chTxBuf c = [buf] ->
  brackets (bind recvTxBuf (fun _ => deferSendTxBuf body)) c.
Proof.
  intros Hq Hc. unfold brackets. rewrite (recv_defer _ c buf Hc).
  set (c1 := mkClient (l2c c) [] buf (trace c ++ [EvRecvTxBuf])).
  destruct (Hq c1) as (mid & Ht & Hs & Hch & Ho).
  unfold deferSendTxBuf. destruct (body c1) as [o c2]. simpl in *.
  exists mid, (txBuf c2).
  destruct o; simpl in *; try discriminate;
    unfold sendTxBuf; rewrite Hch; simpl; rewrite Ht;
    rewrite <- !app_assoc; auto.
Qed.

Lemma brackets_snd {A B} (m : M A) (f : A -> B) (c : Client P) :
  brackets m c -> brackets (bind m (fun r => ret (f r))) c.
Proof.
  intros (mid & buf' & Ht & Hs & Hch & Ho). exists mid, buf'.
  unfold bind. destruct (m c) as [o c1]. destruct o; simpl in *; auto.
Qed.

Lemma brackets_TxMTU {A} (k : Z -> M A) (c : Client P) :
  brackets (k (txMTU (l2c c))) c -> brackets (bind TxMTU k) c.
Proof. intros Hk. exact Hk. Qed.

(** a call whose arguments pass the check takes the buffer *)
Lemma accepted_brackets (k : call) (c : Client P) buf :
  chTxBuf c = [buf] -> rejected k c = false -> brackets (run l2cWrite arrivals k) c.
Proof.
  intros Hc Hr.
  destruct k; simpl in Hr; simpl run;
    unfold ExchangeMTU, FindInformation, ReadByType, Read, ReadBlob,
      ReadMultiple, ReadByGroupType, Write, PrepareWrite, ExecuteWrite;
    try apply brackets_snd;
    try (apply brackets_TxMTU; cbv beta);
    rewrite ?Hr;
    (apply (brackets_body _ c buf); [|exact Hc]);
    repeat quiet_step; try apply quiet_resize.
Qed.

(** a call whose arguments fail the check touches nothing *)
Lemma rejected_untouched (k : call) (c : Client P) :
  rejected k c = true ->
  run l2cWrite arrivals k c = (Returned (Some ErrInvalidArgument), c).
Proof.
  intros Hr.
  destruct k; simpl in Hr; try discriminate; simpl run;
    unfold ExchangeMTU, FindInformation, ReadByType,
      ReadMultiple, ReadByGroupType, Write, PrepareWrite;
    unfold bind, TxMTU; rewrite Hr; reflexivity.
Qed.

End Bracket.

(** C4 (amended): at most one request awaits its response.  NewClient puts
    exactly one buffer into the channel chTxBuf.  Started with that buffer
    in the channel, a request operation whose arguments fail its check
    returns ErrInvalidArgument and touches neither the channel nor the
    bearer; Read, ReadBlob and ExecuteWrite have no such check.  Every
    other call takes the buffer first, writes to the bearer and waits only
    while it holds the buffer, and puts exactly one buffer back as the
    last thing it does, whether it returns a result, returns an error or
    panics; it never blocks.  So what an operation does to the channel is
    a bracket, and of any number of goroutines that run such brackets
    against a channel holding one buffer, at most one holds the buffer at
    any time, the buffer being in the channel exactly when nobody holds
    it. *)
Theorem one_request_at_a_time
  (P : Type) (l2cWrite : P -> list Z -> P * option error)
  (arrivals : P -> list incoming) :
  (forall conn : Conn P, chTxBuf (NewClient conn) = [make (txMTU conn)]) /\
  (forall (k : call) (c : Client P) (buf : list Z),
     chTxBuf c = [buf] ->
     let r := run l2cWrite arrivals k c in
     if rejected k c
     then r = (Returned (Some ErrInvalidArgument), c)
     else
       exists mid buf',
         trace r.2 = trace c ++ EvRecvTxBuf :: mid ++ [EvSendTxBuf (length buf')] /\
         silent mid /\ chTxBuf r.2 = [buf'] /\
         (r.1 = Panicked \/ exists e, r.1 = Returned e)) /\
  (forall (h : Z) (c : Client P), rejected (CallRead h) c = false) /\
  (forall (h o : Z) (c : Client P), rejected (CallReadBlob h o) c = false) /\
  (forall (f : Z) (c : Client P), rejected (CallExecuteWrite f) c = false) /\
  (forall (k : call) (c : Client P) (buf : list Z),
     chTxBuf c = [buf] ->
     exists tr,
       trace (run l2cWrite arrivals k c).2 = trace c ++ tr /\
       Token.bracketed false (map Token.of_event tr) = true) /\
  (forall s0 s : Token.system,
     Token.initial s0 -> Token.reachable s0 s ->
     (Token.holders s <= 1)%nat /\ (Token.chan s + Token.holders s = 1)%nat).
Proof.
  split; [reflexivity|]. split; [|split; [done|split; [done|split; [done|split]]]].
  - intros k c buf Hc r. subst r.
    destruct (rejected k c) eqn:Hr.
    + by apply rejected_untouched.
    + destruct (accepted_brackets l2cWrite arrivals k c buf Hc Hr)
        as (mid & buf' & Ht & Hs & Hch & Ho).
      exists mid, buf'. repeat split; auto.
      destruct (run l2cWrite arrivals k c).1; simpl in Ho; try discriminate; eauto.
  - intros k c buf Hc.
    destruct (discipline_run l2cWrite arrivals k c buf Hc)
      as [(a & E & Ha)|(mid & buf' & Ht & Hs & Hch & Ho)].
    + exists []. rewrite E. simpl. by rewrite app_nil_r.
    + eexists. split; [exact Ht|].
      simpl. rewrite map_app. rewrite TokenSpec.bracketed_silent by exact Hs.
      reflexivity.
  - intros s0 s H0 Hr.
    destruct (TokenSpec.reachable_balanced s0 s H0 Hr) as [Hn _]. lia.
Qed.

(** C4 as the specification has it fails: ExchangeMTU(185), on a client
    fresh from NewClient, completes with ErrInvalidArgument without ever
    taking the buffer from the channel or putting one back. *)
Lemma rejected_call_takes_no_buffer :
  let c := Scenario.fresh 23 tt in
  let r := run Scenario.accept (Scenario.scripted []) (CallExchangeMTU 185) c in
  r.1 = Returned (Some ErrInvalidArgument) /\
  trace r.2 = [] /\
  ~ In EvRecvTxBuf (trace r.2) /\
  (forall n, ~ In (EvSendTxBuf n) (trace r.2)).
Proof.
  repeat split; simpl; tauto.
Qed.

End Permit.

(** ** Properties of the SMP dispatcher *)

Module SmpProps.

Import Smp.

(** a table with a handler for the pairing request only, and a
    connection whose write function accepts every PDU *)
Definition onlyPairingRequest : Z -> option (entry unit) :=
  fun code =>
    if code =? 0x01
    then Some (mkEntry (Some (fun tr _ => (setState WaitPublicKey tr, None))))
    else if code =? 0x0b
    then Some (mkEntry None)
    else None.

Definition writeOk : transport unit -> list Z -> option error := fun _ _ => None.

Definition idle : manager unit :=
  mkManager (mkTransport (mkPairing WaitPairingResponse tt) []) (ResultOpen true) [].

(** C9: a frame whose opcode has no entry in the dispatcher, or an entry
    whose handler is nil, makes Handle send exactly the two bytes
    {pairingFailed, 0x05} and return what send returned; no handler runs,
    and the pairing context with its state, the result channel and what was
    delivered on it are as before. *)
Theorem unknown_opcode_gets_PairingNotSupported
  {X : Type} (dispatcher : Z -> option (entry X))
  (writePDU : transport X -> list Z -> option error)
  (inp : list Z) (m : manager X) (code : Z) (data : list Z) :
  payload inp = Returned (code :: data) ->
  dispatcher code = None \/ dispatcher code = Some (mkEntry None) ->
  let r := Handle dispatcher writePDU inp m in
  r.1 = Returned (writePDU (t m) [pairingFailed; 0x05]) /\
  sent (t r.2) = sent (t m) ++ [[pairingFailed; 0x05]] /\
  pairing (t r.2) = pairing (t m) /\
  state (pairing (t r.2)) = state (pairing (t m)) /\
  result r.2 = result m /\
  delivered r.2 = delivered m.
Proof.
  intros Hp Hd r. subst r. unfold Handle. rewrite Hp. simpl.
  unfold from. simpl.
  destruct Hd as [-> | ->]; simpl; repeat split.
Qed.

Lemma unknown_opcode_witness :
  let r := Handle onlyPairingRequest writeOk [0x02; 0x00; 0x06; 0x00; 0x0e; 0x01] idle in
  r.1 = Returned None /\
  sent (t r.2) = [[pairingFailed; 0x05]] /\
  pairing (t r.2) = pairing (t idle) /\
  state (pairing (t r.2)) = WaitPairingResponse /\
  result r.2 = ResultOpen true /\
  delivered r.2 = [].
Proof.
  apply (unknown_opcode_gets_PairingNotSupported onlyPairingRequest writeOk
           [0x02; 0x00; 0x06; 0x00; 0x0e; 0x01] idle 0x0e [0x01]).
  - reflexivity.
  - left. reflexivity.
Defined.

End SmpProps.

(** ** Properties of the GATT client *)

Module GattProps.

Import Gatt.

Section Subscriptions.

Context {P H : Type}.
Variable l2cWrite : P -> list Z -> P * option error.
Variable arrivals : P -> list Att.incoming.

Local Abbreviation setHandlers := (Gatt.setHandlers (H := H) l2cWrite arrivals).

Lemma flag_set_after_or (x flag : Z) :
  flag = cccNotify \/ flag = cccIndicate -> Z.land (Z.lor x flag) flag <> 0.
Proof.
  intros Hf. rewrite Z.land_lor_distr_l. intros E.
  apply Z.lor_eq_0_iff in E as [_ E]. rewrite Z.land_diag in E.
  destruct Hf; subst; discriminate.
Qed.

Lemma flag_clear_after_and (x flag : Z) :
  flag = cccNotify \/ flag = cccIndicate ->
  Z.land (Z.land x (Z.lxor flag 0xffff)) flag = 0.
Proof.
  intros Hf. rewrite <- Z.land_assoc.
  destruct Hf; subst; simpl; apply Z.land_0_r.
Qed.

(** a flag that is set: setHandlers with a handler returns at once *)
Lemma setHandlers_already_set cccdh' vh flag (h : H) (p : Client P H) s :
  subs p !! vh = Some s -> Z.land (ccc s) flag <> 0 ->
  setHandlers cccdh' vh flag (Some h) p = (Returned None, p).
Proof.
  intros Hs Hf. unfold Gatt.setHandlers. rewrite Hs.
  apply Z.eqb_neq in Hf. rewrite Hf. simpl.
  rewrite insert_id by done. by destruct p.
Qed.

(** a flag that is clear: setHandlers without a handler returns at once,
    and the ATT client is not used *)
Lemma setHandlers_already_clear cccdh' vh flag (p : Client P H) :
  (forall s, subs p !! vh = Some s -> Z.land (ccc s) flag = 0) ->
  exists p', setHandlers cccdh' vh flag None p = (Returned None, p') /\
             ac p' = ac p /\
             (forall s, subs p' !! vh = Some s -> Z.land (ccc s) flag = 0).
Proof.
  intros Hs. unfold Gatt.setHandlers.
  destruct (subs p !! vh) as [s|] eqn:E.
  - rewrite (Hs s eq_refl). simpl. eexists. split; [reflexivity|]. split; [done|].
    simpl. intros s'. rewrite lookup_insert_eq. intros [= <-]. by apply Hs.
  - simpl. eexists. split; [reflexivity|]. split; [done|].
    simpl. intros s'. rewrite lookup_insert_eq. by intros [= <-].
Qed.

(** what onAc leaves of the table *)
Lemma onAc_subs {A} (m : Att.M A) (p : Client P H) :
  subs (onAc m p).2 = subs p.
Proof. unfold onAc. by destruct (m (ac p)). Qed.

(** after a call of setHandlers that returned nil, the flag is as asked *)
Lemma setHandlers_success cccdh' vh flag (h : option H) (p p1 : Client P H) :
  flag = cccNotify \/ flag = cccIndicate ->
  setHandlers cccdh' vh flag h p = (Returned None, p1) ->
  exists s, subs p1 !! vh = Some s /\
            match h with
            | Some _ => Z.land (ccc s) flag <> 0
            | None => Z.land (ccc s) flag = 0
            end.
Proof.
  intros Hf. unfold Gatt.setHandlers.
  set (s := match subs p !! vh with Some s => s | None => mkSub cccdh' 0 None None 0 end).
  destruct (Z.land (ccc s) flag =? 0) eqn:E; simpl.
  - apply Z.eqb_eq in E. destruct h as [h|].
    + match goal with |- context [onAc ?m ?q] =>
        pose proof (onAc_subs m q) as Hsub; destruct (onAc m q) as [o p2] end.
      simpl in Hsub. destruct o as [[e|]| | |]; try discriminate.
      intros [= <-]. rewrite Hsub, lookup_insert_eq. eexists. split; [reflexivity|].
      destruct (flag =? cccNotify); simpl; by apply flag_set_after_or.
    + intros [= <-]. simpl. rewrite lookup_insert_eq. eauto.
  - apply Z.eqb_neq in E. destruct h as [h|].
    + intros [= <-]. simpl. rewrite lookup_insert_eq. eauto.
    + match goal with |- context [onAc ?m ?q] =>
        pose proof (onAc_subs m q) as Hsub; destruct (onAc m q) as [o p2] end.
      simpl in Hsub. destruct o as [[e|]| | |]; try discriminate.
      intros [= <-]. rewrite Hsub, lookup_insert_eq. eexists. split; [reflexivity|].
      destruct (flag =? cccNotify); simpl; by apply flag_clear_after_and.
Qed.

(** C8: Subscribe is idempotent.  When Subscribe(c, ind, h) with a
    non-nil handler has returned nil, Subscribe for the same characteristic
    and the same flag with any non-nil handler returns nil and leaves the
    client exactly as it was: nothing is written to the CCCD.  And
    Unsubscribe when the flag is clear (no entry for the value handle, or an
    entry without the flag, as after an Unsubscribe that returned nil)
    returns nil without using the ATT client. *)
Theorem Subscribe_is_idempotent
  (c : Characteristic) (d : Descriptor) (ind : bool) (h h' : H) (p p1 : Client P H) :
  CCCD c = Some d ->
  Subscribe l2cWrite arrivals c ind (Some h) p = (Returned None, p1) ->
  Subscribe l2cWrite arrivals c ind (Some h') p1 = (Returned None, p1) /\
  (forall q : Client P H,
     (forall s, subs q !! ValueHandle c = Some s ->
                Z.land (ccc s) (if ind then cccIndicate else cccNotify) = 0) ->
     exists q', Unsubscribe (H := H) l2cWrite arrivals c ind q = (Returned None, q') /\
                ac q' = ac q) /\
  (forall q q1 : Client P H,
     Unsubscribe (H := H) l2cWrite arrivals c ind q = (Returned None, q1) ->
     exists q2, Unsubscribe (H := H) l2cWrite arrivals c ind q1 = (Returned None, q2) /\
                ac q2 = ac q1).
Proof.
  intros Hd Hfirst. unfold Subscribe, Unsubscribe in *. rewrite Hd in *.
  assert (Hf : (if ind then cccIndicate else cccNotify) = cccNotify \/
               (if ind then cccIndicate else cccNotify) = cccIndicate)
    by (destruct ind; auto).
  assert (Hun : forall q, (if ind
            then Gatt.setHandlers (H := H) l2cWrite arrivals (Handle d) (ValueHandle c) cccIndicate None
            else Gatt.setHandlers l2cWrite arrivals (Handle d) (ValueHandle c) cccNotify None) q
          = Gatt.setHandlers l2cWrite arrivals (Handle d) (ValueHandle c)
              (if ind then cccIndicate else cccNotify) None q)
    by (intros q; by destruct ind).
  split; [|split].
  - destruct (setHandlers_success _ _ _ _ _ _ Hf Hfirst) as (s & Hs & Hset).
    by eapply setHandlers_already_set.
  - intros q Hq. rewrite Hun.
    destruct (setHandlers_already_clear (Handle d) (ValueHandle c) _ q Hq)
      as (q' & E & Hac & _). eauto.
  - intros q q1 E. rewrite Hun in *.
    destruct (setHandlers_success _ _ _ _ _ _ Hf E) as (s & Hs & Hclear).
    destruct (setHandlers_already_clear (Handle d) (ValueHandle c)
                (if ind then cccIndicate else cccNotify) q1) as (q2 & E2 & Hac & _).
    + intros s' Hs'. rewrite Hs in Hs'. by inversion Hs'; subst.
    + eauto.
Qed.

End Subscriptions.

(** a battery-level characteristic with its CCCD, and a client that has
    no subscription yet, on a bearer that answers with a Write Response *)
Definition level : Characteristic :=
  mkCharacteristic 0x0012 (Some (mkDescriptor 0x0013)) [].

Definition answering : unit -> list Att.incoming :=
  Scenario.scripted [Att.OnRspc [Att.WriteResponseCode]].

Definition unsubscribed : Client unit nat :=
  mkClient ∅ (Scenario.fresh 23 tt).

Lemma Subscribe_idempotent_witness :
  let p1 := (Subscribe Scenario.accept answering level false (Some 7%nat) unsubscribed).2 in
  Subscribe Scenario.accept answering level false (Some 9%nat) p1 = (Returned None, p1) /\
  (forall q : Client unit nat,
     (forall s, subs q !! ValueHandle level = Some s -> Z.land (ccc s) cccNotify = 0) ->
     exists q', Unsubscribe (H := nat) Scenario.accept answering level false q
                = (Returned None, q') /\ ac q' = ac q) /\
  (forall q q1 : Client unit nat,
     Unsubscribe (H := nat) Scenario.accept answering level false q = (Returned None, q1) ->
     exists q2, Unsubscribe (H := nat) Scenario.accept answering level false q1
                = (Returned None, q2) /\ ac q2 = ac q1).
Proof.
  intros p1.
  apply (Subscribe_is_idempotent Scenario.accept answering level (mkDescriptor 0x0013)
           false 7%nat 9%nat unsubscribed p1).
  - reflexivity.
  - subst p1.
    destruct (Subscribe Scenario.accept answering level false (Some 7%nat) unsubscribed)
      as [o q] eqn:E.
    assert (Ho : o = Returned None).
    { change o with (o, q).1. rewrite <- E. vm_compute. reflexivity. }
    by rewrite Ho.
Defined.

End GattProps.

(** ** Properties of the receive loop *)

Module LoopProps.

Import Att.

(** the frame that was read is an indication *)
Definition is_indication (r : readResult) : bool :=
  match r with
  | ReadFrame (op :: _) => op =? HandleValueIndicationCode
  | _ => false
  end.

(** the event is the write of a Handle Value Confirmation *)
Definition is_confirmation (e : event) : bool :=
  match e with
  | EvWrite [op] _ => op =? HandleValueConfirmationCode
  | _ => false
  end.

(** [confirmed owed tr]: along [tr] no frame is read while a confirmation
    is owed; one is owed from the read of an indication (and at the start,
    if [owed]) until a confirmation is written. *)
Fixpoint confirmed (owed : bool) (tr : list event) : bool :=
  match tr with
  | [] => true
  | EvRead r :: tr' => negb owed && confirmed (is_indication r) tr'
  | e :: tr' => confirmed (owed && negb (is_confirmation e)) tr'
  end.




Lemma confirmed_weaken tr : forall o, confirmed o tr = true -> confirmed false tr = true.
Proof.
  induction tr as [|x tr IH]; intros o; simpl; [done|].
  destruct x; simpl; rewrite ?andb_false_l; eauto.
  intros Hc. apply andb_true_iff in Hc as [_ Hc]. done.
Qed.

Section Loop.

Context {P : Type}.
Variable l2cWrite : P -> list Z -> P * option error.





End Loop.

End LoopProps.

(** ** The peer of a long read *)

Module Peer.

Import Att.

(** Modelled from the spec: the ATT server of the peer (linux/att/server.go
    is not under src/), as far as a long read needs it.  It holds one
    attribute, its handle and value, and the ATT_MTU it sends with; it
    answers Read with the first ATT_MTU - 1 bytes of the value and
    ReadBlob with the ATT_MTU - 1 bytes from the offset on, as the wire
    format the spec names has it (Bluetooth Core, Vol 3 Part F, 3.4.4.4 and
    3.4.4.6), an unknown handle with Invalid Handle (0x01), an offset past
    the end with Invalid Offset (0x07), anything else with Request Not
    Supported.  [pending] is the request it has received last. *)
Record server : Type := mkServer {
  handle : Z;
  value : list Z;
  mtu : Z;
  pending : list Z
}.

Definition receive (s : server) (b : list Z) : server * option error :=
  (mkServer (handle s) (value s) (mtu s) b, None).

Definition chunk (s : server) (offset : Z) : list Z :=
  take (Z.to_nat (mtu s - 1)) (drop (Z.to_nat offset) (value s)).

Definition respond (s : server) : list incoming :=
  match pending s with
  | [op; lo; hi] =>
      if op =? ReadRequestCode
      then if lo + 256 * hi =? handle s
           then [OnRspc (ReadResponseCode :: chunk s 0)]
           else [OnRspc (newErrorResponse op (lo + 256 * hi) 0x01)]
      else [OnRspc (newErrorResponse op 0 ErrReqNotSupp)]
  | [op; lo; hi; olo; ohi] =>
      if op =? ReadBlobRequestCode
      then if lo + 256 * hi =? handle s
           then if olo + 256 * ohi >? len (value s)
                then [OnRspc (newErrorResponse op (lo + 256 * hi) 0x07)]
                else [OnRspc (ReadBlobResponseCode :: chunk s (olo + 256 * ohi))]
           else [OnRspc (newErrorResponse op (lo + 256 * hi) 0x01)]
      else [OnRspc (newErrorResponse op 0 ErrReqNotSupp)]
  | op :: _ => [OnRspc (newErrorResponse op 0 ErrReqNotSupp)]
  | [] => []
  end.

(** the frames written to the bearer, in order *)
Fixpoint writes (tr : list event) : list (list Z) :=
  match tr with
  | [] => []
  | EvWrite b _ :: tr' => b :: writes tr'
  | _ :: tr' => writes tr'
  end.

(** the requests Read(handle) and ReadBlob(handle, offset) on the wire *)
Definition ReadRequest (h : Z) : list Z :=
  [ReadRequestCode; h mod 256; (h / 256) mod 256].

Definition ReadBlobRequest (h offset : Z) : list Z :=
  [ReadBlobRequestCode; h mod 256; (h / 256) mod 256;
   offset mod 256; (offset / 256) mod 256].

End Peer.

(** ** Properties of the long read *)

Module LongRead.

Import Att AttSpec Peer.

Lemma writes_app tr1 tr2 : writes (tr1 ++ tr2) = writes tr1 ++ writes tr2.
Proof.
  induction tr1 as [|e tr1 IH]; simpl; [done|]. destruct e; simpl; by rewrite ?IH.
Qed.

Lemma Read_request (h : Z) buf :
  (3 <= length buf)%nat ->
  obind (upto 3 buf) (fun r =>
    obind (SetAttributeOpcode ReadRequestCode r) (fun r => SetAttributeHandle h r))
  = Returned (ReadRequest h).
Proof.
  intros Hb. destruct buf as [|b0 [|b1 [|b2 rest]]]; simpl in Hb; try lia.
  reflexivity.
Qed.

Lemma ReadBlob_request (h offset : Z) buf :
  (5 <= length buf)%nat ->
  obind (upto 5 buf) (fun r =>
    obind (SetAttributeOpcode ReadBlobRequestCode r) (fun r =>
    obind (SetAttributeHandle h r) (fun r => SetValueOffset offset r)))
  = Returned (ReadBlobRequest h offset).
Proof.
  intros Hb. destruct buf as [|b0 [|b1 [|b2 [|b3 [|b4 rest]]]]]; simpl in Hb; try lia.
  reflexivity.
Qed.

Lemma respond_Read (s : server) :
  0 <= handle s < 65536 ->
  respond (mkServer (handle s) (value s) (mtu s) (ReadRequest (handle s)))
  = [OnRspc (ReadResponseCode :: chunk s 0)].
Proof.
  intros Hh. unfold respond, ReadRequest. cbn [pending handle].
  rewrite Z.eqb_refl, (le16 _ Hh), Z.eqb_refl. reflexivity.
Qed.

Lemma respond_ReadBlob (s : server) (offset : Z) :
  0 <= handle s < 65536 -> 0 <= offset < 65536 -> offset <= len (value s) ->
  respond (mkServer (handle s) (value s) (mtu s) (ReadBlobRequest (handle s) offset))
  = [OnRspc (ReadBlobResponseCode :: chunk s offset)].
Proof.
  intros Hh Ho Hv. unfold respond, ReadBlobRequest. cbn [pending handle value].
  rewrite Z.eqb_refl, (le16 _ Hh), (le16 _ Ho), Z.eqb_refl.
  assert (G : (offset >? len (value s)) = false) by lia.
  rewrite G. reflexivity.
Qed.

Lemma Read_switch_passes (l : list Z) :
  Read_switch (ReadResponseCode :: l) = Returned None.
Proof.
  unfold Read_switch, AttributeOpcode, index. simpl.
  assert (G : (len (ReadResponseCode :: l) <? 1) = false) by (apply Z.ltb_ge; unfold len; simpl length; lia).
  by rewrite G.
Qed.

Lemma ReadBlob_switch_passes (l : list Z) :
  ReadBlob_switch (ReadBlobResponseCode :: l) = Returned None.
Proof.
  unfold ReadBlob_switch, AttributeOpcode, index. simpl.
  assert (G : (len (ReadBlobResponseCode :: l) <? 1) = false) by (apply Z.ltb_ge; unfold len; simpl length; lia).
  by rewrite G.
Qed.

(** Read against the server: the first chunk *)
Lemma Read_from_server (c : Client server) buf :
  chTxBuf c = [buf] -> (3 <= length buf)%nat ->
  0 <= handle (peer (l2c c)) < 65536 ->
  let s := peer (l2c c) in
  let req := ReadRequest (handle s) in
  Read receive respond (handle s) c
  = (Returned (chunk s 0, None),
     mkClient (mkConn (rxMTU (l2c c)) (txMTU (l2c c))
                      (mkServer (handle s) (value s) (mtu s) req))
       [req ++ drop 3 buf] (req ++ drop 3 buf)
       (trace c ++ [EvRecvTxBuf; EvWrite req None;
                    EvSendTxBuf (length (req ++ drop 3 buf))])).
Proof.
  intros Hc Hb Hh s req. unfold Read. rewrite (recv_defer _ c buf Hc).
  erewrite defer_bind by (apply request_returned; simpl; by apply Read_request).
  erewrite defer_bind.
  2:{ eapply (sendReq_response receive respond _ _ _ ReadRequestCode
                (ReadResponseCode :: chunk s 0) ReadResponseCode []); try reflexivity.
      apply (respond_Read s Hh). }
  cbn [l2c chTxBuf txBuf trace rxMTU txMTU peer].
  erewrite defer_bind by (unfold lift; rewrite Read_switch_passes; reflexivity).
  cbn [l2c chTxBuf txBuf trace rxMTU txMTU peer].
  erewrite defer_bind by reflexivity.
  rewrite defer_ret by reflexivity.
  cbn [l2c chTxBuf txBuf trace rxMTU txMTU peer].
  rewrite <- !app_assoc. reflexivity.
Qed.

(** ReadBlob against the server: the chunk at the offset *)
Lemma ReadBlob_from_server (c : Client server) buf (offset : Z) :
  chTxBuf c = [buf] -> (5 <= length buf)%nat ->
  0 <= handle (peer (l2c c)) < 65536 ->
  0 <= offset < 65536 -> offset <= len (value (peer (l2c c))) ->
  let s := peer (l2c c) in
  let req := ReadBlobRequest (handle s) offset in
  ReadBlob receive respond (handle s) offset c
  = (Returned (chunk s offset, None),
     mkClient (mkConn (rxMTU (l2c c)) (txMTU (l2c c))
                      (mkServer (handle s) (value s) (mtu s) req))
       [req ++ drop 5 buf] (req ++ drop 5 buf)
       (trace c ++ [EvRecvTxBuf; EvWrite req None;
                    EvSendTxBuf (length (req ++ drop 5 buf))])).
Proof.
  intros Hc Hb Hh Ho Hv s req. unfold ReadBlob. rewrite (recv_defer _ c buf Hc).
  erewrite defer_bind by (apply request_returned; simpl; by apply ReadBlob_request).
  erewrite defer_bind.
  2:{ eapply (sendReq_response receive respond _ _ _ ReadBlobRequestCode
                (ReadBlobResponseCode :: chunk s offset) ReadBlobResponseCode []);
        try reflexivity.
      apply (respond_ReadBlob s offset Hh Ho Hv). }
  cbn [l2c chTxBuf txBuf trace rxMTU txMTU peer].
  erewrite defer_bind by (unfold lift; rewrite ReadBlob_switch_passes; reflexivity).
  cbn [l2c chTxBuf txBuf trace rxMTU txMTU peer].
  erewrite defer_bind by reflexivity.
  rewrite defer_ret by reflexivity.
  cbn [l2c chTxBuf txBuf trace rxMTU txMTU peer].
  rewrite <- !app_assoc. reflexivity.
Qed.

Section FortyBytes.

Context {H : Type}.

Local Abbreviation GClient := (Gatt.Client server H).

(** the loop of ReadLongCharacteristic stops at a chunk shorter than TxMTU - 1 *)
Lemma readBlobs_stops fuel vh read buffer (p : GClient) :
  len read < txMTU (l2c (Gatt.ac p)) - 1 ->
  Gatt.readBlobs receive respond fuel vh read buffer p = (Returned (buffer, None), p).
Proof.
  intros Hlt.
  assert (G : (len read >=? txMTU (l2c (Gatt.ac p)) - 1) = false) by lia.
  destruct fuel; simpl; unfold Gatt.bind, Gatt.onAc, TxMTU; simpl; rewrite G;
    by destruct p.
Qed.

Lemma chunk_first (s : server) :
  mtu s = 23 -> length (value s) = 40%nat ->
  chunk s 0 = take 22 (value s) /\ length (chunk s 0) = 22%nat.
Proof.
  intros Hm Hv. unfold chunk. rewrite Hm.
  change (Z.to_nat (23 - 1)) with 22%nat. change (Z.to_nat 0) with 0%nat.
  rewrite drop_0. split; [done|]. rewrite length_take. lia.
Qed.

Lemma chunk_second (s : server) :
  mtu s = 23 -> length (value s) = 40%nat ->
  chunk s 22 = drop 22 (value s) /\ length (chunk s 22) = 18%nat.
Proof.
  intros Hm Hv. unfold chunk. rewrite Hm.
  change (Z.to_nat (23 - 1)) with 22%nat. change (Z.to_nat 22) with 22%nat.
  rewrite take_ge by (rewrite length_drop; lia).
  split; [done|]. rewrite length_drop. lia.
Qed.

Lemma g_run_bind {A B} (m : Gatt.G (P := server) (H := H) A) (k : A -> Gatt.G B) p a p1 :
  m p = (Returned a, p1) -> Gatt.bind m k p = k a p1.
Proof. intros E. unfold Gatt.bind. by rewrite E. Qed.

Lemma onAc_run {A} (m : Att.M A) (p : GClient) o c1 :
  m (Gatt.ac p) = (o, c1) -> Gatt.onAc m p = (o, Gatt.mkClient (Gatt.subs p) c1).
Proof. intros E. unfold Gatt.onAc. by rewrite E. Qed.

(** C2 (amended): with TxMTU = 23 on both sides and a characteristic
    value of 40 bytes, ReadLongCharacteristic (given fuel for at least one
    turn of its loop) writes exactly two requests, Read(valueHandle) and
    then ReadBlob(valueHandle, offset = 22): the second chunk has 18 bytes,
    fewer than TxMTU - 1 = 22, and ends the loop.  It returns the 40 bytes
    of the value and stores them in the characteristic. *)
Theorem long_read_of_forty_bytes
  (fuel : nat) (ch : Gatt.Characteristic) (p : GClient) (buf : list Z) :
  let s := peer (l2c (Gatt.ac p)) in
  txMTU (l2c (Gatt.ac p)) = 23 -> mtu s = 23 ->
  chTxBuf (Gatt.ac p) = [buf] -> (5 <= length buf)%nat ->
  Gatt.ValueHandle ch = handle s -> 0 <= handle s < 65536 ->
  length (value s) = 40%nat ->
  (1 <= fuel)%nat ->
  let r := Gatt.ReadLongCharacteristic receive respond fuel ch p in
  r.1 = Returned (value s, None,
                  Gatt.mkCharacteristic (Gatt.ValueHandle ch) (Gatt.CCCD ch) (value s)) /\
  writes (trace (Gatt.ac r.2))
  = writes (trace (Gatt.ac p))
      ++ [ReadRequest (handle s); ReadBlobRequest (handle s) 22].
Proof.
  intros s Htx Hm Hc Hb Hvh Hh Hv Hfuel r.
  destruct (chunk_first s Hm Hv) as [C1 L1].
  destruct (chunk_second s Hm Hv) as [C2 L2].
  assert (Hb3 : (3 <= length buf)%nat) by lia.
  pose proof (Read_from_server (Gatt.ac p) buf Hc Hb3 Hh) as ER.
  cbv zeta in ER. fold s in ER.
  set (req1 := ReadRequest (handle s)) in *.
  set (buf1 := req1 ++ drop 3 buf) in *.
  set (s1 := mkServer (handle s) (value s) (mtu s) req1) in *.
  set (c1 := mkClient (mkConn (rxMTU (l2c (Gatt.ac p))) (txMTU (l2c (Gatt.ac p))) s1)
                      [buf1] buf1
                      (trace (Gatt.ac p) ++ [EvRecvTxBuf; EvWrite req1 None;
                                             EvSendTxBuf (length buf1)])) in *.
  assert (Hb1 : (5 <= length buf1)%nat).
  { subst buf1. rewrite length_app, length_drop. simpl. lia. }
  assert (Ho : 0 <= 22 < 65536) by lia.
  assert (Hv1 : 22 <= len (value (peer (l2c c1)))).
  { simpl. unfold len. rewrite Hv. lia. }
  pose proof (ReadBlob_from_server c1 buf1 22 eq_refl Hb1 Hh Ho Hv1) as EB.
  cbv zeta in EB. cbn [c1 l2c peer s1 handle value mtu rxMTU txMTU trace] in EB.
  assert (S1 : chunk s1 22 = chunk s 22) by reflexivity.
  rewrite S1 in EB.
  set (req2 := ReadBlobRequest (handle s) 22) in *.
  set (c2 := mkClient _ _ _ _) in EB.
  assert (E : Gatt.ReadLongCharacteristic receive respond fuel ch p
              = (Returned (value s, None,
                   Gatt.mkCharacteristic (Gatt.ValueHandle ch) (Gatt.CCCD ch) (value s)),
                 Gatt.mkClient (Gatt.subs p) c2)).
  { unfold Gatt.ReadLongCharacteristic. rewrite Hvh.
    erewrite g_run_bind by (apply onAc_run; exact ER).
    cbv iota beta.
    erewrite g_run_bind.
    2:{ destruct fuel as [|fuel]; [lia|]. cbn [Gatt.readBlobs].
        erewrite g_run_bind by (apply onAc_run; reflexivity).
        cbn [Gatt.ac c1 l2c txMTU]. rewrite Htx.
        assert (G : (len (chunk s 0) >=? 23 - 1) = true)
          by (apply Z.geb_le; unfold len; rewrite L1; lia).
        rewrite G.
        assert (U : uint16 (len (chunk s 0)) = 22) by (unfold len; rewrite L1; reflexivity).
        rewrite U.
        erewrite g_run_bind by (apply onAc_run; exact EB).
        cbv iota beta.
        apply readBlobs_stops.
        cbn [Gatt.ac c2 l2c txMTU]. rewrite Htx. unfold len. rewrite L2. lia. }
    cbv iota beta. unfold Gatt.ret.
    rewrite C1, C2, take_drop. reflexivity. }
  subst r. rewrite E. split; [reflexivity|].
  cbn [snd Gatt.ac]. subst c2. cbn [trace].
  rewrite !writes_app, <- app_assoc. reflexivity.
Qed.

End FortyBytes.

(** a server that holds the bytes 1 to 40 at handle 0x0012, and a GATT
    client fresh on a connection to it, with TxMTU = 23 *)
Definition forty : list Z := seqZ 1 40.

Definition battery : server := mkServer 0x0012 forty 23 [].

Definition central : Gatt.Client server nat :=
  Gatt.mkClient ∅ (Scenario.fresh 23 battery).

Definition reading : Gatt.Characteristic := Gatt.mkCharacteristic 0x0012 None [].

(** C2 as the specification has it fails: no ReadBlob(offset = 40) is
    issued; the requests are Read and ReadBlob(offset = 22), and the value
    comes back whole. *)
Lemma long_read_stops_after_the_short_chunk :
  let r := Gatt.ReadLongCharacteristic receive respond 5 reading central in
  r.1 = Returned (forty, None, Gatt.mkCharacteristic 0x0012 None forty) /\
  writes (trace (Gatt.ac r.2)) = [ReadRequest 0x0012; ReadBlobRequest 0x0012 22] /\
  writes (trace (Gatt.ac r.2))
  <> [ReadRequest 0x0012; ReadBlobRequest 0x0012 22; ReadBlobRequest 0x0012 40].
Proof.
  vm_compute. repeat split. discriminate.
Qed.

Lemma long_read_witness :
  let r := Gatt.ReadLongCharacteristic receive respond 5 reading central in
  r.1 = Returned (forty, None, Gatt.mkCharacteristic 0x0012 None forty) /\
  writes (trace (Gatt.ac r.2))
  = writes (trace (Gatt.ac central)) ++ [ReadRequest 0x0012; ReadBlobRequest 0x0012 22].
Proof.
  apply (long_read_of_forty_bytes (H := nat) 5 reading central (make 23));
    try reflexivity; try (simpl; lia).
Defined.

End LongRead.
(** ** What a request gets back from sendReq *)

Module AttMore.

Import Att AttSpec.


(** a frame that sendReq, waiting for the response to a request with
    opcode [reqop], answers with an Error Response *)
Definition stray (reqop : Z) (i : incoming) : Prop :=
  exists op rest, i = OnRspc (op :: rest) /\
                  op <> ErrorResponseCode /\ op <> rspOfReq reqop.

Section SendReq.

Context {P : Type}.
Variable l2cWrite : P -> list Z -> P * option error.
Variable arrivals : P -> list incoming.



End SendReq.

End AttMore.

(** ** Package att: the operations that wait for no response *)

Module AttCommands.

Import Att.

(** Modelled from the spec: the opcode of the Write Command (att_gen.go is
    not under src/), with the value of the wire format the spec names
    (Bluetooth Core, Vol 3 Part F, 3.4.8). *)
Definition WriteCommandCode : Z := 0x52.

Section Bearer.

Context {P : Type}.
Variable l2cWrite : P -> list Z -> P * option error.

Local Abbreviation M := (Att.M (P := P)).

Local Notation "'let*' x ':=' m 'in' k" := (bind m (fun x => k))
  (at level 10, x pattern, k at level 200).
Local Notation "'let?' x ':=' o 'in' k" := (obind o (fun x => k))
  (at level 10, x pattern, k at level 200).

(** func (c *Client) sendCmd(b []byte) error *)
Definition sendCmd (b : list Z) : M (option error) := l2cWriteM l2cWrite b.

(** func (c *Client) WriteCommand(handle uint16, value []byte) error *)
Definition WriteCommand (handle : Z) (value : list Z) : M (option error) :=
  let* mtu := TxMTU in
  if len value >? mtu - 3
  then ret (Some ErrInvalidArgument)
  else
    let* _ := recvTxBuf in
    deferSendTxBuf (
      let* req := request (3 + length value) (fun r =>
        let? r := SetAttributeOpcode WriteCommandCode r in
        let? r := SetAttributeHandle handle r in
        SetAttributeValue value r) in
      sendCmd req).


End Bearer.

End AttCommands.

Module AttCommandsProps.

Import Att AttSpec AttCommands.

(** the bytes of a request or command with a handle and a value *)
Lemma value_request code handle value buf :
  (3 + length value <= length buf)%nat ->
  obind (upto (3 + length value) buf) (fun r =>
    obind (SetAttributeOpcode code r) (fun r =>
    obind (SetAttributeHandle handle r) (fun r => SetAttributeValue value r)))
  = Returned ([code; handle mod 256; (handle / 256) mod 256] ++ value).
Proof.
  intros Hb.
  destruct buf as [|b0 [|b1 [|b2 rest]]]; simpl in Hb; try lia.
  unfold upto. case_decide as Hd; [|simpl in Hd; lia].
  unfold SetAttributeOpcode, SetAttributeHandle, SetAttributeValue, set8, PutUint16.
  simpl. unfold copy_at. simpl.
  rewrite length_take, Nat.sub_0_r, Nat.min_l by lia.
  rewrite firstn_all, drop_ge by (rewrite length_take; lia).
  by rewrite app_nil_r.
Qed.

Section Props.

Context {P : Type}.
Variable l2cWrite : P -> list Z -> P * option error.

Local Abbreviation M := (Att.M (P := P)).

(** X2: WriteCommand, on a client whose buffer has the length of the
    connection's TxMTU.  A value longer than TxMTU - 3 is rejected with
    ErrInvalidArgument and nothing is touched.  Any other value goes out
    in one write of opcode 0x52, handle (little-endian) and value; the
    call returns the error of that write as it is, waits for no frame,
    and puts the buffer, which now holds the command, back. *)
Theorem WriteCommand_writes_once_and_waits_for_nothing
  (handle : Z) (value : list Z) (c : Client P) (buf : list Z) :
  chTxBuf c = [buf] -> len buf = txMTU (l2c c) ->
  let pdu := [WriteCommandCode; handle mod 256; (handle / 256) mod 256] ++ value in
  (len value > txMTU (l2c c) - 3 ->
   WriteCommand l2cWrite handle value c = (Returned (Some ErrInvalidArgument), c)) /\
  (len value <= txMTU (l2c c) - 3 ->
   WriteCommand l2cWrite handle value c
   = (Returned (l2cWrite (peer (l2c c)) pdu).2,
      mkClient (mkConn (rxMTU (l2c c)) (txMTU (l2c c)) (l2cWrite (peer (l2c c)) pdu).1)
        [pdu ++ drop (3 + length value) buf] (pdu ++ drop (3 + length value) buf)
        (trace c ++ [EvRecvTxBuf; EvWrite pdu (l2cWrite (peer (l2c c)) pdu).2;
                     EvSendTxBuf (length buf)]))).
Proof.
  intros Hc Hinv pdu.
  split; intros Hv; unfold WriteCommand; unfold bind at 1; unfold TxMTU.
  - assert (G : (len value >? txMTU (l2c c) - 3) = true) by lia.
    by rewrite G.
  - assert (G : (len value >? txMTU (l2c c) - 3) = false) by lia.
    rewrite G. unfold len in *.
    assert (Hb : (3 + length value <= length buf)%nat) by lia.
    rewrite (recv_defer _ c buf Hc).
    erewrite defer_bind by (apply request_returned; simpl; by apply value_request).
    fold pdu. unfold sendCmd, deferSendTxBuf, l2cWriteM, sendTxBuf. simpl.
    destruct (l2cWrite (peer (l2c c)) pdu) as [p' e]. simpl.
    rewrite <- app_assoc. simpl.
    assert (L : S (S (S (length (value ++ drop (S (S (S (length value)))) buf))))
                = length buf).
    { rewrite length_app, length_drop. simpl in Hb. lia. }
    rewrite L, <- app_assoc. reflexivity.
Qed.


End Props.

Lemma WriteCommand_witness :
  chTxBuf (Scenario.fresh 23 tt) = [make 23] /\
  len (make 23) = txMTU (l2c (Scenario.fresh 23 tt)) /\
  (WriteCommand Scenario.accept 0x0012 (replicate 20 7) (Scenario.fresh 23 tt)).1
  = Returned None.
Proof.
  split; [reflexivity|]. split; [reflexivity|].
  destruct (WriteCommand_writes_once_and_waits_for_nothing Scenario.accept
              0x0012 (replicate 20 7) (Scenario.fresh 23 tt) (make 23)
              eq_refl eq_refl) as [_ H].
  rewrite H; [reflexivity | vm_compute; discriminate].
Defined.

End AttCommandsProps.

(** ** How the request operations end *)

Module AttAnswers.

Import Att AttSpec.




(** the bytes of a Prepare Write Request: the five bytes the setters
    store, and after them what the buffer held *)
Lemma PrepareWrite_request (h offset : Z) (n : nat) buf :
  (5 + n <= length buf)%nat ->
  obind (upto (5 + n) buf) (fun r =>
    obind (SetAttributeOpcode PrepareWriteRequestCode r) (fun r =>
    obind (SetAttributeHandle h r) (fun r => SetValueOffset offset r)))
  = Returned ([PrepareWriteRequestCode; h mod 256; (h / 256) mod 256;
               offset mod 256; (offset / 256) mod 256] ++ take n (drop 5 buf)).
Proof.
  intros Hb. destruct buf as [|b0 [|b1 [|b2 [|b3 [|b4 rest]]]]]; simpl in Hb; try lia.
  unfold upto. case_decide as Hd; [|simpl in Hd; lia].
  reflexivity.
Qed.



Section Answers.

Context {P : Type}.
Variable l2cWrite : P -> list Z -> P * option error.
Variable arrivals : P -> list incoming.

Local Abbreviation M := (Att.M (P := P)).

(** An operation that takes the buffer, builds its request and sends it,
    when the first frame to arrive is the response or an Error Response:
    what is left is the rest of the operation on that frame. *)
Lemma answered {A} n fill (k : list Z * option error -> M A)
  (c : Client P) buf req reqop rsp op p' inc :
  chTxBuf c = [buf] ->
  obind (upto n buf) fill = Returned req ->
  req !! 0%nat = Some reqop ->
  l2cWrite (peer (l2c c)) req = (p', None) ->
  arrivals p' = OnRspc rsp :: inc ->
  rsp !! 0%nat = Some op ->
  (op =? ErrorResponseCode) || (op =? rspOfReq reqop) = true ->
  bind recvTxBuf (fun _ =>
    deferSendTxBuf (bind (request n fill) (fun req =>
      bind (sendReq l2cWrite arrivals req) k))) c
  = deferSendTxBuf (k (rsp, None))
      (mkClient (mkConn (rxMTU (l2c c)) (txMTU (l2c c)) p') [] (req ++ drop n buf)
         (trace c ++ [EvRecvTxBuf; EvWrite req None])).
Proof.
  intros Hc Hreq Hr0 Hw Ha Hrsp Hop.
  rewrite (recv_defer _ c buf Hc).
  erewrite defer_bind by (apply request_returned; exact Hreq).
  erewrite defer_bind by (eapply sendReq_response; simpl; eauto).
  simpl. by rewrite <- app_assoc.
Qed.





(** X5: PrepareWrite never sends its value.  On a client whose buffer
    has the length of the connection's TxMTU, for a value that passes the
    length check, the request on the wire is the opcode 0x16, the handle
    and the offset, followed by len(value) bytes that are what the buffer
    held behind its first five bytes: the value itself is not copied. *)
Theorem PrepareWrite_sends_what_the_buffer_held
  (handle offset : Z) (value : list Z) (c : Client P) (buf : list Z) :
  chTxBuf c = [buf] -> len buf = txMTU (l2c c) -> len value <= txMTU (l2c c) - 5 ->
  exists e tr,
    trace (PrepareWrite l2cWrite arrivals handle offset value c).2
    = trace c ++ EvRecvTxBuf
        :: EvWrite ([PrepareWriteRequestCode; handle mod 256; (handle / 256) mod 256;
                     offset mod 256; (offset / 256) mod 256]
                    ++ take (length value) (drop 5 buf)) e
        :: tr.
Proof.
  intros Hc Hinv Hv. unfold len in *.
  unfold PrepareWrite. unfold bind at 1. unfold TxMTU.
  assert (G : (Z.of_nat (length value) >? txMTU (l2c c) - 5) = false) by lia.
  unfold len. rewrite G.
  eapply AttProps.first_write; [exact Hc | | intros [b [e|]]; AttProps.solve_quiet].
  apply PrepareWrite_request. lia.
Qed.


End Answers.


Lemma PrepareWrite_witness :
  exists e tr,
    trace (PrepareWrite Scenario.accept (Scenario.scripted []) 0x0012 0 [1; 2; 3]
             (Scenario.fresh 23 tt)).2
    = trace (Scenario.fresh 23 tt) ++ EvRecvTxBuf
        :: EvWrite ([PrepareWriteRequestCode; 0x12; 0; 0; 0] ++ [0; 0; 0]) e :: tr.
Proof.
  apply (PrepareWrite_sends_what_the_buffer_held Scenario.accept (Scenario.scripted [])
           0x0012 0 [1; 2; 3] (Scenario.fresh 23 tt) (make 23)).
  - reflexivity.
  - reflexivity.
  - vm_compute. discriminate.
Defined.


End AttAnswers.

(** ** The length of the transmit buffer *)

Module AttBuffer.

Import Att AttSpec.

(** the setters of a request leave its length alone *)
Definition same_length (fill : list Z -> outcome (list Z)) : Prop :=
  forall r r', fill r = Returned r' -> length r' = length r.

Lemma same_length_obind f g :
  same_length f -> same_length g -> same_length (fun r => obind (f r) g).
Proof.
  intros Hf Hg r r'. destruct (f r) as [r1| | |] eqn:E; simpl; try discriminate.
  intros E2. rewrite (Hg _ _ E2). by apply Hf.
Qed.

Lemma same_length_set8 i v : same_length (set8 i v).
Proof.
  intros r r'. unfold set8. case_decide; [|discriminate].
  intros [= <-]. by rewrite length_insert.
Qed.

Lemma same_length_PutUint16 off v : same_length (PutUint16 off v).
Proof.
  intros r r'. unfold PutUint16. case_decide; [|discriminate].
  intros [= <-]. by rewrite !length_insert.
Qed.

Lemma same_length_copy_at off src : same_length (copy_at off src).
Proof.
  intros r r'. unfold copy_at. case_decide; [|discriminate].
  intros [= <-]. rewrite !length_app, !length_take, length_drop. lia.
Qed.

Lemma same_length_putHandles hs : forall off, same_length (putHandles off hs).
Proof.
  induction hs as [|h hs IH]; intros off r r'; simpl.
  - by intros [= <-].
  - destruct (PutUint16 off h r) as [r1| | |] eqn:E; simpl; try discriminate.
    intros E2. rewrite (IH _ _ _ E2). by apply (same_length_PutUint16 off h).
Qed.

Section Buffer.

Context {P : Type}.
Variable l2cWrite : P -> list Z -> P * option error.
Variable arrivals : P -> list incoming.

Local Abbreviation M := (Att.M (P := P)).

(** the buffer in use has as many bytes as the TxMTU of the connection
    (none when the TxMTU is not positive) *)
Definition sized (c : Client P) : Prop :=
  length (txBuf c) = Z.to_nat (txMTU (l2c c)).

(** the buffer in the channel has as many bytes as the TxMTU *)
Definition stocked (c : Client P) : Prop :=
  exists buf, chTxBuf c = [buf] /\ length buf = Z.to_nat (txMTU (l2c c)).

Definition keeps {A} (m : M A) : Prop := forall c, sized c -> sized (m c).2.

Lemma keeps_ret {A} (a : A) : keeps (ret a : M A).
Proof. by intros c Hc. Qed.

Lemma keeps_lift {A} (o : outcome A) : keeps (lift o : M A).
Proof. by intros c Hc. Qed.

Lemma keeps_bind {A B} (m : M A) (k : A -> M B) :
  keeps m -> (forall a, keeps (k a)) -> keeps (bind m k).
Proof.
  intros Hm Hk c Hc. unfold bind. pose proof (Hm c Hc) as H1.
  destruct (m c) as [o c1]. destruct o; simpl in *; auto. by apply Hk.
Qed.

Lemma keeps_TxMTU : keeps (TxMTU : M Z).
Proof. by intros c Hc. Qed.

Lemma keeps_l2cSetRxMTU mtu : keeps (l2cSetRxMTU mtu : M unit).
Proof. by intros c Hc. Qed.

Lemma keeps_l2cWriteM b : keeps (l2cWriteM l2cWrite b).
Proof.
  intros c Hc. unfold l2cWriteM. by destruct (l2cWrite (peer (l2c c)) b).
Qed.

Lemma keeps_request n fill : same_length fill -> keeps (request n fill : M (list Z)).
Proof.
  intros Hf c Hc. unfold request, upto.
  case_decide as Hn; simpl; [|done].
  destruct (fill (take n (txBuf c))) as [req| | |] eqn:E; simpl; try done.
  unfold sized in *. simpl. rewrite <- Hc.
  rewrite length_app, length_drop, (Hf _ _ E), length_take. lia.
Qed.

Lemma keeps_state {A} (f : Client P -> M A) :
  (forall c0, keeps (f c0)) -> keeps (fun c => f c c).
Proof. intros Hf c. apply (Hf c c). Qed.

Lemma keeps_awaitRsp reqop inc : keeps (awaitRsp l2cWrite reqop inc).
Proof.
  induction inc as [|i inc IH]; simpl.
  - apply keeps_ret.
  - destruct i as [rsp|e]; [|apply keeps_ret].
    apply keeps_bind; [apply keeps_lift|]. intros op.
    case_match; [apply keeps_ret|].
    apply keeps_bind; [apply keeps_l2cWriteM|]. intros [e|]; [apply keeps_ret | apply IH].
Qed.

Lemma keeps_sendReq b : keeps (sendReq l2cWrite arrivals b).
Proof.
  unfold sendReq. apply keeps_bind; [apply keeps_l2cWriteM|].
  intros [e|]; [apply keeps_ret|].
  apply keeps_bind; [apply keeps_lift|]. intros op.
  apply (keeps_state (fun c => awaitRsp l2cWrite op (arrivals (peer (l2c c))))).
  intros c0. apply keeps_awaitRsp.
Qed.

(** if len(txBuf) != serverRxMTU { c.l2c.SetTxMTU(serverRxMTU);
    txBuf = make([]byte, serverRxMTU, serverRxMTU) } *)
Lemma keeps_resize mtu :
  keeps (fun c : Client P =>
           if negb (len (txBuf c) =? mtu)
           then bind (l2cSetTxMTU mtu) (fun _ => reallocTxBuf mtu) c
           else ret tt c).
Proof.
  intros c Hc. destruct (negb (len (txBuf c) =? mtu)); [|done].
  unfold sized. simpl. unfold make. by rewrite length_replicate.
Qed.

(** after it, the buffer has serverRxMTU bytes *)
Lemma resize_length mtu (c : Client P) :
  length (txBuf ((if negb (len (txBuf c) =? mtu)
                  then bind (l2cSetTxMTU mtu) (fun _ => reallocTxBuf mtu) c
                  else ret tt c).2))
  = Z.to_nat mtu.
Proof.
  destruct (len (txBuf c) =? mtu) eqn:E; simpl.
  - unfold len in E. lia.
  - unfold make. by rewrite length_replicate.
Qed.

(** an operation between taking the buffer and putting it back *)
Lemma stocked_bracket {A} (body : M A) :
  quiet body -> keeps body ->
  forall c, stocked c -> stocked (bind recvTxBuf (fun _ => deferSendTxBuf body) c).2.
Proof.
  intros Hq Hk c (buf & Hc & Hl).
  rewrite (recv_defer _ c buf Hc).
  set (c1 := mkClient (l2c c) [] buf (trace c ++ [EvRecvTxBuf])).
  destruct (Hq c1) as (mid & Ht & Hs & Hch & Ho).
  assert (Hz : sized (body c1).2) by (apply Hk; exact Hl).
  unfold deferSendTxBuf. destruct (body c1) as [o c2]. simpl in *.
  destruct o; simpl in *; try discriminate;
    unfold sendTxBuf; rewrite Hch; simpl; by exists (txBuf c2).
Qed.

Lemma stocked_snd {A B} (m : M A) (f : A -> B) c :
  stocked (m c).2 -> stocked (bind m (fun r => ret (f r)) c).2.
Proof. unfold bind. destruct (m c) as [o c1]. by destruct o. Qed.

(** [restocks m]: started with a buffer of TxMTU bytes in the channel,
    [m] ends with a buffer of TxMTU bytes in the channel *)
Definition restocks {A} (m : M A) : Prop := forall c, stocked c -> stocked (m c).2.

Lemma restocks_ret {A} (a : A) : restocks (ret a : M A).
Proof. by intros c Hc. Qed.

Lemma restocks_TxMTU {A} (k : Z -> M A) :
  (forall mtu, restocks (k mtu)) -> restocks (bind TxMTU k).
Proof. intros Hk c Hc. apply (Hk (txMTU (l2c c)) c Hc). Qed.

Lemma restocks_snd {A B} (m : M A) (f : A -> B) :
  restocks m -> restocks (bind m (fun r => ret (f r))).
Proof. intros Hm c Hc. apply stocked_snd, Hm, Hc. Qed.

Lemma restocks_bracket {A} (body : M A) :
  quiet body -> keeps body -> restocks (bind recvTxBuf (fun _ => deferSendTxBuf body)).
Proof. intros Hq Hk c. by apply stocked_bracket. Qed.

End Buffer.

Ltac same_length_step :=
  repeat first
    [ apply same_length_set8
    | apply same_length_PutUint16
    | apply same_length_copy_at
    | apply same_length_putHandles
    | apply same_length_obind ].

Ltac keeps_step :=
  first
    [ apply keeps_ret
    | apply keeps_TxMTU
    | apply keeps_l2cSetRxMTU
    | apply keeps_l2cWriteM
    | apply keeps_sendReq
    | apply keeps_resize
    | apply keeps_request; unfold_pdu; same_length_step
    | apply keeps_lift
    | apply keeps_bind; [ | intros ? ]
    | match goal with |- keeps (match ?x with _ => _ end) => destruct x end ].

Section Calls.

Context {P : Type}.
Variable l2cWrite : P -> list Z -> P * option error.
Variable arrivals : P -> list incoming.

Lemma restocks_run k : restocks (run l2cWrite arrivals k).
Proof.
  destruct k; simpl;
    unfold ExchangeMTU, FindInformation, ReadByType, Read, ReadBlob,
      ReadMultiple, ReadByGroupType, Write, PrepareWrite, ExecuteWrite;
    try apply restocks_snd;
    try (apply restocks_TxMTU; intros ?);
    try match goal with
        | |- restocks (if ?g then _ else _) =>
            destruct g; [by apply restocks_ret|]
        end;
    (apply restocks_bracket;
     [ repeat quiet_step; try apply quiet_resize | repeat keeps_step ]).
Qed.

(** X7: the buffer in the channel always has the length of the
    connection's TxMTU.  A client fresh from NewClient has one buffer of
    TxMTU bytes in the channel, and after any sequence of request
    operations, whatever the peer answers and whether the operations
    return or panic, one buffer is in the channel and its length is the
    TxMTU the connection has then. *)
Theorem buffer_has_the_length_of_TxMTU (conn : Conn P) (ks : list call) :
  let c := foldl (fun c k => (run l2cWrite arrivals k c).2) (NewClient conn) ks in
  exists buf, chTxBuf c = [buf] /\ length buf = Z.to_nat (txMTU (l2c c)).
Proof.
  simpl.
  assert (H0 : stocked (NewClient conn)).
  { exists (make (txMTU conn)). split; [done|]. unfold make. by rewrite length_replicate. }
  revert H0. generalize (NewClient conn). induction ks as [|k ks IH]; intros c Hc.
  - exact Hc.
  - simpl. apply IH. by apply restocks_run.
Qed.

(** when ExchangeMTU returns a server MTU, the buffer it puts back has
    that many bytes *)
Lemma ExchangeMTU_returned (clientRxMTU mtu : Z) (c c1 : Client P) buf :
  chTxBuf c = [buf] ->
  ExchangeMTU l2cWrite arrivals clientRxMTU c = (Returned (mtu, None), c1) ->
  exists buf', chTxBuf c1 = [buf'] /\ length buf' = Z.to_nat mtu.
Proof.
  intros Hc. unfold ExchangeMTU.
  destruct ((clientRxMTU <? DefaultMTU) || (clientRxMTU >? MaxMTU)); [discriminate|].
  rewrite (recv_defer _ c buf Hc).
  set (c0 := mkClient (l2c c) [] buf (trace c ++ [EvRecvTxBuf])).
  match goal with |- deferSendTxBuf ?b c0 = _ -> _ => set (body := b) end.
  assert (Hq : quiet body) by (subst body; repeat quiet_step; apply quiet_resize).
  destruct (Hq c0) as (mid & _ & _ & Hch & _).
  unfold deferSendTxBuf. destruct (body c0) as [o c2] eqn:E. simpl in Hch.
  destruct o as [a| | |]; try discriminate.
  2:{ unfold sendTxBuf. rewrite Hch. discriminate. }
  unfold sendTxBuf. rewrite Hch. intros [= -> <-]. simpl.
  exists (txBuf c2). split; [done|].
  subst body.
  apply bind_returned in E as (u & c3 & _ & E).
  apply bind_returned in E as (req & c4 & _ & E).
  apply bind_returned in E as ([b err] & c5 & _ & E).
  destruct err as [e|]; [discriminate|].
  apply bind_returned in E as (v & c6 & _ & E).
  destruct v as [e|]; [discriminate|].
  apply bind_returned in E as (mtu' & c7 & _ & E).
  apply bind_returned in E as (u' & c8 & E8 & E).
  injection E as -> ->.
  pose proof (resize_length mtu c7) as L. by rewrite E8 in L.
Qed.

(** X8: ExchangeMTU takes any server MTU, and a small one disables the
    client.  When ExchangeMTU has returned a server MTU below 3, the
    buffer it put back is that short, and the next Read, whose request
    is the slice txBuf[:3], takes the buffer, panics before it writes
    and puts the buffer back. *)
Theorem Read_panics_after_a_server_MTU_below_3
  (clientRxMTU mtu handle : Z) (c c1 : Client P) (buf : list Z) :
  chTxBuf c = [buf] ->
  ExchangeMTU l2cWrite arrivals clientRxMTU c = (Returned (mtu, None), c1) ->
  mtu < 3 ->
  let r := Read l2cWrite arrivals handle c1 in
  r.1 = Panicked /\
  trace r.2 = trace c1 ++ [EvRecvTxBuf; EvSendTxBuf (Z.to_nat mtu)].
Proof.
  intros Hc E Hm r. subst r.
  destruct (ExchangeMTU_returned clientRxMTU mtu c c1 buf Hc E) as (buf' & Hc1 & Hl).
  unfold Read. rewrite (recv_defer _ c1 buf' Hc1).
  set (c2 := mkClient (l2c c1) [] buf' (trace c1 ++ [EvRecvTxBuf])).
  rewrite (defer_panic _ c2 c2); [ | | reflexivity].
  - simpl. rewrite Hl, <- app_assoc. done.
  - unfold bind. rewrite request_panicked; [done|].
    unfold upto. simpl. case_decide; [lia | done].
Qed.

End Calls.

Lemma small_MTU_witness :
  let c := Scenario.fresh 23 tt in
  let inc := Scenario.scripted [OnRspc [ExchangeMTUResponseCode; 2; 0]] in
  let c1 := (ExchangeMTU Scenario.accept inc 339 c).2 in
  ExchangeMTU Scenario.accept inc 339 c = (Returned (2, None), c1) /\
  (Read Scenario.accept inc 0x0012 c1).1 = Panicked /\
  trace (Read Scenario.accept inc 0x0012 c1).2
  = trace c1 ++ [EvRecvTxBuf; EvSendTxBuf 2].
Proof.
  split; [reflexivity|].
  apply (Read_panics_after_a_server_MTU_below_3 Scenario.accept
           (Scenario.scripted [OnRspc [ExchangeMTUResponseCode; 2; 0]])
           339 2 0x0012 (Scenario.fresh 23 tt)
           (ExchangeMTU Scenario.accept
              (Scenario.scripted [OnRspc [ExchangeMTUResponseCode; 2; 0]])
              339 (Scenario.fresh 23 tt)).2 (make 23)).
  - reflexivity.
  - reflexivity.
  - lia.
Defined.

End AttBuffer.

(** ** Where the receive loop sends what it reads *)

Module LoopRoutes.

Import Att.

(** How far the loop is with the frame it has read. *)
Inductive stage : Type :=
| Idle                       (* the last frame has been dealt with *)
| Got (b : list Z)           (* b was read and has gone nowhere yet *)
| Owed                       (* an indication is with the dispatcher; its confirmation is due *)
| Failed (r : readResult).   (* the read returned an error *)

(** the frame [b] starts with an opcode that satisfies [Q] *)
Definition opcode (b : list Z) (Q : Z -> Prop) : Prop :=
  exists op rest, b = op :: rest /\ Q op.

Definition after_read (r : readResult) : stage :=
  match r with
  | ReadFrame b => Got b
  | _ => Failed r
  end.

(** the stages in which the loop may read again: the last frame has been
    dealt with, or it was a request or a notification that found its
    queue full and was dropped *)
Definition may_read (st : stage) : Prop :=
  match st with
  | Idle => True
  | Got b => opcode b (fun op => Z.even op = true \/ op = HandleValueNotificationCode)
  | _ => False
  end.

(** [lawful st tr]: from stage [st] on, the trace [tr] sends every frame
    to the one place its opcode names, right after it was read: a frame
    with an even opcode to c.inc, a notification or an indication to the
    dispatcher, any other frame to c.rspc; the only write is the
    confirmation of the indication just read; an error of the read goes
    to c.chErr (io.ErrClosedPipe as the error disconnected) and nothing
    follows it; and the transmit buffer and the MTUs are left alone. *)
Fixpoint lawful (st : stage) (tr : list event) : Prop :=
  match tr with
  | [] => True
  | e :: tr' =>
      match e with
      | EvRead r => may_read st /\ lawful (after_read r) tr'
      | EvToInc b =>
          st = Got b /\ opcode b (fun op => Z.even op = true) /\ lawful Idle tr'
      | EvToRspc b =>
          st = Got b /\
          opcode b (fun op => Z.odd op = true /\ op <> HandleValueNotificationCode
                              /\ op <> HandleValueIndicationCode) /\
          lawful Idle tr'
      | EvToHandler b =>
          st = Got b /\
          ((opcode b (fun op => op = HandleValueNotificationCode) /\ lawful Idle tr') \/
           (opcode b (fun op => op = HandleValueIndicationCode) /\ lawful Owed tr'))
      | EvWrite w _ =>
          w = [HandleValueConfirmationCode] /\
          (st = Owed \/
           exists b, st = Got b /\ opcode b (fun op => op = HandleValueIndicationCode)) /\
          lawful Idle tr'
      | EvChErr e =>
          ((st = Failed ReadClosedPipe /\ e = ErrMessage "disconnected") \/
           st = Failed (ReadError e)) /\
          tr' = []
      | _ => False
      end
  end.

Lemma land1_even op : (Z.land op 0x01 =? 0x00) = Z.even op.
Proof.
  change 0x01 with (Z.ones 1). rewrite Z.land_ones by lia.
  change (2 ^ 1) with 2. by rewrite Zeven_mod.
Qed.

Section Loop.

Context {P : Type}.
Variable l2cWrite : P -> list Z -> P * option error.

Ltac next_turn IH st :=
  match goal with
  | |- context [Loop _ _ _ ?c2] =>
      let tr := fresh "tr" in
      let E := fresh "E" in
      let Hl := fresh "Hl" in
      destruct (IH c2 st) as (tr & E & Hl)
  end.

Ltac end_turn E :=
  eexists; split;
  [ rewrite ?E; simpl; rewrite <- ?app_assoc; reflexivity | ].

Lemma Loop_lawful handler turns : forall (c : Client P) (st : stage),
  may_read st ->
  exists tr, trace (Loop l2cWrite handler turns c).2 = trace c ++ tr /\ lawful st tr.
Proof.
  induction turns as [|t turns IH]; intros c st Hst; simpl.
  - exists []. by rewrite app_nil_r.
  - destruct t as [top rd aft route]; simpl.
    destruct top; try (exists []; by rewrite app_nil_r).
    unfold bind at 1. unfold log at 1. simpl.
    destruct aft; try (exists [EvRead rd]; by simpl).
    destruct rd as [b| |e].
    2:{ unfold log. simpl. eexists [_; _]. rewrite <- app_assoc.
        split; [reflexivity|]. simpl. auto. }
    2:{ unfold log. simpl. eexists [_; _]. rewrite <- app_assoc.
        split; [reflexivity|]. simpl. auto. }
    unfold bind at 1. unfold lift at 1. unfold index.
    destruct b as [|op b]; simpl; [by exists [EvRead (ReadFrame [])]|].
    rewrite land1_even.
    destruct (Z.even op) eqn:Eeven.
    { assert (Hop : opcode (op :: b) (fun op => Z.even op = true)) by (exists op, b; auto).
      destruct route; try (exists [EvRead (ReadFrame (op :: b))]; by simpl).
      - unfold bind, log. simpl. next_turn IH Idle; [done|].
        end_turn E. simpl. auto.
      - next_turn IH (Got (op :: b)); [exists op, b; auto|].
        end_turn E. simpl. auto. }
    assert (Hodd : Z.odd op = true) by (rewrite Zodd_even_bool, Eeven; done).
    clear Eeven.
    destruct (negb (op =? HandleValueNotificationCode)
              && negb (op =? HandleValueIndicationCode)) eqn:Ersp.
    { apply andb_true_iff in Ersp as [H1 H2].
      apply negb_true_iff, Z.eqb_neq in H1. apply negb_true_iff, Z.eqb_neq in H2.
      destruct route; try (exists [EvRead (ReadFrame (op :: b))]; by simpl).
      unfold bind, log. simpl. next_turn IH Idle; [done|].
      end_turn E. simpl. split; [done|]. split; [done|]. split; [|done].
      exists op, b. auto. }
    unfold bind at 1. unfold lift at 1.
    destruct handler; [|exists [EvRead (ReadFrame (op :: b))]; by simpl].
    destruct route; try (exists [EvRead (ReadFrame (op :: b))]; by simpl).
    + unfold bind at 1. unfold log at 1. simpl. unfold bind at 1. unfold confirm.
      destruct (op =? HandleValueIndicationCode) eqn:Ei.
      * apply Z.eqb_eq in Ei. unfold bind at 1. unfold l2cWriteM. simpl.
        destruct (l2cWrite _ _) as [p' e]. unfold ret.
        next_turn IH Idle; [done|].
        end_turn E. simpl. split; [done|]. split; [done|]. right.
        split; [exists op, b; auto|]. auto.
      * simpl in Ersp. rewrite ?andb_true_r in Ersp.
        apply negb_false_iff, Z.eqb_eq in Ersp. unfold ret.
        next_turn IH Idle; [done|].
        end_turn E. simpl. split; [done|]. split; [done|]. left.
        split; [exists op, b; auto | done].
    + unfold bind at 1. unfold confirm.
      destruct (op =? HandleValueIndicationCode) eqn:Ei.
      * apply Z.eqb_eq in Ei. unfold bind at 1. unfold l2cWriteM. simpl.
        destruct (l2cWrite _ _) as [p' e]. unfold ret.
        next_turn IH Idle; [done|].
        end_turn E. simpl. split; [done|]. split; [done|]. split; [|done].
        right. exists (op :: b). split; [done|]. exists op, b. auto.
      * simpl in Ersp. rewrite ?andb_true_r in Ersp.
        apply negb_false_iff, Z.eqb_eq in Ersp. unfold ret.
        next_turn IH (Got (op :: b)); [exists op, b; auto|].
        end_turn E. simpl. auto.
Qed.




End Loop.

End LoopRoutes.

(** ** Package gatt: notifications and the end of subscriptions *)

Module GattMore.

Import Gatt.

(** What HandleNotification does with a frame. *)
Inductive delivery (H : Type) : Type :=
| Unregistered                                (* p.Warnf("got an unregistered notification") *)
| Delivered (h : H) (id : Z) (nd : list Z)    (* sub.iHandler(sub.id, nd) or sub.nHandler(sub.id, nd) *)
| Dropped.                                    (* no handler: the data is dropped *)

Arguments Unregistered {H}.
Arguments Delivered {H} h id nd.
Arguments Dropped {H}.

Section Client.

Context {P H : Type}.
Variable l2cWrite : P -> list Z -> P * option error.
Variable arrivals : P -> list Att.incoming.

(** the width of Go's uint, the type of sub.id: 32 or 64 by platform *)
Variable uintSize : Z.

Definition uint (v : Z) : Z := v mod 2 ^ uintSize.

Local Notation "'let*' x ':=' m 'in' k" := (bind m (fun x => k))
  (at level 10, x pattern, k at level 200).

(** func (p *Client) HandleNotification(req []byte).

    Modelled from the spec: HandleValueIndication(req).AttributeHandle()
    (att_gen.go is not under src/) reads the handle at octets 1 and 2,
    as the wire format the spec names has it (Bluetooth Core, Vol 3
    Part F, 3.4.7.1 and 3.4.7.2). *)
Definition HandleNotification (req : list Z) (p : Client P H)
  : outcome (delivery H) * Client P H :=
  match Uint16 1 req with
  | Returned vh =>
      match subs p !! vh with
      | None => (Returned Unregistered, p)
      | Some s =>
          match index req 0, from 3 req with
          | Returned op, Returned nd =>
              let indication := op =? Att.HandleValueIndicationCode in
              let d := match indication, iHandler s, nHandler s with
                       | true, Some ih, _ => Delivered ih (id s) nd
                       | _, _, Some nh => Delivered nh (id s) nd
                       | _, _, None => Dropped
                       end in
              (* sub.id++ *)
              (Returned d,
               mkClient (<[vh := mkSub (cccdh s) (ccc s) (nHandler s) (iHandler s)
                                       (uint (id s + 1))]> (subs p))
                        (ac p))
          | _, _ => (Panicked, p)
          end
      end
  | _ => (Panicked, p)
  end.

(** The dispatcher goroutine of att.Client.Loop,
    for w := range ch { w.handle(w.data) },
    over the frames the loop has queued: they are handled one after the
    other, and a panic ends the goroutine. *)
Fixpoint dispatch (reqs : list (list Z)) (p : Client P H)
  : list (delivery H) * Client P H :=
  match reqs with
  | [] => ([], p)
  | req :: rest =>
      match HandleNotification req p with
      | (Returned d, p') => let '(ds, p'') := dispatch rest p' in (d :: ds, p'')
      | (_, p') => ([], p')
      end
  end.

(** The loop of ClearSubscriptions over the entries of p.subs,
    for vh, s := range p.subs { ... delete(p.subs, vh) },
    in the order [order] in which the range statement yields them. *)
Fixpoint clear (order : list (Z * sub H)) : G (P := P) (H := H) (option error) :=
  match order with
  | [] => ret None
  | (vh, s) :: rest =>
      let* err := onAc (Att.Write l2cWrite arrivals (cccdh s) (make 2)) in
      match err with
      | Some e => ret (Some e)
      | None =>
          let* _ := (fun p => (Returned tt, mkClient (delete vh (subs p)) (ac p))) in
          clear rest
      end
  end.

(** func (p *Client) ClearSubscriptions() error.  The order of a range
    over a Go map is not specified: [order] is any arrangement of the
    entries of p.subs. *)
Definition ClearSubscriptions (order : list (Z * sub H)) : G (option error) :=
  clear order.

End Client.

End GattMore.

Module GattMoreProps.

Import Gatt GattMore.

Section Notifications.

Context {P H : Type}.
Variable uintSize : Z.

Local Abbreviation HandleNotification := (GattMore.HandleNotification (P := P) (H := H) uintSize).
Local Abbreviation dispatch := (GattMore.dispatch (P := P) (H := H) uintSize).
Local Abbreviation uint := (GattMore.uint uintSize).




(** a frame of fewer than three bytes has no room for the handle *)
Lemma HandleNotification_short (req : list Z) (p : Client P H) :
  (length req < 3)%nat -> HandleNotification req p = (Panicked, p).
Proof.
  intros Hl. unfold GattMore.HandleNotification, Uint16.
  destruct req as [|op [|lo [|hi nd]]]; simpl in *; try done. lia.
Qed.

End Notifications.

Section Short.

Context {P H : Type}.
Variable l2cWrite : P -> list Z -> P * option error.
Variable uintSize : Z.

(** X11: a notification or an indication of fewer than three bytes stops
    the dispatcher.  The receive loop looks at the opcode only: it hands
    such a frame to the dispatcher like any other, and HandleNotification,
    which reads the handle at octets 1 and 2, panics on it and leaves the
    table as it is. *)
Theorem short_notification_panics_in_the_dispatcher
  (op : Z) (rest : list Z) (turns : list Att.turn)
  (c : Att.Client P) (p : Client P H) :
  op = Att.HandleValueNotificationCode \/ op = Att.HandleValueIndicationCode ->
  (length rest < 2)%nat ->
  let req := op :: rest in
  let t := Att.mkTurn Att.PollDefault (Att.ReadFrame req) Att.PollDefault Att.PickSend in
  (exists tr,
     Att.trace (Att.Loop l2cWrite true (t :: turns) c).2
     = Att.trace c ++ Att.EvRead (Att.ReadFrame req) :: Att.EvToHandler req :: tr) /\
  GattMore.HandleNotification uintSize req p = (Panicked, p) /\
  (forall later, (GattMore.dispatch uintSize (req :: later) p).1 = []).
Proof.
  intros Hop Hl req t.
  assert (Hp : GattMore.HandleNotification uintSize req p = (Panicked, p))
    by (apply HandleNotification_short; simpl; lia).
  split; [|split; [exact Hp|]].
  - subst t req. simpl.
    unfold Att.bind at 1. unfold Att.log at 1. simpl.
    unfold Att.bind at 1. unfold Att.lift at 1. unfold index. simpl.
    assert (E1 : (Z.land op 1 =? 0) = false) by (destruct Hop; by subst).
    assert (E2 : negb (op =? Att.HandleValueNotificationCode)
                 && negb (op =? Att.HandleValueIndicationCode) = false)
      by (destruct Hop; by subst).
    rewrite E1, E2.
    unfold Att.bind at 1. unfold Att.lift at 1.
    unfold Att.bind at 1. unfold Att.log at 1. simpl.
    unfold Att.bind at 1. unfold Att.confirm.
    destruct (op =? Att.HandleValueIndicationCode).
    + unfold Att.bind at 1. unfold Att.l2cWriteM. simpl.
      destruct (l2cWrite _ _) as [p' e]. unfold Att.ret.
      match goal with |- context [Att.Loop _ _ _ ?c2] =>
        destruct (LoopRoutes.Loop_lawful l2cWrite true turns c2 LoopRoutes.Idle I)
          as (tr & E & _) end.
      rewrite E. simpl. rewrite <- !app_assoc. simpl. eauto.
    + unfold Att.ret.
      match goal with |- context [Att.Loop _ _ _ ?c2] =>
        destruct (LoopRoutes.Loop_lawful l2cWrite true turns c2 LoopRoutes.Idle I)
          as (tr & E & _) end.
      rewrite E. simpl. rewrite <- !app_assoc. simpl. eauto.
  - intros later. simpl. by rewrite Hp.
Qed.

End Short.

Section Subscriptions.

Context {P H : Type}.
Variable l2cWrite : P -> list Z -> P * option error.
Variable arrivals : P -> list Att.incoming.

Local Abbreviation setHandlers := (Gatt.setHandlers (H := H) l2cWrite arrivals).

(** X12: a failed write of the CCCD forgets the whole subscription.  When
    setHandlers returns an error, the table has no entry for the value
    handle any more, whatever it held before: a handler of the other kind
    that was subscribed earlier is gone with it, while the entries of the
    other value handles stay. *)
Theorem failed_CCCD_write_forgets_the_subscription
  (cccdh' vh flag : Z) (h : option H) (p p' : Client P H) (e : error) :
  setHandlers cccdh' vh flag h p = (Returned (Some e), p') ->
  subs p' !! vh = None /\
  (forall k, k <> vh -> subs p' !! k = subs p !! k).
Proof.
  unfold Gatt.setHandlers.
  set (s := match subs p !! vh with Some s => s | None => mkSub cccdh' 0 None None 0 end).
  destruct h as [h|]; destruct (negb (Z.land (ccc s) flag =? 0)); try discriminate.
  - match goal with |- context [onAc ?m ?q] =>
      pose proof (GattProps.onAc_subs m q) as Hsub; destruct (onAc m q) as [o p2] end.
    simpl in Hsub. destruct o as [[e'|]| | |]; try discriminate.
    intros [= <- <-]. simpl. rewrite Hsub. split; [apply lookup_delete_eq|].
    intros k Hk. by rewrite lookup_delete_ne, !lookup_insert_ne.
  - match goal with |- context [onAc ?m ?q] =>
      pose proof (GattProps.onAc_subs m q) as Hsub; destruct (onAc m q) as [o p2] end.
    simpl in Hsub. destruct o as [[e'|]| | |]; try discriminate.
    intros [= <- <-]. simpl. rewrite Hsub. split; [apply lookup_delete_eq|].
    intros k Hk. by rewrite lookup_delete_ne, !lookup_insert_ne.
Qed.

(** X13: Subscribe and then Unsubscribe leave an empty entry behind.  On
    a table without an entry for the value handle, when Subscribe with a
    handler has returned nil and Unsubscribe for the same kind has
    returned nil after it, the table holds an entry for the value handle
    with the handle of the CCCD, no flag, no handler and the id 0: the
    entry is not deleted. *)
Theorem Unsubscribe_leaves_an_empty_entry
  (c : Characteristic) (d : Descriptor) (ind : bool) (h : H) (p p1 p2 : Client P H) :
  CCCD c = Some d -> subs p !! ValueHandle c = None ->
  Subscribe l2cWrite arrivals c ind (Some h) p = (Returned None, p1) ->
  Unsubscribe (H := H) l2cWrite arrivals c ind p1 = (Returned None, p2) ->
  subs p2 = <[ValueHandle c := mkSub (Handle d) 0 None None 0]> (subs p).
Proof.
  intros Hd Hs. unfold Subscribe, Unsubscribe. rewrite Hd.
  set (flag := if ind then cccIndicate else cccNotify).
  assert (Hun : (if ind
            then Gatt.setHandlers (H := H) l2cWrite arrivals (Handle d) (ValueHandle c) cccIndicate None
            else Gatt.setHandlers l2cWrite arrivals (Handle d) (ValueHandle c) cccNotify None) p1
          = setHandlers (Handle d) (ValueHandle c) flag None p1)
    by (subst flag; by destruct ind).
  rewrite Hun. clear Hun.
  assert (Hf : flag = cccNotify \/ flag = cccIndicate) by (subst flag; destruct ind; auto).
  clearbody flag.
  (* Subscribe *)
  unfold Gatt.setHandlers at 1. rewrite Hs. simpl.
  match goal with |- context [onAc ?m ?q] =>
    pose proof (GattProps.onAc_subs m q) as Hsub; destruct (onAc m q) as [o q1] end.
  simpl in Hsub. destruct o as [[e'|]| | |]; try discriminate.
  intros [= <-].
  (* Unsubscribe *)
  unfold Gatt.setHandlers. rewrite Hsub, lookup_insert_eq.
  assert (E1 : (Z.land (ccc (if flag =? cccNotify
                             then mkSub (Handle d) (Z.lor 0 flag) (Some h) None 0
                             else mkSub (Handle d) (Z.lor 0 flag) None (Some h) 0)) flag
                =? 0) = false).
  { destruct Hf; subst; reflexivity. }
  rewrite E1. simpl.
  match goal with |- context [onAc ?m ?q] =>
    pose proof (GattProps.onAc_subs m q) as Hsub2; destruct (onAc m q) as [o q2] end.
  simpl in Hsub2. destruct o as [[e'|]| | |]; try discriminate.
  intros [= <-]. rewrite Hsub2.
  rewrite !insert_insert_eq.
  destruct Hf; subst; reflexivity.
Qed.

(** what a run of the loop of ClearSubscriptions leaves of the table *)
Lemma clear_subs (order : list (Z * sub H)) : forall (p p' : Client P H) err,
  GattMore.clear l2cWrite arrivals order p = (Returned err, p') ->
  match err with
  | None => subs p' = foldl (fun m e => delete e.1 m) (subs p) order
  | Some _ =>
      exists done vh s rest,
        order = done ++ (vh, s) :: rest /\
        subs p' = foldl (fun m e => delete e.1 m) (subs p) done
  end.
Proof.
  induction order as [|[vh s] order IH]; intros p p' err; simpl.
  - intros [= <- <-]. done.
  - unfold bind at 1.
    match goal with |- context [onAc ?m ?q] =>
      pose proof (GattProps.onAc_subs m q) as Hsub; destruct (onAc m q) as [o p1] end.
    simpl in Hsub. destruct o as [[e|]| | |]; try discriminate.
    + intros [= <- <-]. exists [], vh, s, order. by rewrite Hsub.
    + unfold bind at 1. intros E. apply IH in E. simpl in E.
      destruct err as [e|].
      * destruct E as (done & vh' & s' & rest & -> & E).
        exists ((vh, s) :: done), vh', s', rest. split; [done|].
        simpl. by rewrite <- Hsub.
      * by rewrite <- Hsub.
Qed.

Lemma foldl_delete_lookup (l : list (Z * sub H)) : forall (m : gmap Z (sub H)) k,
  foldl (fun m e => delete e.1 m) m l !! k
  = if decide (k ∈ l.*1) then None else m !! k.
Proof.
  induction l as [|[vh s] l IH]; intros m k.
  - simpl. destruct (decide (k ∈ [])) as [Hk|_]; [by apply elem_of_nil in Hk | done].
  - cbn [foldl fmap list_fmap fst]. rewrite IH.
    destruct (decide (k ∈ l.*1)) as [Hk|Hk];
      destruct (decide (k ∈ vh :: l.*1)) as [Hk'|Hk']; try done.
    + exfalso. apply Hk'. by right.
    + apply elem_of_cons in Hk' as [->|Hk']; [|done]. apply lookup_delete_eq.
    + rewrite lookup_delete_ne; [done|]. intros ->. apply Hk'. by left.
Qed.

(** X14: ClearSubscriptions empties the table or stops at the first
    write that fails.  Whatever the order in which the entries of the
    table come up: when it returns nil the table is empty; when it
    returns an error, the entries handled before the failing one are
    deleted, and the failing one and those that were still to come are in
    the table as before. *)
Theorem ClearSubscriptions_empties_the_table_or_stops
  (order : list (Z * sub H)) (p p' : Client P H) (err : option error) :
  order ≡ₚ map_to_list (subs p) ->
  GattMore.ClearSubscriptions l2cWrite arrivals order p = (Returned err, p') ->
  match err with
  | None => subs p' = ∅
  | Some _ =>
      exists done vh s rest,
        order = done ++ (vh, s) :: rest /\
        (forall k, k ∈ done.*1 -> subs p' !! k = None) /\
        (forall k, k ∈ ((vh, s) :: rest).*1 -> subs p' !! k = subs p !! k)
  end.
Proof.
  intros Hperm E. unfold GattMore.ClearSubscriptions in E.
  apply clear_subs in E.
  assert (Hnd : NoDup order.*1).
  { rewrite Hperm. apply NoDup_fst_map_to_list. }
  destruct err as [e|].
  - destruct E as (done & vh & s & rest & -> & E).
    exists done, vh, s, rest. split; [done|].
    rewrite fmap_app in Hnd. apply NoDup_app in Hnd as (_ & Hdis & _).
    split; intros k Hk; rewrite E, foldl_delete_lookup; case_decide; try done.
    exfalso. by apply (Hdis k).
  - apply map_eq. intros k. rewrite E, foldl_delete_lookup, lookup_empty.
    case_decide as Hk; [done|].
    destruct (subs p !! k) as [s|] eqn:Hs; [|done].
    exfalso. apply Hk. rewrite Hperm.
    apply list_elem_of_fmap. exists (k, s). split; [done|].
    by apply elem_of_map_to_list.
Qed.

End Subscriptions.

(** a client with one subscription to notifications of the value handle
    0x0012, whose next id is 5, and two notifications for it *)
Definition listening : Client unit nat :=
  mkClient {[ 0x0012 := mkSub 0x0013 cccNotify (Some 7%nat) None 5 ]}
           (Scenario.fresh 23 tt).



Lemma short_notification_witness :
  let req := [Att.HandleValueNotificationCode; 0x12] in
  let t := Att.mkTurn Att.PollDefault (Att.ReadFrame req) Att.PollDefault Att.PickSend in
  (exists tr,
     Att.trace (Att.Loop Scenario.accept true [t] (Scenario.fresh 23 tt)).2
     = Att.trace (Scenario.fresh 23 tt)
         ++ Att.EvRead (Att.ReadFrame req) :: Att.EvToHandler req :: tr) /\
  GattMore.HandleNotification 64 req listening = (Panicked, listening) /\
  (forall later, (GattMore.dispatch 64 (req :: later) listening).1 = []).
Proof.
  apply (short_notification_panics_in_the_dispatcher Scenario.accept 64
           Att.HandleValueNotificationCode [0x12] [] (Scenario.fresh 23 tt) listening).
  - by left.
  - simpl. lia.
Defined.

(** the same subscription on a bearer whose writes fail *)
Definition cut_off : Client nat nat :=
  mkClient {[ 0x0012 := mkSub 0x0013 cccNotify (Some 7%nat) None 5 ]}
           (Scenario.fresh 23 0%nat).

Lemma failed_write_witness :
  let p' := (Gatt.setHandlers Scenario.failing (Scenario.scriptedN []) 0x0013 0x0012
               cccIndicate (Some 9%nat) cut_off).2 in
  subs p' !! 0x0012 = None /\
  (forall k, k <> 0x0012 -> subs p' !! k = subs cut_off !! k).
Proof.
  intros p'.
  apply (failed_CCCD_write_forgets_the_subscription Scenario.failing (Scenario.scriptedN [])
           0x0013 0x0012 cccIndicate (Some 9%nat) cut_off p'
           (Errorf "send ATT request failed" (ErrBearer 0))).
  subst p'.
  destruct (Gatt.setHandlers Scenario.failing (Scenario.scriptedN []) 0x0013 0x0012
              cccIndicate (Some 9%nat) cut_off) as [o q] eqn:E.
  assert (Ho : o = Returned (Some (Errorf "send ATT request failed" (ErrBearer 0)))).
  { change o with (o, q).1. rewrite <- E. vm_compute. reflexivity. }
  by rewrite Ho.
Defined.

Lemma Unsubscribe_witness :
  let p1 := (Subscribe Scenario.accept GattProps.answering GattProps.level false
               (Some 7%nat) GattProps.unsubscribed).2 in
  let p2 := (Unsubscribe (H := nat) Scenario.accept GattProps.answering GattProps.level
               false p1).2 in
  subs p2 = <[ValueHandle GattProps.level := mkSub 0x0013 0 None None 0]>
              (subs GattProps.unsubscribed).
Proof.
  intros p1 p2.
  apply (Unsubscribe_leaves_an_empty_entry Scenario.accept GattProps.answering
           GattProps.level (mkDescriptor 0x0013) false 7%nat GattProps.unsubscribed p1 p2).
  - reflexivity.
  - reflexivity.
  - subst p1.
    destruct (Subscribe Scenario.accept GattProps.answering GattProps.level false
                (Some 7%nat) GattProps.unsubscribed) as [o q] eqn:E.
    assert (Ho : o = Returned None).
    { change o with (o, q).1. rewrite <- E. vm_compute. reflexivity. }
    by rewrite Ho.
  - subst p2.
    destruct (Unsubscribe (H := nat) Scenario.accept GattProps.answering GattProps.level
                false p1) as [o q] eqn:E.
    assert (Ho : o = Returned None).
    { change o with (o, q).1. rewrite <- E. vm_compute. reflexivity. }
    by rewrite Ho.
Defined.

Lemma ClearSubscriptions_witness :
  let p := mkClient (subs listening)
             (Att.mkClient (Att.mkConn 23 23 tt) [make 23] [] []) in
  let p' := (GattMore.ClearSubscriptions Scenario.accept GattProps.answering
               (map_to_list (subs p)) p).2 in
  subs p' = ∅.
Proof.
  intros p p'.
  apply (ClearSubscriptions_empties_the_table_or_stops Scenario.accept GattProps.answering
           (map_to_list (subs p)) p p' None).
  - reflexivity.
  - subst p'.
    destruct (GattMore.ClearSubscriptions Scenario.accept GattProps.answering
                (map_to_list (subs p)) p) as [o q] eqn:E.
    assert (Ho : o = Returned None).
    { change o with (o, q).1. rewrite <- E. vm_compute. reflexivity. }
    by rewrite Ho.
Defined.

End GattMoreProps.

(** ** A long read of any length *)

Module LongReadAll.

Import Att AttSpec Peer LongRead.

Section AnyLength.

Context {H : Type}.

Local Abbreviation GClient := (Gatt.Client server H).

(** the chunk the server sends for the offset where the buffer ends
    extends the buffer by the next bytes of the value *)
Lemma chunk_extends (s : server) (buffer : list Z) :
  buffer = take (length buffer) (value s) ->
  buffer ++ chunk s (len buffer)
  = take (length buffer + Z.to_nat (mtu s - 1)) (value s).
Proof.
  intros Hb. unfold chunk, len. rewrite Nat2Z.id.
  rewrite Hb at 1. apply take_take_drop.
Qed.

Lemma take_length_take (l : list Z) (n : nat) : take (length (take n l)) l = take n l.
Proof.
  rewrite length_take. destruct (Nat.le_ge_cases n (length l)) as [Hn|Hn].
  - by rewrite Nat.min_l.
  - rewrite Nat.min_r by done. rewrite firstn_all. symmetry. by apply take_ge.
Qed.

Lemma chunk_length (s : server) (n : nat) :
  length (chunk s (Z.of_nat n))
  = (Z.to_nat (mtu s - 1) `min` (length (value s) - n))%nat.
Proof. unfold chunk. by rewrite Nat2Z.id, length_take, length_drop. Qed.

Lemma g_bind_fst {A B} (m : Gatt.G (P := server) (H := H) A) (k : A -> Gatt.G B) p a :
  (m p).1 = Returned a -> Gatt.bind m k p = k a (m p).2.
Proof. unfold Gatt.bind. destruct (m p) as [o p1]. simpl. by intros ->. Qed.

(** the loop of ReadLongCharacteristic against the server: it ends with
    the whole value *)
Lemma readBlobs_all (hd : Z) (vl : list Z) (m : Z) :
  0 <= hd < 65536 -> len vl < 65536 -> 2 <= m ->
  forall (fuel : nat) (read buffer : list Z) (p : GClient) (buf : list Z),
    chTxBuf (Gatt.ac p) = [buf] -> (5 <= length buf)%nat ->
    handle (peer (l2c (Gatt.ac p))) = hd ->
    value (peer (l2c (Gatt.ac p))) = vl ->
    mtu (peer (l2c (Gatt.ac p))) = m ->
    txMTU (l2c (Gatt.ac p)) = m ->
    buffer = take (length buffer) vl ->
    (len read < m - 1 -> buffer = vl) ->
    (len read >= m - 1 -> (length vl - length buffer < fuel)%nat) ->
    (Gatt.readBlobs receive respond fuel hd read buffer p).1 = Returned (vl, None).
Proof.
  intros Hhd Hvl Hm. unfold len in Hvl. induction fuel as [|fuel IH];
    intros read buffer p buf Hc Hb Eh Ev Em Etx Hbuf Hshort Hfull.
  - destruct (Z_lt_ge_dec (len read) (m - 1)) as [Hlt|Hge]; [|specialize (Hfull Hge); lia].
    rewrite readBlobs_stops by (rewrite Etx; exact Hlt).
    simpl. by rewrite Hshort.
  - destruct (Z_lt_ge_dec (len read) (m - 1)) as [Hlt|Hge].
    { rewrite readBlobs_stops by (rewrite Etx; exact Hlt).
      simpl. by rewrite Hshort. }
    specialize (Hfull Hge).
    assert (Hlen : (length buffer <= length vl)%nat).
    { rewrite Hbuf, length_take. lia. }
    cbn [Gatt.readBlobs].
    erewrite g_run_bind by (apply onAc_run; reflexivity).
    cbn [Gatt.ac]. rewrite Etx.
    assert (G : (len read >=? m - 1) = true) by (apply Z.geb_le; lia).
    rewrite G.
    assert (U : uint16 (len buffer) = len buffer).
    { unfold uint16, len. apply Z.mod_small. lia. }
    rewrite U.
    assert (Ho : 0 <= len buffer < 65536) by (unfold len; lia).
    assert (Hov : len buffer <= len (value (peer (l2c (Gatt.ac p)))))
      by (rewrite Ev; unfold len; lia).
    assert (Hh' : 0 <= handle (peer (l2c (Gatt.ac p))) < 65536) by (rewrite Eh; exact Hhd).
    pose proof (ReadBlob_from_server (Gatt.ac p) buf (len buffer) Hc Hb Hh' Ho Hov) as EB.
    cbv zeta in EB. rewrite Eh in EB.
    erewrite g_run_bind by (apply onAc_run; exact EB).
    cbv iota beta.
    set (s := peer (l2c (Gatt.ac p))) in *.
    assert (Hbuf' : buffer = take (length buffer) (value s)) by (rewrite Ev; exact Hbuf).
    pose proof (chunk_extends s buffer Hbuf') as Hext.
    pose proof (chunk_length s (length buffer)) as Hcl.
    rewrite Ev, Em in Hext, Hcl. fold (len buffer) in Hcl.
    eapply IH.
    + reflexivity.
    + cbn [Gatt.ac txBuf]. rewrite length_app, length_drop. simpl. lia.
    + reflexivity.
    + exact Ev.
    + exact Em.
    + exact Etx.
    + rewrite Hext. symmetry. apply take_length_take.
    + unfold len at 1. rewrite Hcl. intros Hlt.
      rewrite Hext. apply take_ge. lia.
    + unfold len at 1. rewrite Hcl. intros Hge'.
      rewrite length_app, Hcl. lia.
Qed.

(** X15: a long read returns the whole value, whatever its length.  With
    the same ATT_MTU of at least 5 on both sides and a characteristic
    value of fewer than 65536 bytes on the server, ReadLongCharacteristic
    (given loop fuel for as many turns as the value has bytes) returns
    the value as the server holds it and stores it in the
    characteristic. *)
Theorem long_read_returns_the_whole_value
  (fuel : nat) (ch : Gatt.Characteristic) (p : GClient) (buf : list Z) :
  let s := peer (l2c (Gatt.ac p)) in
  txMTU (l2c (Gatt.ac p)) = mtu s -> 2 <= mtu s ->
  chTxBuf (Gatt.ac p) = [buf] -> (5 <= length buf)%nat ->
  Gatt.ValueHandle ch = handle s -> 0 <= handle s < 65536 ->
  len (value s) < 65536 ->
  (length (value s) < fuel)%nat ->
  (Gatt.ReadLongCharacteristic receive respond fuel ch p).1
  = Returned (value s, None,
              Gatt.mkCharacteristic (Gatt.ValueHandle ch) (Gatt.CCCD ch) (value s)).
Proof.
  intros s Htx Hm Hc Hb Hvh Hh Hv Hfuel.
  assert (Hb3 : (3 <= length buf)%nat) by lia.
  pose proof (Read_from_server (Gatt.ac p) buf Hc Hb3 Hh) as ER.
  cbv zeta in ER. fold s in ER.
  unfold Gatt.ReadLongCharacteristic. rewrite Hvh.
  erewrite g_run_bind by (apply onAc_run; exact ER).
  cbv iota beta.
  assert (C0 : chunk s 0 = take (Z.to_nat (mtu s - 1)) (value s)).
  { unfold chunk. change (Z.to_nat 0) with 0%nat. by rewrite drop_0. }
  erewrite g_bind_fst.
  2:{ eapply (readBlobs_all (handle s) (value s) (mtu s) Hh Hv Hm).
      - reflexivity.
      - cbn [Gatt.ac txBuf]. rewrite length_app, length_drop. simpl. lia.
      - reflexivity.
      - reflexivity.
      - reflexivity.
      - exact Htx.
      - rewrite C0. symmetry. apply take_length_take.
      - unfold len. rewrite C0, length_take. intros Hlt. apply take_ge. lia.
      - intros _. rewrite C0, length_take. lia. }
  reflexivity.
Qed.

End AnyLength.

(** a server that holds the bytes 1 to 100 at handle 0x0012, and a GATT
    client fresh on a connection to it, with TxMTU = 23 *)
Definition hundred : list Z := seqZ 1 100.

Definition sensor : server := mkServer 0x0012 hundred 23 [].

Definition reader : Gatt.Client server nat :=
  Gatt.mkClient ∅ (Scenario.fresh 23 sensor).

Lemma long_read_all_witness :
  (Gatt.ReadLongCharacteristic receive respond 101 reading reader).1
  = Returned (hundred, None, Gatt.mkCharacteristic 0x0012 None hundred).
Proof.
  apply (long_read_returns_the_whole_value (H := nat) 101 reading reader (make 23));
    try reflexivity; try (simpl; lia).
Defined.

End LongReadAll.

(** ** The SMP dispatcher after the pairing has finished *)

Module SmpMore.

Import Smp.

(** X16: a handler that fails after the pairing has finished makes Handle
    panic.  When the handler of one PDU has left the pairing in the state
    Finished without an error, Handle returns nil and closes the channel
    m.result; when the handler of a later PDU then returns an error,
    Handle sets the state Error and sends the error on the closed
    channel, which panics; nothing more is delivered to a Pair call. *)
Theorem failing_handler_after_Finished_panics
  {X : Type} (dispatcher : Z -> option (entry X))
  (writePDU : transport X -> list Z -> option error)
  (inp1 inp2 : list Z) (m : manager X) (code1 code2 : Z) (data1 data2 : list Z)
  (h1 h2 : transport X -> list Z -> transport X * option error)
  (tr1 tr2 : transport X) (e : error) :
  payload inp1 = Returned (code1 :: data1) ->
  dispatcher code1 = Some (mkEntry (Some h1)) ->
  h1 (t m) data1 = (tr1, None) ->
  state (pairing tr1) = Finished ->
  payload inp2 = Returned (code2 :: data2) ->
  dispatcher code2 = Some (mkEntry (Some h2)) ->
  h2 tr1 data2 = (tr2, Some e) ->
  let r1 := Handle dispatcher writePDU inp1 m in
  let r2 := Handle dispatcher writePDU inp2 r1.2 in
  r1 = (Returned None, mkManager tr1 ResultClosed (delivered m)) /\
  r2 = (Panicked, mkManager (setState Error tr2) ResultClosed (delivered m)).
Proof.
  intros Hp1 Hd1 Hh1 Hs1 Hp2 Hd2 Hh2 r1 r2.
  assert (E1 : r1 = (Returned None, mkManager tr1 ResultClosed (delivered m))).
  { subst r1. unfold Handle. rewrite Hp1. simpl. unfold from. simpl.
    rewrite Hd1. cbv iota beta. change (drop 0 data1) with data1.
    rewrite Hh1. cbv iota beta. rewrite Hs1. reflexivity. }
  split; [exact E1|].
  subst r2. rewrite E1. unfold Handle. rewrite Hp2. simpl. unfold from. simpl.
  rewrite Hd2. cbv iota beta. change (drop 0 data2) with data2.
  rewrite Hh2. reflexivity.
Qed.

(** a table whose handler for the DHKey check (0x0d) finishes the pairing
    and whose handler for the pairing confirm (0x03) fails *)
Definition finishing : Z -> option (entry unit) :=
  fun code =>
    if code =? 0x0d
    then Some (mkEntry (Some (fun tr _ => (setState Finished tr, None))))
    else if code =? 0x03
    then Some (mkEntry (Some (fun tr _ => (tr, Some (ErrMessage "unexpected confirm")))))
    else None.

Lemma failing_handler_witness :
  let m := SmpProps.idle in
  let r1 := Handle finishing SmpProps.writeOk [0x02; 0x00; 0x06; 0x00; 0x0d; 0x01] m in
  let r2 := Handle finishing SmpProps.writeOk [0x02; 0x00; 0x06; 0x00; 0x03; 0x01] r1.2 in
  r1 = (Returned None,
        mkManager (setState Finished (t m)) ResultClosed (delivered m)) /\
  r2 = (Panicked,
        mkManager (setState Error (setState Finished (t m))) ResultClosed (delivered m)).
Proof.
  apply (failing_handler_after_Finished_panics finishing SmpProps.writeOk
           [0x02; 0x00; 0x06; 0x00; 0x0d; 0x01] [0x02; 0x00; 0x06; 0x00; 0x03; 0x01]
           SmpProps.idle 0x0d 0x03 [0x01] [0x01]
           (fun tr _ => (setState Finished tr, None))
           (fun tr _ => (tr, Some (ErrMessage "unexpected confirm")))
           (setState Finished (t SmpProps.idle)) (setState Finished (t SmpProps.idle))
           (ErrMessage "unexpected confirm")); reflexivity.
Defined.

End SmpMore.
